(** * honeyaws publisher: a shallow embedding of [publisher/publisher.go]

    The development follows the Go source function by function:
    [dropNegativeTimes], [addTraceData], [basicAuth], one iteration of the
    delivery loop of [sendEventsToHoneycomb], and [Publish].

    Go values are represented as follows.
    - [string]            : [string] (a Go string is a sequence of bytes);
    - [int64]             : [Z];
    - [float64]           : [spec_float] at precision 53 and [emax] 1024;
    - [interface{}]       : the tagged union [Value];
    - [map[string]interface{}] : [gmap string Value];
    - a pair of a value and an [error] : [result], an error being its
      message;
    - a run-time panic    : the constructor [Panicked] of [outcome].

    Functions of the Go standard library and of other files of the
    package ([time.Parse], [json.Marshal], [http.Client.Do], [os.Remove],
    [requestShaper.Shape], [EventParser.ParseEvents]) are parameters of
    the definitions that call them. *)

From Stdlib Require Import ZArith String Ascii List Bool Lia.
From Stdlib Require Import Floats.SpecFloat DecimalString.
From stdpp Require Import gmap strings.

Local Open Scope string_scope.

(** ** float64 *)

Module GoFloat.

Definition prec : Z := 53.
Definition emax : Z := 1024.

Definition float64 : Type := spec_float.

(** The zero value of a [float64] variable, also the literals [0] and
    [0.0]. *)
Definition zero : float64 := S754_zero false.

(** Conversion [float64(n)] of an integer: rounding to nearest, ties to
    even. *)
Definition of_int64 (n : Z) : float64 := binary_normalize prec emax n 0 false.

(** [x < y], [x > y] and [x == y] on float64. *)
Definition lt (x y : float64) : bool := SFltb x y.
Definition gt (x y : float64) : bool := SFltb y x.
Definition eq (x y : float64) : bool := SFeqb x y.

End GoFloat.

Abbreviation float64 := GoFloat.float64.

(** ** Outcomes of a call *)

(** A Go function that can panic either returns or unwinds. The maps the
    publisher works on are mutated in place, so the writes made before a
    panic stay visible; [Panicked] therefore carries the state reached. *)
Inductive outcome (A : Type) : Type :=
  | Returned (a : A)
  | Panicked (a : A) (msg : string).
Arguments Returned {A} a.
Arguments Panicked {A} a msg.

Definition stateOf {A : Type} (o : outcome A) : A :=
  match o with
  | Returned a => a
  | Panicked a _ => a
  end.

Definition returned {A : Type} (o : outcome A) : bool :=
  match o with
  | Returned _ => true
  | Panicked _ _ => false
  end.

(** Sequencing of two calls: a panic in the first one skips the second. *)
Definition andThen {A : Type} (o : outcome A) (k : A -> outcome A) : outcome A :=
  match o with
  | Returned a => k a
  | Panicked a msg => Panicked a msg
  end.

(** ** strings *)

(** [strings.Split(s, sep)] for a separator of one byte. The result always
    has one element more than [sep] occurs in [s]. *)
Fixpoint strings_Split (s : string) (sep : ascii) : list string :=
  match s with
  | EmptyString => [EmptyString]
  | String c s' =>
      if Ascii.eqb c sep then EmptyString :: strings_Split s' sep
      else match strings_Split s' sep with
           | w :: ws => String c w :: ws
           | [] => [String c EmptyString]
           end
  end.

(** [c] occurs in [s]. *)
Fixpoint occurs (c : ascii) (s : string) : bool :=
  match s with
  | EmptyString => false
  | String a s' => Ascii.eqb a c || occurs c s'
  end.

(** ** Event data *)

(** The dynamic types of the values of [ev.Data]: the ones the type
    switches and type assertions of the publisher name, and booleans. *)
Inductive Value : Type :=
  | VString (s : string)
  | VInt64 (n : Z)
  | VFloat64 (x : float64)
  | VBool (b : bool).

(** [time.Time] without a monotonic clock reading: an instant, counted in
    nanoseconds since the Unix epoch. *)
Definition Time : Type := Z.

(** [time.Duration]: an int64 count of nanoseconds. *)
Definition Duration : Type := Z.

(** [event.Event] of honeytail, restricted to the fields the publisher
    reads and writes. *)
Record Event : Type := mkEvent {
  Timestamp : Time;
  Data : gmap string Value
}.

(** ** dropNegativeTimes *)

Definition timeFields : list string :=
  [ "response_processing_time";
    "request_processing_time";
    "backend_processing_time";
    "time_taken" ].

(** The type switch of [dropNegativeTimes]: [tFloat] keeps its zero value
    unless the dynamic type is int64 or float64. *)
Definition tFloat_of (t : Value) : float64 :=
  match t with
  | VInt64 n => GoFloat.of_int64 n
  | VFloat64 x => x
  | _ => GoFloat.zero
  end.

Definition errorMessage (f : string) : string :=
  f ++ " was -1 -- upstream server timed out, disconnected, or sent malformed response".

(** The body of the [for _, f := range timeFields] loop. *)
Definition dropField (data : gmap string Value) (f : string) : gmap string Value :=
  match data !! f with
  | Some t =>
      if GoFloat.lt (tFloat_of t) GoFloat.zero
      then <["error" := VString (errorMessage f)]> (delete f data)
      else data
  | None => data
  end.

Definition dropNegativeTimes (ev : Event) : Event :=
  mkEvent (Timestamp ev) (foldl dropField (Data ev) timeFields).

(** A field that is present with a numeric (int64 or float64) value
    strictly below zero. *)
Definition negativeTime (o : option Value) : bool :=
  match o with
  | Some (VInt64 n) => (n <? 0)%Z
  | Some (VFloat64 x) => GoFloat.lt x GoFloat.zero
  | _ => false
  end.

(** The latency fields of an event that hold a negative time, in the
    order of [timeFields]. *)
Definition negativeFields (data : gmap string Value) : list string :=
  filter (fun f => negativeTime (data !! f) = true) timeFields.

(** ** time *)

Module GoTime.

Local Open Scope Z_scope.

Definition minDuration : Duration := - 2 ^ 63.
Definition maxDuration : Duration := 2 ^ 63 - 1.

Definition Nanosecond : Duration := 1.
Definition Microsecond : Duration := 1000 * Nanosecond.
Definition Millisecond : Duration := 1000 * Microsecond.
Definition Second : Duration := 1000 * Millisecond.

(** [t.Sub(u)]: the difference, or the nearest representable duration
    when it is out of the int64 range. *)
Definition Sub (t u : Time) : Duration :=
  let d := t - u in
  if (minDuration <=? d) && (d <=? maxDuration) then d
  else if t <? u then minDuration
  else maxDuration.

(** [t.UnixNano()]: the int64 the nanosecond count wraps to. *)
Definition UnixNano (t : Time) : Z :=
  (t + 2 ^ 63) mod 2 ^ 64 - 2 ^ 63.

(** The layout constant [time.RFC3339Nano]. *)
Definition RFC3339Nano : string := "2006-01-02T15:04:05.999999999Z07:00".

End GoTime.

(** ** addTraceData *)

(** The name Go prints for the dynamic type of an interface value. *)
Definition typeName (o : option Value) : string :=
  match o with
  | None => "nil"
  | Some (VString _) => "string"
  | Some (VInt64 _) => "int64"
  | Some (VFloat64 _) => "float64"
  | Some (VBool _) => "bool"
  end.

Definition conversionPanic (o : option Value) : string :=
  "interface conversion: interface {} is " ++ typeName o ++ ", not string".

(** The state of the loop over the fields of the header: the map and the
    local [rootSpan]. *)
Definition traceState : Type := (gmap string Value * bool)%type.

(** The body of [for _, field := range fields]. *)
Definition traceField (edgeMode : bool) (st : traceState) (field : string) : traceState :=
  let '(data, rootSpan) := st in
  match strings_Split field "=" with
  | [key; val] =>
      if String.eqb key "Root" then
        (<["trace.trace_id" := VString val]> data, rootSpan)
      else if String.eqb key "Self" then
        (<["trace.span_id" := VString val]> data, false)
      else if String.eqb key "Parent" then
        if negb edgeMode
        then (<["trace.parent_id" := VString val]> data, false)
        else (data, rootSpan)
      else if String.eqb key "Sampled" then
        (<["sampled" := VString val]> data, rootSpan)
      else
        (<[key := VString val]> data, rootSpan)
  | _ => st
  end.

Definition traceFields (edgeMode : bool) (data : gmap string Value) (header : string) : traceState :=
  foldl (traceField edgeMode) (data, true) (strings_Split header ";").

(** The loop seen as a sequence of assignments to the map: the key of the
    map a key of the header is stored under, the assignment a field makes,
    if any, and whether it leaves [rootSpan] alone. *)
Definition target (edgeMode : bool) (key : string) : option string :=
  if String.eqb key "Root" then Some "trace.trace_id"
  else if String.eqb key "Self" then Some "trace.span_id"
  else if String.eqb key "Parent" then
    if negb edgeMode then Some "trace.parent_id" else None
  else if String.eqb key "Sampled" then Some "sampled"
  else Some key.

Definition fieldWrite (edgeMode : bool) (field : string) : option (string * string) :=
  match strings_Split field "=" with
  | [key; val] =>
      match target edgeMode key with
      | Some k => Some (k, val)
      | None => None
      end
  | _ => None
  end.

Definition fieldKeepsRoot (edgeMode : bool) (field : string) : bool :=
  match strings_Split field "=" with
  | [key; val] =>
      if String.eqb key "Root" then true
      else if String.eqb key "Self" then false
      else if String.eqb key "Parent" then edgeMode
      else true
  | _ => true
  end.

(** The header has a pair [key=value] with this key. *)
Definition fieldHasKey (key field : string) : bool :=
  match strings_Split field "=" with
  | [k; _] => String.eqb k key
  | _ => false
  end.

Definition hasKey (key header : string) : bool :=
  existsb (fieldHasKey key) (strings_Split header ";").

Definition headerWrites (edgeMode : bool) (header : string) : list (string * string) :=
  omap (fieldWrite edgeMode) (strings_Split header ";").

Definition headerKeepsRoot (edgeMode : bool) (header : string) : bool :=
  forallb (fieldKeepsRoot edgeMode) (strings_Split header ";").

(** The value the last assignment to [k] in a sequence gives it. *)
Fixpoint lastWrite (k : string) (ws : list (string * string)) : option string :=
  match ws with
  | [] => None
  | (k', v) :: ws' =>
      match lastWrite k ws' with
      | Some v' => Some v'
      | None => if String.eqb k' k then Some v else None
      end
  end.

Definition applyWrites (ws : list (string * string)) (data : gmap string Value) :
    gmap string Value :=
  foldl (fun d kv => <[fst kv := VString (snd kv)]> d) data ws.

Definition isString (o : option Value) : bool :=
  match o with
  | Some (VString _) => true
  | _ => false
  end.

(** [if rootSpan { ev.Data["trace.span_id"] = ev.Data["trace.trace_id"].(string) }]:
    the type assertion has no comma-ok form and panics on anything but a
    string. *)
Definition assignRootSpan (st : traceState) : outcome (gmap string Value) :=
  let '(data, rootSpan) := st in
  if rootSpan then
    match data !! "trace.trace_id" with
    | Some (VString traceID) => Returned (<["trace.span_id" := VString traceID]> data)
    | o => Panicked data (conversionPanic o)
    end
  else Returned data.

(** The header [addTraceData] reads, when there is one. *)
Definition traceHeader (ev : Event) : option string :=
  match Data ev !! "trace_id" with
  | Some (VString amznTraceID) => Some amznTraceID
  | _ => None
  end.

Section Duration.

(** [time.Parse(layout, value)] of the Go standard library; [None] stands
    for a non-nil error. *)
Variable time_Parse : string -> string -> option Time.

(** Lines 188 to 197: the duration reconstructed from [response_time]. *)
Definition responseDuration (timestamp : Time) (data : gmap string Value) : float64 :=
  match data !! "response_time" with
  | Some (VString endTime) =>
      match time_Parse GoTime.RFC3339Nano endTime with
      | Some tm =>
          let duration := GoTime.Sub tm timestamp in
          if (0 <? duration)%Z
          then GoFloat.of_int64 (Z.quot duration GoTime.Millisecond)
          else GoFloat.zero
      | None => GoFloat.zero
      end
  | _ => GoFloat.zero
  end.

(** The instant [response_time] parses to, when it is a string that
    parses. *)
Definition responseTime (data : gmap string Value) : option Time :=
  match data !! "response_time" with
  | Some (VString endTime) => time_Parse GoTime.RFC3339Nano endTime
  | _ => None
  end.

(** [durationMs, _ = ev.Data["request_processing_time"].(float64)]. *)
Definition requestProcessingTime (data : gmap string Value) : float64 :=
  match data !! "request_processing_time" with
  | Some (VFloat64 x) => x
  | _ => GoFloat.zero
  end.

(** The value of the local [durationMs] when line 201 tests it. *)
Definition durationMs (timestamp : Time) (data : gmap string Value) : float64 :=
  let d := responseDuration timestamp data in
  if GoFloat.eq d GoFloat.zero then requestProcessingTime data else d.

(** Lines 188 to 203. *)
Definition attachDuration (timestamp : Time) (data : gmap string Value) : gmap string Value :=
  let d := durationMs timestamp data in
  if GoFloat.gt d GoFloat.zero then <["duration_ms" := VFloat64 d]> data else data.

(** The duration as the specification words it: the difference in
    milliseconds when [response_time] parses and is strictly after the
    timestamp of the event, the fallback field otherwise. *)
Definition spec_durationMs (timestamp : Time) (data : gmap string Value) : float64 :=
  match responseTime data with
  | Some tm =>
      if (timestamp <? tm)%Z
      then GoFloat.of_int64 (Z.quot (GoTime.Sub tm timestamp) GoTime.Millisecond)
      else requestProcessingTime data
  | None => requestProcessingTime data
  end.

Definition attachServiceName (data : gmap string Value) : gmap string Value :=
  match data !! "elb" with
  | Some (VString elb) => <["service_name" := VString elb]> data
  | _ => data
  end.

Definition attachName (data : gmap string Value) : gmap string Value :=
  match data !! "request_path" with
  | Some (VString requestPath) => <["name" := VString requestPath]> data
  | _ => data
  end.

(** Lines 212 to 214. *)
Definition renameHeader (amznTraceID : string) (data : gmap string Value) : gmap string Value :=
  <["request.headers.x-amzn-trace-id" := VString amznTraceID]> (delete "trace_id" data).

(** Everything after the root span assignment. *)
Definition finishTrace (timestamp : Time) (amznTraceID : string)
    (data : gmap string Value) : gmap string Value :=
  renameHeader amznTraceID (attachName (attachServiceName (attachDuration timestamp data))).

Definition addTraceData (ev : Event) (edgeMode : bool) : outcome Event :=
  match Data ev !! "trace_id" with
  | Some (VString amznTraceID) =>
      match assignRootSpan (traceFields edgeMode (Data ev) amznTraceID) with
      | Returned data =>
          Returned (mkEvent (Timestamp ev) (finishTrace (Timestamp ev) amznTraceID data))
      | Panicked data msg => Panicked (mkEvent (Timestamp ev) data) msg
      end
  | _ => Returned ev
  end.

End Duration.

(** ** A reference model of [time.Parse] for the RFC 3339 layout

    The theorems about [addTraceData] hold for every parser. This model
    reads the canonical form
    [YYYY-MM-DDTHH:MM:SS[.fraction](Z|+HH:MM|-HH:MM)] and gives concrete
    events a concrete parser. *)

Module RFC3339.

Local Open Scope Z_scope.

Definition digitOf (c : ascii) : option Z :=
  let n := Z.of_N (N_of_ascii c) in
  if (48 <=? n) && (n <=? 57) then Some (n - 48) else None.

(** Exactly [k] decimal digits at the head of [s]. *)
Fixpoint number (k : nat) (acc : Z) (s : string) : option (Z * string) :=
  match k with
  | O => Some (acc, s)
  | S k' =>
      match s with
      | String c s' =>
          match digitOf c with
          | Some d => number k' (10 * acc + d) s'
          | None => None
          end
      | EmptyString => None
      end
  end.

Definition expect (c : ascii) (s : string) : option string :=
  match s with
  | String a s' => if Ascii.eqb a c then Some s' else None
  | EmptyString => None
  end.

(** The digits after the decimal point, in nanoseconds; digits beyond
    the ninth are read and dropped. *)
Fixpoint fraction (s : string) (scale acc : Z) : Z * string :=
  match s with
  | String c s' =>
      match digitOf c with
      | Some d => fraction s' (scale / 10) (acc + d * scale)
      | None => (acc, s)
      end
  | EmptyString => (acc, s)
  end.

Definition optionalFraction (s : string) : option (Z * string) :=
  match s with
  | String "." (String c s') =>
      match digitOf c with
      | Some _ => Some (fraction (String c s') 100000000 0)
      | None => None
      end
  | _ => Some (0, s)
  end.

Definition isLeap (y : Z) : bool :=
  (y mod 4 =? 0) && (negb (y mod 100 =? 0) || (y mod 400 =? 0)).

Definition daysIn (y m : Z) : Z :=
  if m =? 2 then (if isLeap y then 29 else 28)
  else if (m =? 4) || (m =? 6) || (m =? 9) || (m =? 11) then 30
  else 31.

(** Days between 1970-01-01 and the given date of the proleptic
    Gregorian calendar. *)
Definition daysFromCivil (y m d : Z) : Z :=
  let y' := if m <=? 2 then y - 1 else y in
  let era := y' / 400 in
  let yoe := y' - era * 400 in
  let mp := (m + 9) mod 12 in
  let doy := (153 * mp + 2) / 5 + d - 1 in
  let doe := yoe * 365 + yoe / 4 - yoe / 100 + doy in
  era * 146097 + doe - 719468.

(** The zone: [Z], or a signed offset in hours and minutes. The result
    is the offset in seconds. *)
Definition zone (s : string) : option Z :=
  match s with
  | String "Z" EmptyString => Some 0
  | String sign s1 =>
      if Ascii.eqb sign "+" || Ascii.eqb sign "-" then
        '(hh, s2) ← number 2 0 s1;
        s3 ← expect ":" s2;
        '(mm, s4) ← number 2 0 s3;
        if String.eqb s4 "" && (hh <? 24) && (mm <? 60) then
          Some ((if Ascii.eqb sign "-" then -1 else 1) * (hh * 3600 + mm * 60))
        else None
      else None
  | EmptyString => None
  end.

Definition parse (value : string) : option Time :=
  '(year, s) ← number 4 0 value;
  s ← expect "-" s;
  '(month, s) ← number 2 0 s;
  s ← expect "-" s;
  '(day, s) ← number 2 0 s;
  s ← expect "T" s;
  '(hour, s) ← number 2 0 s;
  s ← expect ":" s;
  '(min, s) ← number 2 0 s;
  s ← expect ":" s;
  '(sec, s) ← number 2 0 s;
  '(nsec, s) ← optionalFraction s;
  offset ← zone s;
  if (1 <=? month) && (month <=? 12) && (1 <=? day) && (day <=? daysIn year month)
     && (hour <? 24) && (min <? 60) && (sec <? 60)
  then Some (((daysFromCivil year month day * 86400
               + hour * 3600 + min * 60 + sec - offset) * 1000000000) + nsec)
  else None.

Definition Parse (layout value : string) : option Time :=
  if String.eqb layout GoTime.RFC3339Nano then parse value else None.

End RFC3339.

(** ** Go pairs of a value and an error *)

Inductive result (A : Type) : Type :=
  | Ok (a : A)
  | Err (err : string).
Arguments Ok {A} a.
Arguments Err {A} err.

(** ** basicAuth *)

Module base64.

Definition encodeStd : string :=
  "ABCDEFGHIJKLMNOPQRSTUVWXYZabcdefghijklmnopqrstuvwxyz0123456789+/".

Definition padding : ascii := "="%char.

(** The character of the alphabet for a value of six bits. *)
Definition sextet (n : N) : ascii :=
  match String.get (N.to_nat n) encodeStd with
  | Some c => c
  | None => padding
  end.

(** [StdEncoding.EncodeToString]: three bytes give four characters, and
    a last group of one or two bytes is padded. *)
Fixpoint EncodeToString (src : string) : string :=
  match src with
  | EmptyString => EmptyString
  | String a EmptyString =>
      let x := N_of_ascii a in
      String (sextet (N.shiftr x 2))
        (String (sextet (N.shiftl (N.land x 3) 4))
           (String padding (String padding EmptyString)))
  | String a (String b EmptyString) =>
      let x := N_of_ascii a in
      let y := N_of_ascii b in
      String (sextet (N.shiftr x 2))
        (String (sextet (N.lor (N.shiftl (N.land x 3) 4) (N.shiftr y 4)))
           (String (sextet (N.shiftl (N.land y 15) 2))
              (String padding EmptyString)))
  | String a (String b (String c rest)) =>
      let x := N_of_ascii a in
      let y := N_of_ascii b in
      let z := N_of_ascii c in
      String (sextet (N.shiftr x 2))
        (String (sextet (N.lor (N.shiftl (N.land x 3) 4) (N.shiftr y 4)))
           (String (sextet (N.lor (N.shiftl (N.land y 15) 2) (N.shiftr z 6)))
              (String (sextet (N.land z 63)) (EncodeToString rest))))
  end.

End base64.

Definition basicAuth (username password : string) : string :=
  let auth := username ++ ":" ++ password in
  base64.EncodeToString auth.

(** ** The payload of the log-aggregation endpoint *)

(** [strconv.FormatInt(n, 10)]. *)
Definition FormatInt (n : Z) : string := NilEmpty.string_of_int (Z.to_int n).

(** A JSON document, as far as the envelope needs it. *)
#[warnings="-register-all"]
Inductive JSON : Type :=
  | JString (s : string)
  | JArray (elements : list JSON)
  | JObject (members : list (string * JSON)).

(** [type Stream struct]: the field [Values] has type [[]interface{}] and
    is only ever given slices of strings. *)
Record Stream : Type := mkStream {
  Stream_Stream : gmap string string;
  Stream_Values : list (list string)
}.

(** [type Streams struct]. *)
Record Streams : Type := mkStreams {
  Streams_Streams : list Stream
}.

(** encoding/json writes the keys of a map in sorted order. *)
Fixpoint insertByKey {A : Type} (kv : string * A) (l : list (string * A)) : list (string * A) :=
  match l with
  | [] => [kv]
  | kv' :: l' =>
      if String.leb (fst kv) (fst kv') then kv :: l else kv' :: insertByKey kv l'
  end.

Definition sortByKey {A : Type} (l : list (string * A)) : list (string * A) :=
  foldr insertByKey [] l.

(** The documents [json.Marshal] writes for the two structs, named by the
    [json] tags of their fields. *)
Definition Stream_json (s : Stream) : JSON :=
  JObject
    [ ("stream",
        JObject (map (fun kv => (fst kv, JString (snd kv)))
                   (sortByKey (map_to_list (Stream_Stream s)))));
      ("values", JArray (map (fun v => JArray (map JString v)) (Stream_Values s))) ].

Definition Streams_json (s : Streams) : JSON :=
  JObject [ ("streams", JArray (map Stream_json (Streams_Streams s))) ].

(** [net/http]: a request, with the header map [map[string][]string]. The
    two keys the publisher uses are already in canonical form. *)
Record Request : Type := mkRequest {
  Method : string;
  URL : string;
  Header : gmap string (list string);
  Body : string
}.

Definition Header_Set (key value : string) (h : gmap string (list string)) :
    gmap string (list string) :=
  <[key := [value]]> h.

Definition Header_Add (key value : string) (h : gmap string (list string)) :
    gmap string (list string) :=
  <[key := (default [] (h !! key) ++ [value])%list]> h.

(** What one iteration of the delivery loop does to the outside world. *)
Inductive Effect : Type :=
  | LogError (err : string)
  | ClientDo (req : Request).

(** ** sendEventsToHoneycomb *)

Section Delivery.

(** [requestShaper.Shape], defined in another file of the package. *)
Variable Shape : string -> Event -> Event.

(** [json.Marshal] applied to [ev.Data]. *)
Variable json_Marshal_Data : gmap string Value -> result string.

(** The bytes encoding/json writes for a document. *)
Variable json_render : JSON -> string.

(** [strconv.FormatFloat(x, 'g', -1, 64)], which [%v] prints a float64
    with. *)
Variable FormatFloat : float64 -> string.

(** [http.NewRequest] fails when the URL does not parse; the error is
    then the result of this function. *)
Variable url_Parse_error : string -> option string.

(** [client.Do]: the error of the round trip, if any. *)
Variable client_Do : Request -> option string.

(** [fmt.Sprintf("%v", x)] for an interface value read from a map. *)
Definition Sprintf_v (o : option Value) : string :=
  match o with
  | None => "<nil>"
  | Some (VString s) => s
  | Some (VInt64 n) => FormatInt n
  | Some (VFloat64 x) => FormatFloat x
  | Some (VBool b) => if b then "true" else "false"
  end.

Definition http_NewRequest (method url body : string) : result Request :=
  match url_Parse_error url with
  | Some err => Err err
  | None => Ok (mkRequest method url ∅ body)
  end.

(** The struct literal of lines 242 to 249. *)
Definition jsonPayload (environment : string) (ev : Event) (data : string) : Streams :=
  mkStreams
    [ mkStream
        (<["aws_elb" := Sprintf_v (Data ev !! "elb")]>
           (<["service" := "honeyaws"]>
              (<["environment" := environment]> ∅)))
        [ [ FormatInt (GoTime.UnixNano (Timestamp ev)); data ] ] ].

(** The body of [for ev := range in], as a function of the effects so
    far. The call of [addTraceData] is commented out in the source, and
    [edgeMode] is not used. *)
Definition deliver (edgeMode : bool) (grafanaID grafanaEndpoint grafanaAPIKey environment : string)
    (log : list Effect) (ev : Event) : outcome (list Effect) :=
  let ev := Shape "request" ev in
  let ev := dropNegativeTimes ev in
  let '(data, log) :=
    match json_Marshal_Data (Data ev) with
    | Ok data => (data, log)
    | Err err => (EmptyString, (log ++ [LogError err])%list)
    end in
  let b := json_render (Streams_json (jsonPayload environment ev data)) in
  match http_NewRequest "POST" grafanaEndpoint b with
  | Err err =>
      Panicked (log ++ [LogError err])%list
        "runtime error: invalid memory address or nil pointer dereference"
  | Ok req =>
      let header := Header_Set "Content-Type" "application/json" (Header req) in
      let header := Header_Add "Authorization" ("Basic " ++ basicAuth grafanaID grafanaAPIKey) header in
      let req := mkRequest (Method req) (URL req) header (Body req) in
      let log := (log ++ [ClientDo req])%list in
      match client_Do req with
      | Some err => Returned (log ++ [LogError err])%list
      | None => Returned log
      end
  end.

(** The pieces of one iteration, named for the statements about it. *)

(** The event the encoder sees: shaped, and cleaned of negative times. *)
Definition prepared (ev : Event) : Event := dropNegativeTimes (Shape "request" ev).

(** The text that goes into the value pair: the encoded data, or the
    string of a nil byte slice when the encoder failed. *)
Definition encoded (ev : Event) : string :=
  match json_Marshal_Data (Data (prepared ev)) with
  | Ok data => data
  | Err _ => EmptyString
  end.

Definition encoderLog (ev : Event) : list Effect :=
  match json_Marshal_Data (Data (prepared ev)) with
  | Ok _ => []
  | Err err => [LogError err]
  end.

(** The request the loop builds for an event. *)
Definition requestFor (grafanaID grafanaEndpoint grafanaAPIKey environment : string)
    (ev : Event) : Request :=
  mkRequest "POST" grafanaEndpoint
    (<["Authorization" := ["Basic " ++ basicAuth grafanaID grafanaAPIKey]]>
       (<["Content-Type" := ["application/json"]]> ∅))
    (json_render (Streams_json (jsonPayload environment (prepared ev) (encoded ev)))).

Definition clientLog (req : Request) : list Effect :=
  match client_Do req with
  | Some err => [LogError err]
  | None => []
  end.

(** What the loop does for one event when the request can be built. *)
Definition effectsFor (grafanaID grafanaEndpoint grafanaAPIKey environment : string)
    (ev : Event) : list Effect :=
  (encoderLog ev
     ++ [ClientDo (requestFor grafanaID grafanaEndpoint grafanaAPIKey environment ev)]
     ++ clientLog (requestFor grafanaID grafanaEndpoint grafanaAPIKey environment ev))%list.

(** The loop over the events received on the channel [in]. *)
Definition sendEventsToHoneycomb (events : list Event) (edgeMode : bool)
    (grafanaID grafanaEndpoint grafanaAPIKey environment : string) : outcome (list Effect) :=
  foldl (fun o ev =>
           andThen o (fun log =>
             deliver edgeMode grafanaID grafanaEndpoint grafanaAPIKey environment log ev))
        (Returned []) events.

End Delivery.

(** ** Publish *)

(** [state.DownloadedObject]. *)
Record DownloadedObject : Type := mkDownloadedObject {
  Object : string;
  Filename : string
}.

Section Publisher.

(** The local file system, as far as [os.Remove] sees it. *)
Variable FS : Type.

(** What [Publish] acts on: the file system, the events sent on
    [hp.parsedCh] so far, and the paths [os.Remove] has been called
    with. *)
Record World : Type := mkWorld {
  fs : FS;
  parsedCh : list Event;
  removeCalls : list string
}.

(** [hp.EventParser.ParseEvents]: the events it sends down the pipeline
    and its error. *)
Variable ParseEvents : DownloadedObject -> FS -> list Event * option string.

(** [os.Remove]. *)
Variable os_Remove : string -> FS -> FS * option string.

(** [fmt.Errorf("Error cleaning up downloaded object %s: %s", ...)]. *)
Definition cleanupError (filename err : string) : string :=
  "Error cleaning up downloaded object " ++ filename ++ ": " ++ err.

Definition Publish (downloadedObj : DownloadedObject) (w : World) : World * option string :=
  let '(events, err) := ParseEvents downloadedObj (fs w) in
  let w := mkWorld (fs w) (parsedCh w ++ events)%list (removeCalls w) in
  match err with
  | Some err => (w, Some err)
  | None =>
      let '(fs', err) := os_Remove (Filename downloadedObj) (fs w) in
      let w := mkWorld fs' (parsedCh w) (removeCalls w ++ [Filename downloadedObj])%list in
      match err with
      | Some err => (w, Some (cleanupError (Filename downloadedObj) err))
      | None => (w, None)
      end
  end.

End Publisher.

Arguments mkWorld {FS} fs parsedCh removeCalls.
Arguments fs {FS} w.
Arguments parsedCh {FS} w.
Arguments removeCalls {FS} w.
Arguments Publish {FS} ParseEvents os_Remove downloadedObj w.

(** ** Notions for the statements about the rest of the code *)

(** The number of times [c] occurs in [s]. *)
Fixpoint countOf (c : ascii) (s : string) : nat :=
  match s with
  | EmptyString => 0
  | String a s' => (if Ascii.eqb a c then 1 else 0) + countOf c s'
  end.

(** Every byte of [s] satisfies [p]. *)
Fixpoint allBytes (p : ascii -> bool) (s : string) : bool :=
  match s with
  | EmptyString => true
  | String a s' => p a && allBytes p s'
  end.

(** The requests among the effects of the delivery loop, in order. *)
Definition requestsOf (log : list Effect) : list Request :=
  omap (fun e => match e with
                 | ClientDo req => Some req
                 | LogError _ => None
                 end) log.

(** Successive calls of [Publish], each on the world the one before left,
    with the error of every call. *)
Fixpoint PublishAll {FS : Type}
    (ParseEvents : DownloadedObject -> FS -> list Event * option string)
    (os_Remove : string -> FS -> FS * option string)
    (objs : list DownloadedObject) (w : World FS) : World FS * list (option string) :=
  match objs with
  | [] => (w, [])
  | obj :: objs' =>
      let '(w1, err) := Publish ParseEvents os_Remove obj w in
      let '(w2, errs) := PublishAll ParseEvents os_Remove objs' w1 in
      (w2, err :: errs)
  end.

(** A left inverse of [base64.EncodeToString], to show that the encoding
    loses nothing. *)
Module base64_inverse.

Fixpoint indexOf (c : ascii) (s : string) : option N :=
  match s with
  | EmptyString => None
  | String a s' =>
      if Ascii.eqb a c then Some 0%N
      else match indexOf c s' with
           | Some i => Some (N.succ i)
           | None => None
           end
  end.

(** The six bits a character of the alphabet stands for. *)
Definition unsextet (c : ascii) : N := default 0%N (indexOf c base64.encodeStd).

Fixpoint decode (s : string) : option string :=
  match s with
  | EmptyString => Some EmptyString
  | String c1 (String c2 (String c3 (String c4 rest))) =>
      let u1 := unsextet c1 in
      let u2 := unsextet c2 in
      let u3 := unsextet c3 in
      let u4 := unsextet c4 in
      let a := ascii_of_N (u1 * 4 + u2 / 16) in
      let b := ascii_of_N ((u2 mod 16) * 16 + u3 / 4) in
      let c := ascii_of_N ((u3 mod 4) * 64 + u4) in
      if Ascii.eqb c3 base64.padding then
        if Ascii.eqb c4 base64.padding && String.eqb rest EmptyString
        then Some (String a EmptyString)
        else None
      else if Ascii.eqb c4 base64.padding then
        if String.eqb rest EmptyString
        then Some (String a (String b EmptyString))
        else None
      else
        match decode rest with
        | Some r => Some (String a (String b (String c r)))
        | None => None
        end
  | _ => None
  end.

(** All bytes, for statements checked byte by byte. *)
Definition allAscii : list ascii := map ascii_of_nat (seq 0 256).

End base64_inverse.

(** A byte of the base64 alphabet, or the padding. *)
Definition base64Byte (c : ascii) : bool :=
  occurs c base64.encodeStd || Ascii.eqb c base64.padding.

(** ** Example events *)

Module Examples.

Local Open Scope Z_scope.

(** The float64 values -1, 0.5 and 7.5. *)
Definition minusOne : float64 := S754_finite true 4503599627370496 (-52).
Definition half : float64 := S754_finite false 4503599627370496 (-53).
Definition sevenAndHalf : float64 := S754_finite false 8444249301319680 (-50).

(** A CloudFront record whose [time_taken] is the sentinel -1. *)
Definition cloudFrontTimeout : Event :=
  mkEvent 1400807591000000000
    (<["time_taken" := VInt64 (-1)]>
       (<["x_edge_location" := VString "FRA2"]>
          (<["sc_status" := VInt64 200]> ∅))).

(** An ELB record in which the backend never answered: two of the
    three processing times are -1. *)
Definition elbTimeout : Event :=
  mkEvent 1501533057975041000
    (<["request_processing_time" := VFloat64 half]>
       (<["backend_processing_time" := VFloat64 minusOne]>
          (<["response_processing_time" := VFloat64 minusOne]>
             (<["elb" := VString "spline_reticulation_lb"]> ∅)))).

(** The ALB record of the comment at the head of the source file, at
    2018-02-18T03:03:10.432026Z, with several trace headers. *)
Definition albRecord (traceID : string) : Event :=
  mkEvent 1518922990432026000
    (<["trace_id" := VString traceID]>
       (<["elb" := VString "app/alb-test-2/ebd66bfd69677bfa"]>
          (<["request_processing_time" := VFloat64 sevenAndHalf]>
             (<["elb_status_code" := VInt64 200]> ∅)))).

Definition albRootOnly : Event :=
  albRecord "Root=1-5a88eced-40876ce050d010360bfb23bd".

Definition albNoRoot : Event := albRecord "Sampled=1".

Definition albParent : Event :=
  albRecord "Root=1-5a88eced-40876ce050d010360bfb23bd;Parent=53995c3f42cd8ad8".

Definition albCustomField : Event :=
  albRecord "Root=1-5a88eced-40876ce050d010360bfb23bd;trace.parent_id=53995c3f42cd8ad8".

(** The same record with a response half a millisecond, and three
    milliseconds, after the timestamp. *)
Definition albRespondedAt (responseTime : string) : Event :=
  mkEvent 1518922990432026000
    (<["response_time" := VString responseTime]> (Data albRootOnly)).

Definition albSubMillisecond : Event := albRespondedAt "2018-02-18T03:03:10.432526Z".

Definition albThreeMilliseconds : Event := albRespondedAt "2018-02-18T03:03:10.435026Z".

End Examples.

(** ** Stand-ins for the collaborators

    The theorems about the delivery loop and about [Publish] hold for
    every shaper, encoder, HTTP client, parser and file system. The
    functions of this module are simple ones to run the code with. *)

Module Doubles.

Definition Shape (field : string) (ev : Event) : Event := ev.

Definition quote : ascii := "034"%char.

(** Quotes and backslashes are escaped; other bytes are written as they
    are. *)
Fixpoint escape (s : string) : string :=
  match s with
  | EmptyString => EmptyString
  | String c s' =>
      if Ascii.eqb c quote || Ascii.eqb c "\"
      then String "\" (String c (escape s'))
      else String c (escape s')
  end.

Definition quoted (s : string) : string :=
  String quote (escape s ++ String quote EmptyString).

Fixpoint join (sep : string) (l : list string) : string :=
  match l with
  | [] => EmptyString
  | [x] => x
  | x :: l' => x ++ sep ++ join sep l'
  end.

(** A compact rendering of a document. *)
Fixpoint json_render (j : JSON) : string :=
  match j with
  | JString s => quoted s
  | JArray l => "[" ++ join "," (map json_render l) ++ "]"
  | JObject ms =>
      "{" ++ join "," (map (fun kv => let '(k, v) := kv in
                                      quoted k ++ ":" ++ json_render v) ms) ++ "}"
  end.

(** The format ['b'] of [strconv.FormatFloat]: mantissa and binary
    exponent. *)
Definition FormatFloat (x : float64) : string :=
  match x with
  | S754_zero s => if s then "-0p-1074" else "0p-1074"
  | S754_infinity s => if s then "-Inf" else "+Inf"
  | S754_nan => "NaN"
  | S754_finite s m e =>
      (if s then "-" else "") ++ FormatInt (Z.pos m) ++ "p"
        ++ (if (0 <=? e)%Z then "+" else "") ++ FormatInt e
  end.

(** encoding/json refuses the float64 values that JSON cannot hold. *)
Definition marshalValue (v : Value) : result string :=
  match v with
  | VString s => Ok (quoted s)
  | VInt64 n => Ok (FormatInt n)
  | VBool b => Ok (if b then "true" else "false")
  | VFloat64 S754_nan => Err "json: unsupported value: NaN"
  | VFloat64 (S754_infinity s) =>
      Err ("json: unsupported value: " ++ (if s then "-Inf" else "+Inf"))
  | VFloat64 x => Ok (FormatFloat x)
  end.

Fixpoint marshalMembers (ms : list (string * Value)) : result (list string) :=
  match ms with
  | [] => Ok []
  | (k, v) :: ms' =>
      match marshalValue v with
      | Err err => Err err
      | Ok s =>
          match marshalMembers ms' with
          | Err err => Err err
          | Ok l => Ok ((quoted k ++ ":" ++ s) :: l)
          end
      end
  end.

Definition json_Marshal_Data (data : gmap string Value) : result string :=
  match marshalMembers (sortByKey (map_to_list data)) with
  | Ok l => Ok ("{" ++ join "," l ++ "}")
  | Err err => Err err
  end.

(** A URL with a space in it does not parse. *)
Definition url_Parse_error (url : string) : option string :=
  if occurs " " url then Some ("parse " ++ url ++ ": invalid character in host name")
  else None.

Definition client_Do (req : Request) : option string := None.

(** A file system that is the set of the paths of its files. *)
Definition os_Remove (name : string) (files : gset string) : gset string * option string :=
  if bool_decide (name ∈ files)
  then (files ∖ {[name]}, None)
  else (files, Some ("remove " ++ name ++ ": no such file or directory")).

(** A parser that forwards one event for an object, and fails on an
    object without a key. *)
Definition ParseEvents (obj : DownloadedObject) (files : gset string) :
    list Event * option string :=
  if String.eqb (Object obj) ""
  then ([], Some "object has no key")
  else ([mkEvent 0%Z ∅], None).

(** An event whose data encoding/json refuses. *)
Definition notANumber : Event :=
  mkEvent 1501533057975041000%Z
    (<["request_processing_time" := VFloat64 S754_nan]>
       (<["elb" := VString "spline_reticulation_lb"]> ∅)).

End Doubles.

(** ** More events *)

Module Cases.

Local Open Scope Z_scope.

(** The ALB record with a header that went through a second load
    balancer. *)
Definition albSelf : Event :=
  Examples.albRecord
    "Root=1-5a88eced-40876ce050d010360bfb23bd;Self=1-67891234-12456789abcdef012345678".

(** A client that sends a field of its own, named like a field of the
    record. *)
Definition albStatusField : Event :=
  Examples.albRecord "Root=1-5a88eced-40876ce050d010360bfb23bd;elb_status_code=500".

(** A header with two [Root] pairs. *)
Definition albTwoRoots : Event :=
  Examples.albRecord "Root=1-00000000-000000000000000000000000;Root=1-5a88eced-40876ce050d010360bfb23bd".

(** The record with a request path, as the shaper leaves it. *)
Definition albShaped : Event :=
  mkEvent 1518922990432026000
    (<["request_path" := VString "/reticulate/spline/1"]> (Data Examples.albRootOnly)).

(** A record without a trace header. *)
Definition elbRecord : Event :=
  mkEvent 1501533057975041000
    (<["elb" := VString "spline_reticulation_lb"]>
       (<["elb_status_code" := VInt64 200]> ∅)).

Definition objects : list DownloadedObject :=
  [ mkDownloadedObject "AWSLogs/elb/2017/07/31/a.log" "/tmp/a.log";
    mkDownloadedObject "" "/tmp/b.log";
    mkDownloadedObject "AWSLogs/elb/2017/07/31/c.log" "/tmp/c.log" ].

End Cases.

(** * Properties *)

(** ** The library models on known values *)

Example strings_Split_examples :
  strings_Split "a;b;;c" ";" = ["a"; "b"; ""; "c"]
  /\ strings_Split "" ";" = [""]
  /\ strings_Split "Root=1-5a88eced" "=" = ["Root"; "1-5a88eced"]
  /\ strings_Split "a=b=c" "=" = ["a"; "b"; "c"].
Proof. repeat split. Qed.

(** The test vectors of RFC 4648. *)
Example base64_vectors :
  base64.EncodeToString "" = ""
  /\ base64.EncodeToString "f" = "Zg=="
  /\ base64.EncodeToString "fo" = "Zm8="
  /\ base64.EncodeToString "foo" = "Zm9v"
  /\ base64.EncodeToString "foob" = "Zm9vYg=="
  /\ base64.EncodeToString "fooba" = "Zm9vYmE="
  /\ base64.EncodeToString "foobar" = "Zm9vYmFy"
  /\ basicAuth "12345" "secret-key" = "MTIzNDU6c2VjcmV0LWtleQ==".
Proof. vm_compute. repeat split. Qed.

Example FormatInt_examples :
  FormatInt 0%Z = "0"
  /\ FormatInt 1518922990432026000%Z = "1518922990432026000"
  /\ FormatInt (-42)%Z = "-42".
Proof. vm_compute. repeat split. Qed.

Example of_int64_examples :
  GoFloat.of_int64 0%Z = GoFloat.zero
  /\ GoFloat.of_int64 (-1)%Z = Examples.minusOne
  /\ GoFloat.of_int64 3%Z = S754_finite false 6755399441055744 (-51)
  /\ GoFloat.of_int64 (2 ^ 63 - 1)%Z = S754_finite false 4503599627370496 11
  /\ GoFloat.of_int64 9007199254740993%Z = S754_finite false 4503599627370496 1.
Proof. vm_compute. repeat split. Qed.

Example Sub_examples :
  GoTime.Sub 1518922990432526000%Z 1518922990432026000%Z = 500000%Z
  /\ GoTime.Sub (2 ^ 63)%Z (- 5)%Z = GoTime.maxDuration
  /\ GoTime.Sub (- 2 ^ 63)%Z 5%Z = GoTime.minDuration.
Proof. vm_compute. repeat split. Qed.

Example RFC3339_examples :
  RFC3339.parse "2018-02-18T03:03:10.432026Z" = Some 1518922990432026000%Z
  /\ RFC3339.parse "1969-12-31T23:59:59Z" = Some (-1000000000)%Z
  /\ RFC3339.parse "2000-02-29T12:00:00.5+05:30" = Some 951805800500000000%Z
  /\ RFC3339.parse "2001-02-29T12:00:00Z" = None
  /\ RFC3339.parse "2018-02-18 03:03:10Z" = None.
Proof. vm_compute. repeat split. Qed.

(** ** Signs of converted integers *)

Section FloatSign.

Local Open Scope Z_scope.

Lemma digits2_pos_lower (p : positive) :
  2 ^ (Z.pos (digits2_pos p) - 1) <= Z.pos p.
Proof.
  induction p as [p IH | p IH |]; simpl digits2_pos.
  - rewrite Pos2Z.inj_succ.
    replace (Z.succ (Z.pos (digits2_pos p)) - 1)
      with (Z.succ (Z.pos (digits2_pos p) - 1)) by lia.
    rewrite Z.pow_succ_r by lia. lia.
  - rewrite Pos2Z.inj_succ.
    replace (Z.succ (Z.pos (digits2_pos p)) - 1)
      with (Z.succ (Z.pos (digits2_pos p) - 1)) by lia.
    rewrite Z.pow_succ_r by lia. lia.
  - reflexivity.
Qed.

Lemma shr_1_m (mrs : shr_record) :
  0 <= shr_m mrs -> shr_m (shr_1 mrs) = Z.div2 (shr_m mrs).
Proof.
  destruct mrs as [m r s]. simpl.
  destruct m as [| [p | p |] | p]; simpl; intros H; try reflexivity; lia.
Qed.

Lemma iter_shr_1_m (p : positive) (mrs : shr_record) :
  0 <= shr_m mrs ->
  shr_m (SpecFloat.iter_pos shr_1 p mrs) = Z.shiftr (shr_m mrs) (Z.pos p).
Proof.
  revert mrs. induction p as [p IH | p IH |]; intros mrs Hm; simpl SpecFloat.iter_pos.
  - assert (H1 : 0 <= shr_m (shr_1 mrs)).
    { rewrite shr_1_m by assumption. apply Z.div2_nonneg. assumption. }
    assert (H2 : 0 <= shr_m (SpecFloat.iter_pos shr_1 p (shr_1 mrs))).
    { rewrite IH by assumption. apply Z.shiftr_nonneg. assumption. }
    rewrite IH by assumption. rewrite IH by assumption.
    rewrite shr_1_m by assumption. rewrite Z.div2_spec.
    rewrite !Z.shiftr_shiftr by lia. f_equal. lia.
  - assert (H2 : 0 <= shr_m (SpecFloat.iter_pos shr_1 p mrs)).
    { rewrite IH by assumption. apply Z.shiftr_nonneg. assumption. }
    rewrite IH by assumption. rewrite IH by assumption.
    rewrite !Z.shiftr_shiftr by lia. f_equal. lia.
  - rewrite shr_1_m by assumption. apply Z.div2_spec.
Qed.

Lemma shr_record_of_loc_m (m : Z) (l : location) :
  shr_m (shr_record_of_loc m l) = m.
Proof. destruct l as [| []]; reflexivity. Qed.

(** Shifting a positive mantissa down to the precision of the format
    leaves it positive. *)
Lemma shr_fexp_pos (m e : Z) (l : location) :
  0 < m -> -1074 <= e ->
  0 < shr_m (fst (shr_fexp GoFloat.prec GoFloat.emax m e l)) /\
  e <= snd (shr_fexp GoFloat.prec GoFloat.emax m e l).
Proof.
  intros Hm He. unfold shr_fexp, shr, fexp, emin, GoFloat.prec, GoFloat.emax.
  destruct m as [| p | p]; try lia. simpl Zdigits2.
  pose proof (digits2_pos_lower p) as Hd.
  set (d := Z.pos (digits2_pos p)) in *.
  assert (Hd1 : 1 <= d) by (unfold d; lia).
  destruct (Z.max (d + e - 53) (3 - 1024 - 53) - e) as [| n | n] eqn:Hn;
    simpl fst; simpl snd; rewrite ?shr_record_of_loc_m; try lia.
  rewrite iter_shr_1_m by (rewrite shr_record_of_loc_m; lia).
  rewrite shr_record_of_loc_m. split; [| lia].
  rewrite Z.shiftr_div_pow2 by lia.
  assert (Hn' : Z.pos n <= d - 1) by lia.
  assert (2 ^ Z.pos n <= 2 ^ (d - 1)) by (apply Z.pow_le_mono_r; lia).
  apply Z.div_str_pos. lia.
Qed.

Lemma round_nearest_even_ge (m : Z) (l : location) :
  m <= round_nearest_even m l.
Proof. destruct l as [| []]; simpl; try lia. destruct (Z.even m); lia. Qed.

(** Rounding an integer other than zero gives a finite number or an
    infinity of the same sign, never a zero or a NaN. *)
Lemma binary_round_sign (sx : bool) (p : positive) :
  (exists m e, binary_round GoFloat.prec GoFloat.emax sx p 0 = S754_finite sx m e) \/
  binary_round GoFloat.prec GoFloat.emax sx p 0 = S754_infinity sx.
Proof.
  unfold binary_round.
  destruct (shl_align p 0 _) as [mz ez] eqn:Hal.
  assert (Hez : -1074 <= ez).
  { revert Hal. unfold shl_align, fexp, emin, GoFloat.prec, GoFloat.emax.
    destruct (Z.max _ _ - 0) eqn:Hs; intros [= <- <-]; lia. }
  unfold binary_round_aux.
  pose proof (shr_fexp_pos (Z.pos mz) ez loc_Exact ltac:(lia) Hez) as [H1 H1e].
  destruct (shr_fexp _ _ (Z.pos mz) ez loc_Exact) as [mrs' e'].
  simpl fst in H1; simpl snd in H1e.
  pose proof (round_nearest_even_ge (shr_m mrs') (loc_of_shr_record mrs')) as Hr.
  pose proof (shr_fexp_pos (round_nearest_even (shr_m mrs') (loc_of_shr_record mrs'))
                e' loc_Exact ltac:(lia) ltac:(lia)) as [H2 _].
  destruct (shr_fexp _ _ (round_nearest_even _ _) e' loc_Exact) as [mrs'' e''].
  simpl fst in H2.
  destruct (shr_m mrs'') as [| m | m]; try lia.
  destruct (e'' <=? _); eauto.
Qed.

Ltac by_sign n :=
  unfold GoFloat.lt, GoFloat.gt, GoFloat.eq, GoFloat.of_int64, GoFloat.zero, binary_normalize;
  destruct n as [| p | p]; [reflexivity | |];
  [ destruct (binary_round_sign false p) as [(m & e & ->) | ->]; reflexivity
  | destruct (binary_round_sign true p) as [(m & e & ->) | ->]; reflexivity ].

Lemma of_int64_lt_zero (n : Z) :
  GoFloat.lt (GoFloat.of_int64 n) GoFloat.zero = (n <? 0).
Proof. by_sign n. Qed.

Lemma of_int64_gt_zero (n : Z) :
  GoFloat.gt (GoFloat.of_int64 n) GoFloat.zero = (0 <? n).
Proof. by_sign n. Qed.

Lemma of_int64_eq_zero (n : Z) :
  GoFloat.eq (GoFloat.of_int64 n) GoFloat.zero = (n =? 0).
Proof. by_sign n. Qed.

End FloatSign.

(** ** dropNegativeTimes *)

Section SentinelCleanup.

Implicit Types (data : gmap string Value) (f g : string) (ev : Event).

(** The test [tFloat < 0] of the source is the test for a negative
    int64 or float64. *)
Lemma tFloat_negative (t : Value) :
  GoFloat.lt (tFloat_of t) GoFloat.zero = negativeTime (Some t).
Proof.
  destruct t as [s | n | x | b]; simpl; try reflexivity.
  apply of_int64_lt_zero.
Qed.

Lemma dropField_unfold data f :
  dropField data f =
    if negativeTime (data !! f)
    then <["error" := VString (errorMessage f)]> (delete f data)
    else data.
Proof.
  unfold dropField. destruct (data !! f) as [t |] eqn:Hf; [| reflexivity].
  rewrite tFloat_negative. reflexivity.
Qed.

Lemma dropField_lookup_same data f :
  f ≠ "error" ->
  dropField data f !! f = if negativeTime (data !! f) then None else data !! f.
Proof.
  intros Hne. rewrite dropField_unfold.
  destruct (negativeTime (data !! f)); [| reflexivity].
  rewrite lookup_insert_ne by congruence. apply lookup_delete_eq.
Qed.

Lemma dropField_lookup_other data f g :
  g ≠ f -> g ≠ "error" -> dropField data f !! g = data !! g.
Proof.
  intros Hgf Hge. rewrite dropField_unfold.
  destruct (negativeTime (data !! f)); [| reflexivity].
  rewrite lookup_insert_ne by congruence. apply lookup_delete_ne. congruence.
Qed.

Lemma dropField_lookup_error data f :
  dropField data f !! "error" =
    if negativeTime (data !! f) then Some (VString (errorMessage f)) else data !! "error".
Proof.
  rewrite dropField_unfold.
  destruct (negativeTime (data !! f)); [apply lookup_insert_eq | reflexivity].
Qed.

Lemma foldl_dropField_lookup_other (l : list string) data g :
  g ∉ l -> g ≠ "error" -> foldl dropField data l !! g = data !! g.
Proof.
  revert data. induction l as [| f l IH]; intros data Hg Hge; [reflexivity |].
  apply not_elem_of_cons in Hg as [Hgf Hgl]. simpl.
  rewrite IH by assumption. apply dropField_lookup_other; assumption.
Qed.

Lemma foldl_dropField_lookup (l : list string) data f :
  NoDup l -> "error" ∉ l -> f ∈ l ->
  foldl dropField data l !! f = if negativeTime (data !! f) then None else data !! f.
Proof.
  intros Hnd. revert data.
  induction Hnd as [| a l Ha Hnd IH]; intros data He Hf; [inversion Hf |].
  apply not_elem_of_cons in He as [Hea Hel]. simpl.
  destruct (decide (f = a)) as [-> | Hfa].
  - rewrite foldl_dropField_lookup_other by (assumption || congruence).
    apply dropField_lookup_same. congruence.
  - apply elem_of_cons in Hf as [Hf | Hf]; [contradiction |].
    assert (Hfe : f ≠ "error") by (intros ->; contradiction).
    rewrite IH by assumption.
    rewrite dropField_lookup_other by assumption. reflexivity.
Qed.

(** The annotation that is left is the one of the last negative field. *)
Lemma foldl_dropField_error (l : list string) data :
  NoDup l -> "error" ∉ l ->
  foldl dropField data l !! "error" =
    match last (filter (fun f => negativeTime (data !! f) = true) l) with
    | Some g => Some (VString (errorMessage g))
    | None => data !! "error"
    end.
Proof.
  induction l as [| a l IH] using rev_ind; intros Hnd He; [reflexivity |].
  apply NoDup_app in Hnd as (Hnd & Hdisj & _).
  apply not_elem_of_app in He as [Hel Hea].
  rewrite foldl_app, filter_app. simpl foldl.
  rewrite dropField_lookup_error.
  assert (Hal : a ∉ l) by (intros Hin; apply (Hdisj a Hin); left).
  assert (Hae : a ≠ "error") by (intros ->; apply Hea; left).
  rewrite foldl_dropField_lookup_other by assumption.
  rewrite filter_cons, filter_nil.
  destruct (decide (negativeTime (data !! a) = true)) as [Hneg | Hneg].
  - rewrite Hneg. rewrite last_snoc. reflexivity.
  - apply not_true_is_false in Hneg. rewrite Hneg.
    rewrite app_nil_r. apply IH; assumption.
Qed.

Lemma foldl_dropField_clean (l : list string) data :
  (forall f, f ∈ l -> negativeTime (data !! f) = false) ->
  foldl dropField data l = data.
Proof.
  induction l as [| a l IH]; intros Hclean; [reflexivity |]. simpl.
  rewrite dropField_unfold, (Hclean a) by left.
  apply IH. intros f Hf. apply Hclean. right. assumption.
Qed.

Lemma timeFields_NoDup : NoDup timeFields.
Proof. apply (bool_decide_unpack _). vm_compute. exact I. Qed.

Lemma timeFields_no_error : "error" ∉ timeFields.
Proof. apply (bool_decide_unpack _). vm_compute. exact I. Qed.

Lemma dropNegativeTimes_lookup ev f :
  f ∈ timeFields ->
  Data (dropNegativeTimes ev) !! f =
    if negativeTime (Data ev !! f) then None else Data ev !! f.
Proof.
  intros Hf.
  change (Data (dropNegativeTimes ev)) with (foldl dropField (Data ev) timeFields).
  apply foldl_dropField_lookup;
    [apply timeFields_NoDup | apply timeFields_no_error | assumption].
Qed.

Lemma dropNegativeTimes_clean ev f :
  f ∈ timeFields -> negativeTime (Data (dropNegativeTimes ev) !! f) = false.
Proof.
  intros Hf. rewrite dropNegativeTimes_lookup by assumption.
  destruct (negativeTime (Data ev !! f)) eqn:Hneg; [reflexivity | assumption].
Qed.

Lemma dropNegativeTimes_error ev :
  Data (dropNegativeTimes ev) !! "error" =
    match last (negativeFields (Data ev)) with
    | Some g => Some (VString (errorMessage g))
    | None => Data ev !! "error"
    end.
Proof.
  change (Data (dropNegativeTimes ev)) with (foldl dropField (Data ev) timeFields).
  apply foldl_dropField_error; [apply timeFields_NoDup | apply timeFields_no_error].
Qed.

(** Keys other than the four latency fields and [error] are not
    touched. *)
Lemma dropNegativeTimes_other ev g :
  g ∉ timeFields -> g ≠ "error" ->
  Data (dropNegativeTimes ev) !! g = Data ev !! g.
Proof.
  intros Hg Hge.
  change (Data (dropNegativeTimes ev)) with (foldl dropField (Data ev) timeFields).
  apply foldl_dropField_lookup_other; assumption.
Qed.

Lemma dropNegativeTimes_idempotent ev :
  dropNegativeTimes (dropNegativeTimes ev) = dropNegativeTimes ev.
Proof.
  unfold dropNegativeTimes at 1. cbn [Timestamp].
  rewrite foldl_dropField_clean; [reflexivity |].
  intros f Hf. apply dropNegativeTimes_clean. assumption.
Qed.

Lemma errorMessage_names_field f g :
  f ∈ timeFields -> g ∈ timeFields -> errorMessage f = errorMessage g -> f = g.
Proof.
  unfold timeFields. intros Hf Hg.
  repeat (apply elem_of_cons in Hf as [-> | Hf]);
    repeat (apply elem_of_cons in Hg as [-> | Hg]);
    try (apply elem_of_nil in Hf; contradiction);
    try (apply elem_of_nil in Hg; contradiction);
    intros H; try reflexivity; vm_compute in H; discriminate H.
Qed.

End SentinelCleanup.

(** ** strings.Split *)

Section Split.

Implicit Types (s w : string) (c sep : ascii).

Lemma strings_Split_nonempty s sep : strings_Split s sep ≠ [].
Proof.
  destruct s as [| a s]; simpl; [discriminate |].
  destruct (Ascii.eqb a sep); [discriminate |].
  destruct (strings_Split s sep); discriminate.
Qed.

Lemma strings_Split_no_sep s sep :
  occurs sep s = false -> strings_Split s sep = [s].
Proof.
  induction s as [| a s IH]; simpl; intros H; [reflexivity |].
  apply orb_false_iff in H as [Ha Hs].
  rewrite Ha, (IH Hs). reflexivity.
Qed.

Lemma strings_Split_parts_no_sep s sep w :
  w ∈ strings_Split s sep -> occurs sep w = false.
Proof.
  revert w. induction s as [| a s IH]; simpl; intros w Hw.
  - apply list_elem_of_singleton in Hw as ->. reflexivity.
  - destruct (Ascii.eqb a sep) eqn:Ha.
    + apply elem_of_cons in Hw as [-> | Hw]; [reflexivity | auto].
    + destruct (strings_Split s sep) as [| w0 ws] eqn:Hs.
      * apply list_elem_of_singleton in Hw as ->. simpl. rewrite Ha. reflexivity.
      * apply elem_of_cons in Hw as [-> | Hw].
        -- simpl. rewrite Ha. apply IH. left.
        -- apply IH. right. assumption.
Qed.

Lemma strings_Split_parts_sub s sep w c :
  w ∈ strings_Split s sep -> occurs c s = false -> occurs c w = false.
Proof.
  revert w. induction s as [| a s IH]; simpl; intros w Hw Hc.
  - apply list_elem_of_singleton in Hw as ->. reflexivity.
  - apply orb_false_iff in Hc as [Hac Hsc].
    destruct (Ascii.eqb a sep) eqn:Ha.
    + apply elem_of_cons in Hw as [-> | Hw]; [reflexivity | auto].
    + destruct (strings_Split s sep) as [| w0 ws] eqn:Hs.
      * apply list_elem_of_singleton in Hw as ->. simpl. rewrite Hac. reflexivity.
      * apply elem_of_cons in Hw as [-> | Hw].
        -- simpl. rewrite Hac. apply IH; [left | assumption].
        -- apply IH; [right |]; assumption.
Qed.

(** Splitting a joined string gives the parts back. *)
Lemma strings_Split_join s sep (rest : string) :
  occurs sep s = false ->
  strings_Split (s ++ String sep rest) sep = s :: strings_Split rest sep.
Proof.
  induction s as [| a s IH]; simpl; intros H.
  - rewrite Ascii.eqb_refl. reflexivity.
  - apply orb_false_iff in H as [Ha Hs]. rewrite Ha, (IH Hs). reflexivity.
Qed.

Lemma strings_Split_pair (k v : string) sep :
  occurs sep k = false -> occurs sep v = false ->
  strings_Split (k ++ String sep v) sep = [k; v].
Proof.
  intros Hk Hv. rewrite strings_Split_join by assumption.
  rewrite strings_Split_no_sep by assumption. reflexivity.
Qed.

End Split.

(** ** The loop over the fields of the trace header *)

Section TraceLoop.

Implicit Types (data d : gmap string Value) (k key field header : string)
  (ws : list (string * string)) (edgeMode r : bool).

Lemma traceField_writes edgeMode d r field :
  traceField edgeMode (d, r) field =
    (match fieldWrite edgeMode field with
     | Some (k, v) => <[k := VString v]> d
     | None => d
     end,
     r && fieldKeepsRoot edgeMode field).
Proof.
  unfold traceField, fieldWrite, fieldKeepsRoot, target.
  destruct (strings_Split field "=") as [| k [| v [| x l]]];
    rewrite ?andb_true_r; try reflexivity.
  destruct (String.eqb k "Root"); [rewrite andb_true_r; reflexivity |].
  destruct (String.eqb k "Self"); [rewrite andb_false_r; reflexivity |].
  destruct (String.eqb k "Parent").
  - destruct edgeMode; simpl; rewrite ?andb_true_r, ?andb_false_r; reflexivity.
  - destruct (String.eqb k "Sampled"); rewrite andb_true_r; reflexivity.
Qed.

Lemma foldl_traceField edgeMode (fields : list string) d r :
  foldl (traceField edgeMode) (d, r) fields =
    (applyWrites (omap (fieldWrite edgeMode) fields) d,
     r && forallb (fieldKeepsRoot edgeMode) fields).
Proof.
  revert d r. induction fields as [| field fields IH]; intros d r; cbn [foldl omap forallb].
  - rewrite andb_true_r. reflexivity.
  - rewrite traceField_writes, IH, andb_assoc. cbn [omap list_omap].
    destruct (fieldWrite edgeMode field) as [[k v] |]; reflexivity.
Qed.

Lemma traceFields_writes edgeMode d header :
  traceFields edgeMode d header =
    (applyWrites (headerWrites edgeMode header) d, headerKeepsRoot edgeMode header).
Proof. unfold traceFields. rewrite foldl_traceField. reflexivity. Qed.

(** A key holds what the last assignment to it wrote, or what it held
    before the loop. *)
Lemma applyWrites_lookup ws d k :
  applyWrites ws d !! k =
    match lastWrite k ws with
    | Some v => Some (VString v)
    | None => d !! k
    end.
Proof.
  revert d. induction ws as [| [k' v'] ws IH]; intros d; [reflexivity |].
  unfold applyWrites in *. simpl. rewrite IH.
  destruct (lastWrite k ws) as [v |]; [reflexivity |].
  destruct (String.eqb_spec k' k) as [-> | Hne].
  - apply lookup_insert_eq.
  - apply lookup_insert_ne. assumption.
Qed.

Lemma applyWrites_idempotent ws d :
  applyWrites ws (applyWrites ws d) = applyWrites ws d.
Proof.
  apply map_eq. intros k. rewrite !applyWrites_lookup.
  destruct (lastWrite k ws); reflexivity.
Qed.

Lemma lastWrite_elem_of ws k v :
  lastWrite k ws = Some v -> (k, v) ∈ ws.
Proof.
  induction ws as [| [k' v'] ws IH]; simpl; [discriminate |].
  destruct (lastWrite k ws) as [v0 |].
  - intros [= ->]. right. apply IH. reflexivity.
  - destruct (String.eqb_spec k' k) as [-> | Hne]; [| discriminate].
    intros [= ->]. left.
Qed.

Lemma lastWrite_None ws k :
  lastWrite k ws = None <-> forall v, (k, v) ∉ ws.
Proof.
  induction ws as [| [k' v'] ws IH]; simpl.
  - split; [intros _ v Hin; inversion Hin | reflexivity].
  - destruct (lastWrite k ws) as [v0 |] eqn:Hl.
    + split; [discriminate |]. intros H. exfalso.
      apply (H v0). right. apply lastWrite_elem_of. assumption.
    + destruct (String.eqb_spec k' k) as [-> | Hne].
      * split; [discriminate |]. intros H. exfalso. apply (H v'). left.
      * split; [| reflexivity]. intros _ v Hin.
        apply elem_of_cons in Hin as [[= <- <-] | Hin]; [congruence |].
        destruct IH as [IH _]. exact (IH eq_refl v Hin).
Qed.

(** The values the header assigns contain neither separator. *)
Lemma fieldWrite_value edgeMode field k v :
  fieldWrite edgeMode field = Some (k, v) ->
  occurs "=" v = false /\ (occurs ";" field = false -> occurs ";" v = false).
Proof.
  unfold fieldWrite.
  destruct (strings_Split field "=") as [| k0 [| v0 [| x l]]] eqn:Hsplit; try discriminate.
  assert (Hv : v0 ∈ strings_Split field "=") by (rewrite Hsplit; right; left).
  intros H.
  assert (v = v0) as -> by (destruct (target edgeMode k0); congruence).
  split.
  - eapply strings_Split_parts_no_sep. exact Hv.
  - intros Hf. eapply strings_Split_parts_sub; eassumption.
Qed.

Lemma headerWrites_value edgeMode header k v :
  (k, v) ∈ headerWrites edgeMode header ->
  occurs "=" v = false /\ occurs ";" v = false.
Proof.
  unfold headerWrites. intros Hin.
  apply list_elem_of_omap in Hin as (field & Hfield & Hw).
  apply fieldWrite_value in Hw as [H1 H2]. split; [assumption |].
  apply H2. eapply strings_Split_parts_no_sep. exact Hfield.
Qed.

(** A string without separators is a header that assigns nothing. *)
Lemma traceFields_plain edgeMode d header :
  occurs "=" header = false -> occurs ";" header = false ->
  traceFields edgeMode d header = (d, true).
Proof.
  intros H1 H2. unfold traceFields.
  rewrite strings_Split_no_sep by assumption. simpl.
  rewrite strings_Split_no_sep by assumption. reflexivity.
Qed.

End TraceLoop.

(** C1. For each of the four latency fields, one iteration of the cleanup
    deletes the field and sets [error] to the message naming it exactly
    when the field holds a negative int64 or float64, and otherwise changes
    nothing; after [dropNegativeTimes] the field is gone if it was negative
    and is what it was if not, an [error] naming a negative field is
    present whenever one was deleted, and no latency field holds a
    negative value. *)
Theorem dropNegativeTimes_sentinel_cleanup (ev : Event) (f : string) :
  f ∈ timeFields ->
  (forall data : gmap string Value,
      dropField data f =
        if negativeTime (data !! f)
        then <["error" := VString (errorMessage f)]> (delete f data)
        else data)
  /\ Data (dropNegativeTimes ev) !! f
      = (if negativeTime (Data ev !! f) then None else Data ev !! f)
  /\ (negativeTime (Data ev !! f) = true ->
      exists g, g ∈ timeFields /\ negativeTime (Data ev !! g) = true
        /\ Data (dropNegativeTimes ev) !! "error" = Some (VString (errorMessage g)))
  /\ (forall g, g ∈ timeFields -> negativeTime (Data (dropNegativeTimes ev) !! g) = false).
Proof.
  intros Hf. split; [| split; [| split]].
  - intros data. apply dropField_unfold.
  - apply dropNegativeTimes_lookup. assumption.
  - intros Hneg. rewrite dropNegativeTimes_error.
    assert (Hin : f ∈ negativeFields (Data ev)).
    { unfold negativeFields. apply list_elem_of_filter. split; assumption. }
    destruct (last (negativeFields (Data ev))) as [g |] eqn:Hlast.
    + exists g. apply last_Some_elem_of in Hlast.
      unfold negativeFields in Hlast. apply list_elem_of_filter in Hlast as [Hg1 Hg2].
      repeat split; assumption.
    + apply last_None in Hlast. rewrite Hlast in Hin. inversion Hin.
  - intros g Hg. apply dropNegativeTimes_clean. assumption.
Qed.

Lemma dropNegativeTimes_sentinel_cleanup_witness :
  "time_taken" ∈ timeFields
  /\ Data (dropNegativeTimes Examples.cloudFrontTimeout) !! "time_taken" = None.
Proof.
  assert (H : "time_taken" ∈ timeFields) by (unfold timeFields; do 3 right; left).
  split; [exact H |].
  exact (proj1 (proj2 (dropNegativeTimes_sentinel_cleanup Examples.cloudFrontTimeout
                         "time_taken" H))).
Defined.

(** C5. When two or more latency fields are negative, the [error] left by
    [dropNegativeTimes] names the last of them in the order of
    [timeFields], and names no other negative field. *)
Theorem dropNegativeTimes_last_error_survives (ev : Event) :
  2 <= length (negativeFields (Data ev)) ->
  exists g,
    last (negativeFields (Data ev)) = Some g
    /\ Data (dropNegativeTimes ev) !! "error" = Some (VString (errorMessage g))
    /\ (forall f, f ∈ negativeFields (Data ev) -> f ≠ g ->
        Data (dropNegativeTimes ev) !! "error" ≠ Some (VString (errorMessage f))).
Proof.
  intros Hlen. rewrite dropNegativeTimes_error.
  destruct (last (negativeFields (Data ev))) as [g |] eqn:Hlast.
  - exists g. split; [reflexivity | split; [reflexivity |]].
    intros f Hf Hfg [= Heq]. apply Hfg.
    apply last_Some_elem_of in Hlast.
    unfold negativeFields in Hf, Hlast.
    apply list_elem_of_filter in Hf as [_ Hf].
    apply list_elem_of_filter in Hlast as [_ Hg].
    symmetry. apply errorMessage_names_field; assumption.
  - apply last_None in Hlast. rewrite Hlast in Hlen. simpl in Hlen. lia.
Qed.

Lemma dropNegativeTimes_last_error_survives_witness :
  2 <= length (negativeFields (Data Examples.elbTimeout))
  /\ exists g,
      last (negativeFields (Data Examples.elbTimeout)) = Some g
      /\ Data (dropNegativeTimes Examples.elbTimeout) !! "error"
         = Some (VString (errorMessage g))
      /\ (forall f, f ∈ negativeFields (Data Examples.elbTimeout) -> f ≠ g ->
          Data (dropNegativeTimes Examples.elbTimeout) !! "error"
          ≠ Some (VString (errorMessage f))).
Proof.
  assert (H : 2 <= length (negativeFields (Data Examples.elbTimeout)))
    by (vm_compute; lia).
  split; [exact H |].
  exact (dropNegativeTimes_last_error_survives Examples.elbTimeout H).
Defined.


(** ** The keys of the header *)

Section TraceKeys.

Implicit Types (k key field header : string) (edgeMode : bool).

Lemma target_trace_id edgeMode k :
  target edgeMode k = Some "trace.trace_id" <-> k = "Root" \/ k = "trace.trace_id".
Proof.
  unfold target.
  destruct (String.eqb_spec k "Root") as [-> | H1]; [tauto |].
  destruct (String.eqb_spec k "Self") as [-> | H2];
    [split; [discriminate | intros [H | H]; discriminate H] |].
  destruct (String.eqb_spec k "Parent") as [-> | H3].
  { destruct edgeMode; simpl;
      (split; [discriminate | intros [H | H]; discriminate H]). }
  destruct (String.eqb_spec k "Sampled") as [-> | H4];
    [split; [discriminate | intros [H | H]; discriminate H] |].
  split; [intros [= ->]; tauto | intros [-> | ->]; [contradiction | reflexivity]].
Qed.

Lemma target_parent_id edgeMode k :
  target edgeMode k = Some "trace.parent_id"
  <-> (k = "Parent" /\ edgeMode = false) \/ k = "trace.parent_id".
Proof.
  unfold target.
  destruct (String.eqb_spec k "Root") as [-> | H1];
    [split; [discriminate | intros [[H _] | H]; discriminate H] |].
  destruct (String.eqb_spec k "Self") as [-> | H2];
    [split; [discriminate | intros [[H _] | H]; discriminate H] |].
  destruct (String.eqb_spec k "Parent") as [-> | H3].
  { destruct edgeMode; simpl.
    - split; [discriminate | intros [[_ H] | H]; discriminate H].
    - tauto. }
  destruct (String.eqb_spec k "Sampled") as [-> | H4];
    [split; [discriminate | intros [[H _] | H]; discriminate H] |].
  split; [intros [= ->]; tauto | intros [[-> _] | ->]; [contradiction | reflexivity]].
Qed.

Lemma hasKey_true key header :
  hasKey key header = true
  <-> exists field v, field ∈ strings_Split header ";" /\ strings_Split field "=" = [key; v].
Proof.
  unfold hasKey. rewrite existsb_exists. split.
  - intros (field & Hin & Hk). apply list_elem_of_In in Hin.
    unfold fieldHasKey in Hk.
    destruct (strings_Split field "=") as [| k [| v [| x l]]] eqn:Hs; try discriminate.
    apply String.eqb_eq in Hk as ->. exists field, v. split; assumption.
  - intros (field & v & Hin & Hs). exists field. split; [apply list_elem_of_In; assumption |].
    unfold fieldHasKey. rewrite Hs. apply String.eqb_refl.
Qed.

Lemma elem_of_headerWrites edgeMode header k v :
  (k, v) ∈ headerWrites edgeMode header
  <-> exists field key, field ∈ strings_Split header ";"
        /\ strings_Split field "=" = [key; v] /\ target edgeMode key = Some k.
Proof.
  unfold headerWrites. rewrite list_elem_of_omap. split.
  - intros (field & Hin & Hw). unfold fieldWrite in Hw.
    destruct (strings_Split field "=") as [| key [| v0 [| x l]]] eqn:Hs; try discriminate.
    destruct (target edgeMode key) as [k0 |] eqn:Ht; [| discriminate].
    injection Hw as -> ->. exists field, key. repeat split; assumption.
  - intros (field & key & Hin & Hs & Ht). exists field. split; [assumption |].
    unfold fieldWrite. rewrite Hs, Ht. reflexivity.
Qed.

(** A key of the map is assigned by the header exactly when the header
    has a pair that is stored under it. *)
Lemma lastWrite_headerWrites_None edgeMode header k :
  lastWrite k (headerWrites edgeMode header) = None
  <-> forall key, target edgeMode key = Some k -> hasKey key header = false.
Proof.
  rewrite lastWrite_None. split.
  - intros H key Ht. apply not_true_is_false. intros Hk.
    apply hasKey_true in Hk as (field & v & Hin & Hs).
    apply (H v). apply elem_of_headerWrites. exists field, key. repeat split; assumption.
  - intros H v Hin. apply elem_of_headerWrites in Hin as (field & key & Hin & Hs & Ht).
    specialize (H key Ht).
    assert (Hk : hasKey key header = true)
      by (apply hasKey_true; exists field, v; split; assumption).
    congruence.
Qed.

Lemma lastWrite_trace_id edgeMode header :
  lastWrite "trace.trace_id" (headerWrites edgeMode header) = None
  <-> hasKey "Root" header = false /\ hasKey "trace.trace_id" header = false.
Proof.
  rewrite lastWrite_headerWrites_None. split.
  - intros H. split; apply H; apply target_trace_id; tauto.
  - intros [H1 H2] key Ht. apply target_trace_id in Ht as [-> | ->]; assumption.
Qed.

Lemma lastWrite_parent_id header :
  lastWrite "trace.parent_id" (headerWrites true header) = None
  <-> hasKey "trace.parent_id" header = false.
Proof.
  rewrite lastWrite_headerWrites_None. split.
  - intros H. apply H. apply target_parent_id. tauto.
  - intros H key Ht. apply target_parent_id in Ht as [[_ Hf] | ->];
      [discriminate | assumption].
Qed.

Lemma fieldKeepsRoot_hasKey edgeMode field :
  fieldKeepsRoot edgeMode field =
    negb (fieldHasKey "Self" field) && (edgeMode || negb (fieldHasKey "Parent" field)).
Proof.
  unfold fieldKeepsRoot, fieldHasKey.
  destruct (strings_Split field "=") as [| k [| v [| x l]]];
    try (destruct edgeMode; reflexivity).
  destruct (String.eqb_spec k "Root") as [-> | H1]; [destruct edgeMode; reflexivity |].
  destruct (String.eqb_spec k "Self") as [-> | H2]; [reflexivity |].
  destruct (String.eqb k "Parent"), edgeMode; reflexivity.
Qed.

(** The event stays a root span unless the header has a [Self] pair or,
    outside edge mode, a [Parent] pair. *)
Lemma headerKeepsRoot_hasKey edgeMode header :
  headerKeepsRoot edgeMode header =
    negb (hasKey "Self" header) && (edgeMode || negb (hasKey "Parent" header)).
Proof.
  unfold headerKeepsRoot, hasKey.
  induction (strings_Split header ";") as [| field fields IH]; cbn [forallb existsb].
  - destruct edgeMode; reflexivity.
  - rewrite IH, fieldKeepsRoot_hasKey.
    destruct (fieldHasKey "Self" field), (fieldHasKey "Parent" field), edgeMode,
      (existsb (fieldHasKey "Self") fields), (existsb (fieldHasKey "Parent") fields);
      reflexivity.
Qed.

End TraceKeys.

(** ** addTraceData *)

Section TraceData.

Variable time_Parse : string -> string -> option Time.

Implicit Types (data d : gmap string Value) (k header : string) (ev : Event)
  (edgeMode r : bool) (timestamp : Time).

Lemma attachDuration_lookup timestamp d k :
  attachDuration time_Parse timestamp d !! k =
    if String.eqb k "duration_ms" && GoFloat.gt (durationMs time_Parse timestamp d) GoFloat.zero
    then Some (VFloat64 (durationMs time_Parse timestamp d))
    else d !! k.
Proof.
  unfold attachDuration.
  destruct (GoFloat.gt (durationMs time_Parse timestamp d) GoFloat.zero);
    rewrite ?andb_false_r, ?andb_true_r; [| reflexivity].
  destruct (String.eqb_spec k "duration_ms") as [-> | Hne].
  - apply lookup_insert_eq.
  - apply lookup_insert_ne. congruence.
Qed.

Lemma attachServiceName_other d k :
  k ≠ "service_name" -> attachServiceName d !! k = d !! k.
Proof.
  intros Hne. unfold attachServiceName.
  destruct (d !! "elb") as [[] |]; try reflexivity.
  apply lookup_insert_ne. congruence.
Qed.

Lemma attachName_other d k :
  k ≠ "name" -> attachName d !! k = d !! k.
Proof.
  intros Hne. unfold attachName.
  destruct (d !! "request_path") as [[] |]; try reflexivity.
  apply lookup_insert_ne. congruence.
Qed.

Lemma finishTrace_trace_id timestamp header d :
  finishTrace time_Parse timestamp header d !! "trace_id" = None.
Proof.
  unfold finishTrace, renameHeader.
  rewrite lookup_insert_ne by discriminate. apply lookup_delete_eq.
Qed.

Lemma finishTrace_header timestamp header d :
  finishTrace time_Parse timestamp header d !! "request.headers.x-amzn-trace-id"
  = Some (VString header).
Proof. unfold finishTrace, renameHeader. apply lookup_insert_eq. Qed.

(** The keys the last part of the function does not write. *)
Lemma finishTrace_other timestamp header d k :
  k ≠ "duration_ms" -> k ≠ "service_name" -> k ≠ "name" -> k ≠ "trace_id" ->
  k ≠ "request.headers.x-amzn-trace-id" ->
  finishTrace time_Parse timestamp header d !! k = d !! k.
Proof.
  intros H1 H2 H3 H4 H5. unfold finishTrace, renameHeader.
  rewrite lookup_insert_ne by congruence.
  rewrite lookup_delete_ne by congruence.
  rewrite attachName_other, attachServiceName_other by assumption.
  rewrite attachDuration_lookup.
  destruct (String.eqb_spec k "duration_ms"); [contradiction | reflexivity].
Qed.

Lemma finishTrace_duration timestamp header d :
  finishTrace time_Parse timestamp header d !! "duration_ms"
  = attachDuration time_Parse timestamp d !! "duration_ms".
Proof.
  unfold finishTrace, renameHeader.
  rewrite lookup_insert_ne by discriminate.
  rewrite lookup_delete_ne by discriminate.
  rewrite attachName_other, attachServiceName_other by discriminate.
  reflexivity.
Qed.

Lemma addTraceData_no_header ev edgeMode :
  traceHeader ev = None -> addTraceData time_Parse ev edgeMode = Returned ev.
Proof.
  unfold traceHeader, addTraceData.
  destruct (Data ev !! "trace_id") as [[] |]; (discriminate || reflexivity).
Qed.

Lemma addTraceData_header ev edgeMode header :
  traceHeader ev = Some header ->
  addTraceData time_Parse ev edgeMode =
    match assignRootSpan (applyWrites (headerWrites edgeMode header) (Data ev),
                          headerKeepsRoot edgeMode header) with
    | Returned d =>
        Returned (mkEvent (Timestamp ev)
                    (finishTrace time_Parse (Timestamp ev) header d))
    | Panicked d msg => Panicked (mkEvent (Timestamp ev) d) msg
    end.
Proof.
  unfold traceHeader, addTraceData.
  destruct (Data ev !! "trace_id") as [[] |]; try discriminate.
  intros [= ->]. rewrite traceFields_writes. reflexivity.
Qed.

Lemma assignRootSpan_returned d r :
  returned (assignRootSpan (d, r)) = negb r || isString (d !! "trace.trace_id").
Proof.
  unfold assignRootSpan. destruct r; [| reflexivity].
  destruct (d !! "trace.trace_id") as [[] |]; reflexivity.
Qed.

Lemma written_trace_id edgeMode header :
  match lastWrite "trace.trace_id" (headerWrites edgeMode header) with
  | Some _ => true
  | None => false
  end = hasKey "Root" header || hasKey "trace.trace_id" header.
Proof.
  destruct (lastWrite "trace.trace_id" (headerWrites edgeMode header)) as [v |] eqn:Hl.
  - destruct (hasKey "Root" header) eqn:H1; [reflexivity |].
    destruct (hasKey "trace.trace_id" header) eqn:H2; [reflexivity |].
    assert (Hn : lastWrite "trace.trace_id" (headerWrites edgeMode header) = None)
      by (apply lastWrite_trace_id; split; assumption).
    congruence.
  - apply lastWrite_trace_id in Hl as [-> ->]. reflexivity.
Qed.

(** When [addTraceData] returns and when it panics. *)
Lemma addTraceData_returned ev edgeMode :
  returned (addTraceData time_Parse ev edgeMode) =
    match traceHeader ev with
    | None => true
    | Some header =>
        hasKey "Self" header
        || (negb edgeMode && hasKey "Parent" header)
        || hasKey "Root" header
        || hasKey "trace.trace_id" header
        || isString (Data ev !! "trace.trace_id")
    end.
Proof.
  destruct (traceHeader ev) as [header |] eqn:Hh.
  - rewrite (addTraceData_header _ _ _ Hh).
    pose proof (assignRootSpan_returned
                  (applyWrites (headerWrites edgeMode header) (Data ev))
                  (headerKeepsRoot edgeMode header)) as Hr.
    assert (Hret : returned
                     match assignRootSpan
                             (applyWrites (headerWrites edgeMode header) (Data ev),
                              headerKeepsRoot edgeMode header) with
                     | Returned d =>
                         Returned (mkEvent (Timestamp ev)
                                     (finishTrace time_Parse (Timestamp ev) header d))
                     | Panicked d msg => Panicked (mkEvent (Timestamp ev) d) msg
                     end
                   = returned (assignRootSpan
                                 (applyWrites (headerWrites edgeMode header) (Data ev),
                                  headerKeepsRoot edgeMode header)))
      by (destruct (assignRootSpan _); reflexivity).
    rewrite Hret, Hr, applyWrites_lookup, headerKeepsRoot_hasKey.
    pose proof (written_trace_id edgeMode header) as Hw.
    destruct (lastWrite "trace.trace_id" (headerWrites edgeMode header));
      simpl isString;
      destruct (hasKey "Self" header), edgeMode, (hasKey "Parent" header),
        (hasKey "Root" header), (hasKey "trace.trace_id" header),
        (isString (Data ev !! "trace.trace_id"));
      simpl in Hw |- *; (discriminate Hw || reflexivity).
  - rewrite addTraceData_no_header by assumption. reflexivity.
Qed.

(** A second call finds the state the first one left and changes
    nothing: after a return the field [trace_id] is gone, and after a
    panic the header is read and applied again with the same result. *)
Lemma addTraceData_again ev edgeMode :
  addTraceData time_Parse (stateOf (addTraceData time_Parse ev edgeMode)) edgeMode
  = addTraceData time_Parse ev edgeMode.
Proof.
  destruct (traceHeader ev) as [header |] eqn:Hh.
  2: { rewrite (addTraceData_no_header _ _ Hh). simpl.
       apply addTraceData_no_header. assumption. }
  rewrite (addTraceData_header _ _ _ Hh).
  set (ws := headerWrites edgeMode header).
  set (d := applyWrites ws (Data ev)).
  destruct (assignRootSpan (d, headerKeepsRoot edgeMode header)) as [d1 | d1 msg] eqn:Ha.
  - simpl. apply addTraceData_no_header.
    unfold traceHeader. simpl. rewrite finishTrace_trace_id. reflexivity.
  - simpl.
    assert (headerKeepsRoot edgeMode header = true /\ d1 = d) as [Hroot ->].
    { revert Ha. unfold assignRootSpan.
      destruct (headerKeepsRoot edgeMode header); [| discriminate].
      destruct (d !! "trace.trace_id") as [[] |]; intros [= <- <-]; auto. }
    rewrite Hroot in Ha.
    assert (Hd : d !! "trace_id" =
                 match lastWrite "trace_id" ws with
                 | Some v => Some (VString v)
                 | None => Some (VString header)
                 end).
    { unfold d. rewrite applyWrites_lookup.
      destruct (lastWrite "trace_id" ws); [reflexivity |].
      revert Hh. unfold traceHeader.
      destruct (Data ev !! "trace_id") as [[] |]; congruence. }
    destruct (lastWrite "trace_id" ws) as [v |] eqn:Hl.
    + apply lastWrite_elem_of in Hl. apply headerWrites_value in Hl as [H1 H2].
      unfold addTraceData. simpl. rewrite Hd.
      rewrite traceFields_plain by assumption. rewrite Ha. reflexivity.
    + unfold addTraceData. simpl. rewrite Hd.
      rewrite traceFields_writes. fold ws. unfold d in *.
      rewrite applyWrites_idempotent, Hroot, Ha. reflexivity.
Qed.

End TraceData.

(** ** What one pair of the header does *)

Section TracePairs.

Implicit Types (d : gmap string Value) (r edgeMode : bool) (K V R S P : string).

Lemma occurs_app (c : ascii) (a b : string) :
  occurs c (a ++ b) = occurs c a || occurs c b.
Proof.
  induction a as [| x a IH]; simpl; [reflexivity |].
  rewrite IH, orb_assoc. reflexivity.
Qed.

Lemma traceField_pair edgeMode d r K V :
  occurs "=" K = false -> occurs "=" V = false ->
  traceField edgeMode (d, r) (K ++ String "=" V) =
    (match target edgeMode K with
     | Some k => <[k := VString V]> d
     | None => d
     end,
     r && negb (String.eqb K "Self") && (edgeMode || negb (String.eqb K "Parent"))).
Proof.
  intros HK HV. rewrite traceField_writes.
  unfold fieldWrite. rewrite strings_Split_pair by assumption.
  rewrite fieldKeepsRoot_hasKey. unfold fieldHasKey.
  rewrite strings_Split_pair by assumption.
  rewrite andb_assoc.
  destruct (target edgeMode K); reflexivity.
Qed.

Lemma traceField_Root edgeMode d r R :
  occurs "=" R = false ->
  traceField edgeMode (d, r) ("Root=" ++ R) = (<["trace.trace_id" := VString R]> d, r).
Proof.
  intros HR. change ("Root=" ++ R) with ("Root" ++ String "=" R).
  rewrite traceField_pair by (assumption || reflexivity).
  simpl. rewrite orb_true_r, !andb_true_r. reflexivity.
Qed.

Lemma traceField_Self edgeMode d r S :
  occurs "=" S = false ->
  traceField edgeMode (d, r) ("Self=" ++ S) = (<["trace.span_id" := VString S]> d, false).
Proof.
  intros HS. change ("Self=" ++ S) with ("Self" ++ String "=" S).
  rewrite traceField_pair by (assumption || reflexivity).
  simpl. rewrite andb_false_r. reflexivity.
Qed.

Lemma traceField_Parent edgeMode d r P :
  occurs "=" P = false ->
  traceField edgeMode (d, r) ("Parent=" ++ P) =
    if edgeMode then (d, r) else (<["trace.parent_id" := VString P]> d, false).
Proof.
  intros HP. change ("Parent=" ++ P) with ("Parent" ++ String "=" P).
  rewrite traceField_pair by (assumption || reflexivity).
  destruct edgeMode; simpl; rewrite ?andb_true_r, ?andb_false_r; reflexivity.
Qed.

Lemma traceField_Sampled edgeMode d r V :
  occurs "=" V = false ->
  traceField edgeMode (d, r) ("Sampled=" ++ V) = (<["sampled" := VString V]> d, r).
Proof.
  intros HV. change ("Sampled=" ++ V) with ("Sampled" ++ String "=" V).
  rewrite traceField_pair by (assumption || reflexivity).
  simpl. rewrite orb_true_r, !andb_true_r. reflexivity.
Qed.

Lemma traceField_other edgeMode d r K V :
  occurs "=" K = false -> occurs "=" V = false ->
  K ≠ "Root" -> K ≠ "Self" -> K ≠ "Parent" -> K ≠ "Sampled" ->
  traceField edgeMode (d, r) (K ++ String "=" V) = (<[K := VString V]> d, r).
Proof.
  intros HK HV H1 H2 H3 H4. rewrite traceField_pair by assumption.
  unfold target.
  apply String.eqb_neq in H1, H2, H3, H4. rewrite H1, H2, H3, H4.
  simpl. rewrite orb_true_r, !andb_true_r. reflexivity.
Qed.

End TracePairs.

(** ** The event addTraceData returns *)

Section TraceResult.

Variable time_Parse : string -> string -> option Time.

Implicit Types (d : gmap string Value) (k header R S : string) (ev : Event)
  (edgeMode : bool).

(** Whenever the function returns on an event with a header: the field
    [trace_id] is gone, the header is kept under its new name, the keys
    the header assigns hold what the last assignment wrote, and a root
    span has the trace id as its span id. *)
Lemma addTraceData_result ev edgeMode header :
  traceHeader ev = Some header ->
  returned (addTraceData time_Parse ev edgeMode) = true ->
  exists ev',
    addTraceData time_Parse ev edgeMode = Returned ev'
    /\ Timestamp ev' = Timestamp ev
    /\ Data ev' !! "trace_id" = None
    /\ Data ev' !! "request.headers.x-amzn-trace-id" = Some (VString header)
    /\ (headerKeepsRoot edgeMode header = true ->
        Data ev' !! "trace.span_id" = Data ev' !! "trace.trace_id")
    /\ (forall k,
          k ≠ "duration_ms" -> k ≠ "service_name" -> k ≠ "name" -> k ≠ "trace_id" ->
          k ≠ "request.headers.x-amzn-trace-id" ->
          k ≠ "trace.span_id" \/ headerKeepsRoot edgeMode header = false ->
          Data ev' !! k =
            match lastWrite k (headerWrites edgeMode header) with
            | Some v => Some (VString v)
            | None => Data ev !! k
            end).
Proof.
  intros Hh. rewrite (addTraceData_header _ _ _ _ Hh).
  set (d := applyWrites (headerWrites edgeMode header) (Data ev)).
  destruct (assignRootSpan (d, headerKeepsRoot edgeMode header)) as [d1 | d1 msg] eqn:Ha;
    [intros _ | discriminate].
  eexists. split; [reflexivity |]. cbn [Timestamp Data].
  split; [reflexivity |].
  split; [apply finishTrace_trace_id |].
  split; [apply finishTrace_header |].
  unfold assignRootSpan in Ha.
  destruct (headerKeepsRoot edgeMode header) eqn:Hroot.
  - destruct (d !! "trace.trace_id") as [[t | | |] |] eqn:Ht; try discriminate.
    injection Ha as <-. split.
    + intros _. rewrite !finishTrace_other by discriminate.
      rewrite lookup_insert_eq, lookup_insert_ne by discriminate.
      symmetry. assumption.
    + intros k H1 H2 H3 H4 H5 [H6 | H6]; [| discriminate].
      rewrite finishTrace_other by assumption.
      rewrite lookup_insert_ne by congruence.
      apply applyWrites_lookup.
  - injection Ha as <-. split; [discriminate |].
    intros k H1 H2 H3 H4 H5 _.
    rewrite finishTrace_other by assumption. apply applyWrites_lookup.
Qed.

Lemma header_Root_Self R S :
  occurs ";" R = false ->
  strings_Split ("Root=" ++ R ++ ";Self=" ++ S) ";"
  = ("Root=" ++ R) :: strings_Split ("Self=" ++ S) ";".
Proof.
  intros HR.
  replace ("Root=" ++ R ++ ";Self=" ++ S) with (("Root=" ++ R) ++ String ";" ("Self=" ++ S))
    by reflexivity.
  apply strings_Split_join. rewrite occurs_app, HR. reflexivity.
Qed.

(** X8. A header [Root=R;Self=S]: the function returns, with trace id
    [R] and span id [S], and the event is not a root span. *)
Lemma addTraceData_Root_Self ev edgeMode R S :
  occurs "=" R = false -> occurs ";" R = false ->
  occurs "=" S = false -> occurs ";" S = false ->
  traceHeader ev = Some ("Root=" ++ R ++ ";Self=" ++ S) ->
  exists ev',
    addTraceData time_Parse ev edgeMode = Returned ev'
    /\ Data ev' !! "trace.trace_id" = Some (VString R)
    /\ Data ev' !! "trace.span_id" = Some (VString S)
    /\ headerKeepsRoot edgeMode ("Root=" ++ R ++ ";Self=" ++ S) = false.
Proof.
  intros HR1 HR2 HS1 HS2 Hh.
  assert (Hfields : strings_Split ("Root=" ++ R ++ ";Self=" ++ S) ";"
                    = ["Root=" ++ R; "Self=" ++ S]).
  { rewrite header_Root_Self by assumption.
    rewrite strings_Split_no_sep by (rewrite occurs_app, HS2; reflexivity).
    reflexivity. }
  assert (Hloop : forall d, traceFields edgeMode d ("Root=" ++ R ++ ";Self=" ++ S)
                  = (<["trace.span_id" := VString S]> (<["trace.trace_id" := VString R]> d),
                     false)).
  { intros d. unfold traceFields. rewrite Hfields. cbn [foldl].
    rewrite traceField_Root, traceField_Self by assumption. reflexivity. }
  unfold addTraceData. revert Hh. unfold traceHeader.
  destruct (Data ev !! "trace_id") as [[h | | |] |]; try discriminate.
  intros [= ->]. rewrite Hloop. cbn [assignRootSpan].
  eexists. split; [reflexivity |]. cbn [Data].
  rewrite !finishTrace_other by discriminate.
  rewrite lookup_insert_ne by discriminate.
  rewrite !lookup_insert_eq.
  repeat split.
  pose proof (traceFields_writes edgeMode ∅ ("Root=" ++ R ++ ";Self=" ++ S)) as Hw.
  rewrite Hloop in Hw. injection Hw as _ <-. reflexivity.
Qed.

(** X9. A header that is only [Root=R]: the function returns, with trace
    id [R] and span id [R], without the field [trace_id] and with the
    header under its new name. *)
Lemma addTraceData_Root_only ev edgeMode R :
  occurs "=" R = false -> occurs ";" R = false ->
  traceHeader ev = Some ("Root=" ++ R) ->
  exists ev',
    addTraceData time_Parse ev edgeMode = Returned ev'
    /\ Data ev' !! "trace.trace_id" = Some (VString R)
    /\ Data ev' !! "trace.span_id" = Some (VString R)
    /\ Data ev' !! "trace_id" = None
    /\ Data ev' !! "request.headers.x-amzn-trace-id" = Some (VString ("Root=" ++ R)).
Proof.
  intros HR1 HR2 Hh.
  assert (Hloop : forall d, traceFields edgeMode d ("Root=" ++ R)
                  = (<["trace.trace_id" := VString R]> d, true)).
  { intros d. unfold traceFields.
    rewrite strings_Split_no_sep by (rewrite occurs_app, HR2; reflexivity).
    cbn [foldl]. apply traceField_Root. assumption. }
  unfold addTraceData. revert Hh. unfold traceHeader.
  destruct (Data ev !! "trace_id") as [[h | | |] |]; try discriminate.
  intros [= ->]. rewrite Hloop. unfold assignRootSpan. rewrite lookup_insert_eq.
  eexists. split; [reflexivity |]. cbn [Data].
  rewrite finishTrace_trace_id, finishTrace_header.
  rewrite !finishTrace_other by discriminate.
  rewrite lookup_insert_eq, lookup_insert_ne by discriminate.
  rewrite lookup_insert_eq. repeat split.
Qed.

End TraceResult.

(** ** The duration *)

Section DurationFacts.

Variable time_Parse : string -> string -> option Time.

Local Open Scope Z_scope.

Lemma quot_Millisecond_zero (duration : Duration) :
  0 < duration ->
  (Z.quot duration GoTime.Millisecond =? 0) = negb (GoTime.Millisecond <=? duration).
Proof.
  intros Hpos. unfold GoTime.Millisecond, GoTime.Microsecond, GoTime.Nanosecond.
  change (1000 * (1000 * 1)) with 1000000.
  rewrite Z.quot_div_nonneg by lia.
  destruct (Z.leb_spec 1000000 duration) as [Hle | Hlt]; simpl.
  - apply Z.eqb_neq.
    assert (0 < duration / 1000000) by (apply Z.div_str_pos; lia). lia.
  - apply Z.eqb_eq. apply Z.div_small. lia.
Qed.

Lemma quot_Millisecond_pos (duration : Duration) :
  GoTime.Millisecond <= duration -> 0 < Z.quot duration GoTime.Millisecond.
Proof.
  unfold GoTime.Millisecond, GoTime.Microsecond, GoTime.Nanosecond.
  change (1000 * (1000 * 1)) with 1000000. intros Hle.
  rewrite Z.quot_div_nonneg by lia. apply Z.div_str_pos. lia.
Qed.

(** The local [durationMs] at line 201: whole milliseconds when the
    response is at least a millisecond after the timestamp, the fallback
    field otherwise. *)
Lemma durationMs_cases (timestamp : Time) (data : gmap string Value) :
  durationMs time_Parse timestamp data =
    match responseTime time_Parse data with
    | Some tm =>
        if GoTime.Millisecond <=? GoTime.Sub tm timestamp
        then GoFloat.of_int64 (Z.quot (GoTime.Sub tm timestamp) GoTime.Millisecond)
        else requestProcessingTime data
    | None => requestProcessingTime data
    end.
Proof.
  unfold durationMs, responseDuration, responseTime.
  destruct (data !! "response_time") as [[endTime | | |] |]; try reflexivity.
  destruct (time_Parse GoTime.RFC3339Nano endTime) as [tm |]; [| reflexivity].
  cbv zeta.
  destruct (Z.ltb_spec 0 (GoTime.Sub tm timestamp)) as [Hpos | Hneg].
  - rewrite of_int64_eq_zero, quot_Millisecond_zero by assumption.
    destruct (GoTime.Millisecond <=? GoTime.Sub tm timestamp); reflexivity.
  - assert (Hlt : (GoTime.Millisecond <=? GoTime.Sub tm timestamp) = false).
    { apply Z.leb_gt. unfold GoTime.Millisecond, GoTime.Microsecond, GoTime.Nanosecond. lia. }
    rewrite Hlt. reflexivity.
Qed.

End DurationFacts.

(** C2, at the header [Sampled=1]: no pair names a trace id, the event is
    a root span, and the assignment of the span id panics. The field
    [trace_id] is still there, no span id and no renamed header have been
    written. *)
Theorem addTraceData_header_without_Root
    (time_Parse : string -> string -> option Time) (edgeMode : bool) :
  traceHeader Examples.albNoRoot = Some "Sampled=1"
  /\ headerKeepsRoot edgeMode "Sampled=1" = true
  /\ addTraceData time_Parse Examples.albNoRoot edgeMode
     = Panicked
         (mkEvent (Timestamp Examples.albNoRoot)
            (<["sampled" := VString "1"]> (Data Examples.albNoRoot)))
         "interface conversion: interface {} is nil, not string"
  /\ Data (stateOf (addTraceData time_Parse Examples.albNoRoot edgeMode)) !! "trace_id"
     = Some (VString "Sampled=1")
  /\ Data (stateOf (addTraceData time_Parse Examples.albNoRoot edgeMode)) !! "trace.span_id"
     = None
  /\ Data (stateOf (addTraceData time_Parse Examples.albNoRoot edgeMode))
       !! "request.headers.x-amzn-trace-id" = None.
Proof.
  assert (H : addTraceData time_Parse Examples.albNoRoot edgeMode
              = Panicked
                  (mkEvent (Timestamp Examples.albNoRoot)
                     (<["sampled" := VString "1"]> (Data Examples.albNoRoot)))
                  "interface conversion: interface {} is nil, not string")
    by (destruct edgeMode; vm_compute; reflexivity).
  rewrite H. destruct edgeMode; vm_compute; repeat split.
Qed.

(** C9. [addTraceData] is not total: on the header [Sampled=1], in an
    event without a trace id, it panics in the type assertion of the root
    span assignment. In general it returns exactly when there is no header,
    or the header has a [Self] pair, a [Parent] pair outside edge mode, a
    pair stored as the trace id, or the event already holds a string as
    its trace id. *)
Theorem addTraceData_not_total (time_Parse : string -> string -> option Time) :
  (exists ev,
      traceHeader ev = Some "Sampled=1"
      /\ Data ev !! "trace.trace_id" = None
      /\ addTraceData time_Parse ev false
         = Panicked (mkEvent (Timestamp ev) (<["sampled" := VString "1"]> (Data ev)))
             (conversionPanic None))
  /\ (forall ev edgeMode,
        returned (addTraceData time_Parse ev edgeMode) =
          match traceHeader ev with
          | None => true
          | Some header =>
              hasKey "Self" header
              || (negb edgeMode && hasKey "Parent" header)
              || hasKey "Root" header
              || hasKey "trace.trace_id" header
              || isString (Data ev !! "trace.trace_id")
          end).
Proof.
  split.
  - exists Examples.albNoRoot. vm_compute. repeat split.
  - intros ev edgeMode. apply addTraceData_returned.
Qed.

(** C6. Both parts of the enricher are idempotent. A second
    [dropNegativeTimes] changes nothing. A second [addTraceData] changes
    nothing either: when the first returns, the event it returns has no
    header left to read, and the second returns it as it is. *)
Theorem enricher_idempotent
    (time_Parse : string -> string -> option Time) (ev : Event) (edgeMode : bool) :
  dropNegativeTimes (dropNegativeTimes ev) = dropNegativeTimes ev
  /\ andThen (addTraceData time_Parse ev edgeMode)
       (fun ev' => addTraceData time_Parse ev' edgeMode)
     = addTraceData time_Parse ev edgeMode
  /\ addTraceData time_Parse (stateOf (addTraceData time_Parse ev edgeMode)) edgeMode
     = addTraceData time_Parse ev edgeMode
  /\ match addTraceData time_Parse ev edgeMode with
     | Returned ev' =>
         traceHeader ev' = None /\ addTraceData time_Parse ev' edgeMode = Returned ev'
     | Panicked _ _ => True
     end.
Proof.
  pose proof (addTraceData_again time_Parse ev edgeMode) as Hagain.
  split; [apply dropNegativeTimes_idempotent |].
  split; [| split; [exact Hagain |]].
  - destruct (addTraceData time_Parse ev edgeMode) as [ev' | ev' msg]; [exact Hagain | reflexivity].
  - destruct (addTraceData time_Parse ev edgeMode) as [ev' | ev' msg] eqn:Hfirst; [| exact I].
    split; [| exact Hagain].
    destruct (traceHeader ev) as [header |] eqn:Hh.
    + rewrite (addTraceData_header _ _ _ _ Hh) in Hfirst.
      destruct (assignRootSpan _) as [d | d msg]; [| discriminate].
      injection Hfirst as <-. unfold traceHeader. cbn [Data].
      rewrite finishTrace_trace_id. reflexivity.
    + rewrite (addTraceData_no_header _ _ _ Hh) in Hfirst. injection Hfirst as <-.
      assumption.
Qed.

Lemma assignRootSpan_lookup (d : gmap string Value) (r : bool) (k : string) :
  k ≠ "trace.span_id" -> stateOf (assignRootSpan (d, r)) !! k = d !! k.
Proof.
  intros Hk. unfold assignRootSpan. destruct r; [| reflexivity].
  destruct (d !! "trace.trace_id") as [[] |]; try reflexivity.
  simpl. apply lookup_insert_ne. congruence.
Qed.

(** The claim C3 as it is stated fails on a header that carries a pair
    whose key is the name of the parent id field itself: such a pair is an
    unrecognized key and is copied through in edge mode too. *)
Lemma addTraceData_edge_mode_parent_counterexample :
  traceHeader Examples.albCustomField
  = Some "Root=1-5a88eced-40876ce050d010360bfb23bd;trace.parent_id=53995c3f42cd8ad8"
  /\ Data Examples.albCustomField !! "trace.parent_id" = None
  /\ returned (addTraceData RFC3339.Parse Examples.albCustomField true) = true
  /\ Data (stateOf (addTraceData RFC3339.Parse Examples.albCustomField true))
       !! "trace.parent_id" = Some (VString "53995c3f42cd8ad8")
  /\ Data (stateOf (addTraceData RFC3339.Parse Examples.albCustomField true))
       !! "trace.parent_id" ≠ Data Examples.albCustomField !! "trace.parent_id".
Proof. vm_compute. repeat split. discriminate. Qed.

(** C3, amended. In edge mode a [Parent=P] pair writes nothing, and the
    field [trace.parent_id] is what it was before the call unless the
    header has a pair whose key is [trace.parent_id] itself. Outside edge
    mode a [Parent=P] pair sets [trace.parent_id] to [P] and makes the
    event a non-root span; with such a pair in the header the function
    returns and the field holds the value of a pair stored under it. *)
Theorem addTraceData_edge_mode_parent
    (time_Parse : string -> string -> option Time) (ev : Event) (header : string) :
  traceHeader ev = Some header ->
  hasKey "trace.parent_id" header = false ->
  Data (stateOf (addTraceData time_Parse ev true)) !! "trace.parent_id"
  = Data ev !! "trace.parent_id"
  /\ (forall (d : gmap string Value) (r : bool) (P : string),
        occurs "=" P = false -> traceField true (d, r) ("Parent=" ++ P) = (d, r))
  /\ (forall (d : gmap string Value) (r : bool) (P : string),
        occurs "=" P = false ->
        traceField false (d, r) ("Parent=" ++ P)
        = (<["trace.parent_id" := VString P]> d, false))
  /\ (hasKey "Parent" header = true ->
      headerKeepsRoot false header = false
      /\ exists ev' P,
          addTraceData time_Parse ev false = Returned ev'
          /\ Data ev' !! "trace.parent_id" = Some (VString P)
          /\ ("trace.parent_id", P) ∈ headerWrites false header).
Proof.
  intros Hh Hlit. split; [| split; [| split]].
  - rewrite (addTraceData_header _ _ _ _ Hh).
    pose proof (assignRootSpan_lookup (applyWrites (headerWrites true header) (Data ev))
                  (headerKeepsRoot true header) "trace.parent_id" ltac:(discriminate)) as Ha.
    destruct (assignRootSpan _) as [d1 | d1 msg]; simpl in Ha |- *.
    + rewrite finishTrace_other by discriminate.
      rewrite Ha, applyWrites_lookup.
      apply lastWrite_parent_id in Hlit. rewrite Hlit. reflexivity.
    + rewrite Ha, applyWrites_lookup.
      apply lastWrite_parent_id in Hlit. rewrite Hlit. reflexivity.
  - intros d r P HP. rewrite traceField_Parent by assumption. reflexivity.
  - intros d r P HP. rewrite traceField_Parent by assumption. reflexivity.
  - intros Hparent.
    assert (Hroot : headerKeepsRoot false header = false).
    { rewrite headerKeepsRoot_hasKey, Hparent. apply andb_false_r. }
    split; [exact Hroot |].
    assert (Hret : returned (addTraceData time_Parse ev false) = true).
    { rewrite addTraceData_returned, Hh, Hparent. simpl.
      rewrite orb_true_r. reflexivity. }
    destruct (addTraceData_result time_Parse ev false header Hh Hret)
      as (ev' & Heq & _ & _ & _ & _ & Hkeys).
    destruct (lastWrite "trace.parent_id" (headerWrites false header)) as [P |] eqn:Hl.
    + exists ev', P. split; [exact Heq |]. split.
      * rewrite Hkeys by (discriminate || (left; discriminate)). rewrite Hl. reflexivity.
      * apply lastWrite_elem_of. exact Hl.
    + exfalso.
      assert (Hn : hasKey "Parent" header = false).
      { apply (proj1 (lastWrite_headerWrites_None false header "trace.parent_id") Hl).
        reflexivity. }
      congruence.
Qed.

Lemma addTraceData_edge_mode_parent_witness :
  traceHeader Examples.albParent
  = Some "Root=1-5a88eced-40876ce050d010360bfb23bd;Parent=53995c3f42cd8ad8"
  /\ hasKey "trace.parent_id"
       "Root=1-5a88eced-40876ce050d010360bfb23bd;Parent=53995c3f42cd8ad8" = false
  /\ Data (stateOf (addTraceData RFC3339.Parse Examples.albParent true))
       !! "trace.parent_id" = Data Examples.albParent !! "trace.parent_id".
Proof.
  assert (H1 : traceHeader Examples.albParent
               = Some "Root=1-5a88eced-40876ce050d010360bfb23bd;Parent=53995c3f42cd8ad8")
    by reflexivity.
  assert (H2 : hasKey "trace.parent_id"
                 "Root=1-5a88eced-40876ce050d010360bfb23bd;Parent=53995c3f42cd8ad8" = false)
    by reflexivity.
  split; [exact H1 |]. split; [exact H2 |].
  exact (proj1 (addTraceData_edge_mode_parent RFC3339.Parse Examples.albParent _ H1 H2)).
Defined.

(** The claim C4 as it is stated fails when the response is less than a
    millisecond after the timestamp: the difference in whole milliseconds
    is zero, and the code falls back on [request_processing_time], here
    7.5, although [response_time] parses and is strictly later. *)
Lemma addTraceData_duration_counterexample :
  responseTime RFC3339.Parse (Data Examples.albSubMillisecond)
  = Some (Timestamp Examples.albSubMillisecond + 500000)%Z
  /\ (Timestamp Examples.albSubMillisecond
      <? Timestamp Examples.albSubMillisecond + 500000)%Z = true
  /\ spec_durationMs RFC3339.Parse (Timestamp Examples.albSubMillisecond)
       (Data Examples.albSubMillisecond) = GoFloat.of_int64 0
  /\ durationMs RFC3339.Parse (Timestamp Examples.albSubMillisecond)
       (Data Examples.albSubMillisecond) = Examples.sevenAndHalf
  /\ durationMs RFC3339.Parse (Timestamp Examples.albSubMillisecond)
       (Data Examples.albSubMillisecond)
     ≠ spec_durationMs RFC3339.Parse (Timestamp Examples.albSubMillisecond)
         (Data Examples.albSubMillisecond)
  /\ Data (stateOf (addTraceData RFC3339.Parse Examples.albSubMillisecond false))
       !! "duration_ms" = Some (VFloat64 Examples.sevenAndHalf).
Proof. vm_compute. repeat split. discriminate. Qed.

(** C4, amended. When [response_time] is a string that parses and the
    response is at least one millisecond after the timestamp of the event,
    the duration is the difference in whole milliseconds, and it is
    positive; in every other case it is the field
    [request_processing_time] if that is a float64, and zero if not. The
    field [duration_ms] is written, with that value, exactly when the value
    is strictly positive, no other key is touched, and the event
    [addTraceData] returns carries the field as written here. *)
Theorem addTraceData_duration
    (time_Parse : string -> string -> option Time)
    (timestamp : Time) (data : gmap string Value) :
  durationMs time_Parse timestamp data
  = match responseTime time_Parse data with
    | Some tm =>
        if (GoTime.Millisecond <=? GoTime.Sub tm timestamp)%Z
        then GoFloat.of_int64 (Z.quot (GoTime.Sub tm timestamp) GoTime.Millisecond)
        else requestProcessingTime data
    | None => requestProcessingTime data
    end
  /\ match responseTime time_Parse data with
     | Some tm =>
         if (GoTime.Millisecond <=? GoTime.Sub tm timestamp)%Z
         then GoFloat.gt (durationMs time_Parse timestamp data) GoFloat.zero = true
         else True
     | None => True
     end
  /\ (forall k : string,
        attachDuration time_Parse timestamp data !! k
        = if String.eqb k "duration_ms"
             && GoFloat.gt (durationMs time_Parse timestamp data) GoFloat.zero
          then Some (VFloat64 (durationMs time_Parse timestamp data))
          else data !! k)
  /\ (forall header : string,
        finishTrace time_Parse timestamp header data !! "duration_ms"
        = attachDuration time_Parse timestamp data !! "duration_ms").
Proof.
  split; [apply durationMs_cases |].
  split; [| split].
  - rewrite durationMs_cases.
    destruct (responseTime time_Parse data) as [tm |]; [| exact I].
    destruct (Z.leb_spec GoTime.Millisecond (GoTime.Sub tm timestamp)) as [Hle | Hlt];
      [| exact I].
    rewrite of_int64_gt_zero. apply Z.ltb_lt. apply quot_Millisecond_pos. assumption.
  - intros k. apply attachDuration_lookup.
  - intros header. apply finishTrace_duration.
Qed.

Lemma addTraceData_duration_witness :
  durationMs RFC3339.Parse (Timestamp Examples.albThreeMilliseconds)
    (Data Examples.albThreeMilliseconds) = GoFloat.of_int64 3.
Proof.
  rewrite (proj1 (addTraceData_duration RFC3339.Parse
                    (Timestamp Examples.albThreeMilliseconds)
                    (Data Examples.albThreeMilliseconds))).
  vm_compute. reflexivity.
Defined.

(** ** The envelope *)

Lemma Stream_json_labels (L environment ts data : string) :
  Stream_json
    (mkStream
       (<["aws_elb" := L]> (<["service" := "honeyaws"]> (<["environment" := environment]> ∅)))
       [[ts; data]])
  = JObject
      [ ("stream",
          JObject [ ("aws_elb", JString L);
                    ("environment", JString environment);
                    ("service", JString "honeyaws") ]);
        ("values", JArray [JArray [JString ts; JString data]]) ].
Proof. vm_compute. reflexivity. Qed.


(** ** The delivery loop *)

Section DeliveryFacts.

Variable Shape : string -> Event -> Event.
Variable json_Marshal_Data : gmap string Value -> result string.
Variable json_render : JSON -> string.
Variable FormatFloat : float64 -> string.
Variable url_Parse_error : string -> option string.
Variable client_Do : Request -> option string.

Variables (edgeMode : bool) (grafanaID grafanaEndpoint grafanaAPIKey environment : string).

Lemma deliver_unfold (log : list Effect) (ev : Event) :
  url_Parse_error grafanaEndpoint = None ->
  deliver Shape json_Marshal_Data json_render FormatFloat url_Parse_error client_Do
    edgeMode grafanaID grafanaEndpoint grafanaAPIKey environment log ev
  = Returned
      (log ++ encoderLog Shape json_Marshal_Data ev
         ++ [ClientDo (requestFor Shape json_Marshal_Data json_render FormatFloat
                         grafanaID grafanaEndpoint grafanaAPIKey environment ev)]
         ++ clientLog client_Do
              (requestFor Shape json_Marshal_Data json_render FormatFloat
                 grafanaID grafanaEndpoint grafanaAPIKey environment ev))%list.
Proof.
  intros Hurl. unfold deliver, http_NewRequest, requestFor, encoded, encoderLog, clientLog,
    prepared, Header_Set, Header_Add.
  rewrite Hurl. cbn [Method URL Header Body].
  rewrite lookup_insert_ne by discriminate. rewrite lookup_empty. cbn [default app].
  destruct (json_Marshal_Data _) as [data | err]; cbn [app];
    destruct (client_Do _) as [err' |]; rewrite <- ?app_assoc; cbn [app];
    rewrite ?app_nil_r; reflexivity.
Qed.

(** When the endpoint does not parse there is no request, and setting
    its header panics. *)
Lemma deliver_bad_endpoint (log : list Effect) (ev : Event) (err : string) :
  url_Parse_error grafanaEndpoint = Some err ->
  deliver Shape json_Marshal_Data json_render FormatFloat url_Parse_error client_Do
    edgeMode grafanaID grafanaEndpoint grafanaAPIKey environment log ev
  = Panicked (log ++ encoderLog Shape json_Marshal_Data ev ++ [LogError err])%list
      "runtime error: invalid memory address or nil pointer dereference".
Proof.
  intros Hurl. unfold deliver, http_NewRequest, encoderLog, prepared. rewrite Hurl.
  destruct (json_Marshal_Data _) as [data | err']; rewrite <- ?app_assoc; reflexivity.
Qed.

Lemma requestFor_body (ev : Event) :
  Body (requestFor Shape json_Marshal_Data json_render FormatFloat
          grafanaID grafanaEndpoint grafanaAPIKey environment ev)
  = json_render
      (JObject
         [ ("streams",
             JArray
               [ JObject
                   [ ("stream",
                       JObject
                         [ ("aws_elb",
                             JString (Sprintf_v FormatFloat (Data (prepared Shape ev) !! "elb")));
                           ("environment", JString environment);
                           ("service", JString "honeyaws") ]);
                     ("values",
                       JArray
                         [ JArray
                             [ JString
                                 (FormatInt (GoTime.UnixNano (Timestamp (prepared Shape ev))));
                               JString (encoded Shape json_Marshal_Data ev) ] ]) ] ]) ]).
Proof.
  unfold requestFor, jsonPayload, Streams_json. cbn [Body Streams_Streams map].
  rewrite Stream_json_labels. reflexivity.
Qed.

(** With an endpoint that parses, the loop never panics, and does for
    each event received, in order, what [effectsFor] says. *)
Lemma sendEventsToHoneycomb_effects (events : list Event) :
  url_Parse_error grafanaEndpoint = None ->
  sendEventsToHoneycomb Shape json_Marshal_Data json_render FormatFloat url_Parse_error
    client_Do events edgeMode grafanaID grafanaEndpoint grafanaAPIKey environment
  = Returned
      (concat
         (map (effectsFor Shape json_Marshal_Data json_render FormatFloat client_Do
                 grafanaID grafanaEndpoint grafanaAPIKey environment) events)).
Proof.
  intros Hurl. unfold sendEventsToHoneycomb.
  enough (Hgen : forall log : list Effect,
             foldl (fun o ev =>
                      andThen o (fun log' =>
                        deliver Shape json_Marshal_Data json_render FormatFloat url_Parse_error
                          client_Do edgeMode grafanaID grafanaEndpoint grafanaAPIKey environment
                          log' ev))
                   (Returned log) events
             = Returned
                 (log ++ concat
                    (map (effectsFor Shape json_Marshal_Data json_render FormatFloat client_Do
                            grafanaID grafanaEndpoint grafanaAPIKey environment) events))%list)
    by apply (Hgen []).
  induction events as [| ev events IH]; intros log; cbn [foldl map concat].
  - rewrite app_nil_r. reflexivity.
  - cbn [andThen]. rewrite (deliver_unfold _ _ Hurl).
    rewrite IH. unfold effectsFor at 2. rewrite <- !app_assoc. reflexivity.
Qed.

End DeliveryFacts.

(** C8. When the endpoint is a URL that parses, the loop issues for each
    event exactly one request: a POST to the endpoint, with the header
    [Content-Type: application/json], the header [Authorization] holding
    [Basic] and the base64 encoding of [id:key], and as its body the
    document with one stream, labelled with the environment, the service
    [honeyaws] and the load balancer, and one value pair of the timestamp
    in nanoseconds, in decimal, and the encoded data. The members of the
    stream object are listed in the order the encoder writes them. *)
Theorem deliver_request
    (Shape : string -> Event -> Event)
    (json_Marshal_Data : gmap string Value -> result string)
    (json_render : JSON -> string)
    (FormatFloat : float64 -> string)
    (url_Parse_error : string -> option string)
    (client_Do : Request -> option string)
    (edgeMode : bool) (grafanaID grafanaEndpoint grafanaAPIKey environment : string)
    (log : list Effect) (ev : Event) :
  url_Parse_error grafanaEndpoint = None ->
  (forall events : list Event,
      sendEventsToHoneycomb Shape json_Marshal_Data json_render FormatFloat url_Parse_error
        client_Do events edgeMode grafanaID grafanaEndpoint grafanaAPIKey environment
      = Returned
          (concat
             (map (effectsFor Shape json_Marshal_Data json_render FormatFloat client_Do
                     grafanaID grafanaEndpoint grafanaAPIKey environment) events)))
  /\ effectsFor Shape json_Marshal_Data json_render FormatFloat client_Do
       grafanaID grafanaEndpoint grafanaAPIKey environment ev
     = (encoderLog Shape json_Marshal_Data ev
          ++ [ClientDo (requestFor Shape json_Marshal_Data json_render FormatFloat
                          grafanaID grafanaEndpoint grafanaAPIKey environment ev)]
          ++ clientLog client_Do
               (requestFor Shape json_Marshal_Data json_render FormatFloat
                  grafanaID grafanaEndpoint grafanaAPIKey environment ev))%list
  /\ exists req,
    req = requestFor Shape json_Marshal_Data json_render FormatFloat
            grafanaID grafanaEndpoint grafanaAPIKey environment ev
    /\
    deliver Shape json_Marshal_Data json_render FormatFloat url_Parse_error client_Do
      edgeMode grafanaID grafanaEndpoint grafanaAPIKey environment log ev
    = Returned (log ++ encoderLog Shape json_Marshal_Data ev ++ [ClientDo req]
                  ++ clientLog client_Do req)%list
    /\ Method req = "POST"
    /\ URL req = grafanaEndpoint
    /\ Header req !! "Content-Type" = Some ["application/json"]
    /\ Header req !! "Authorization"
       = Some ["Basic " ++ base64.EncodeToString (grafanaID ++ ":" ++ grafanaAPIKey)]
    /\ Body req
       = json_render
           (JObject
              [ ("streams",
                  JArray
                    [ JObject
                        [ ("stream",
                            JObject
                              [ ("aws_elb",
                                  JString
                                    (Sprintf_v FormatFloat
                                       (Data (dropNegativeTimes (Shape "request" ev)) !! "elb")));
                                ("environment", JString environment);
                                ("service", JString "honeyaws") ]);
                          ("values",
                            JArray
                              [ JArray
                                  [ JString
                                      (FormatInt
                                         (GoTime.UnixNano
                                            (Timestamp (dropNegativeTimes (Shape "request" ev)))));
                                    JString
                                      match json_Marshal_Data
                                              (Data (dropNegativeTimes (Shape "request" ev))) with
                                      | Ok data => data
                                      | Err _ => EmptyString
                                      end ] ]) ] ]) ]).
Proof.
  intros Hurl.
  split; [intros events; apply sendEventsToHoneycomb_effects; assumption |].
  split; [reflexivity |].
  exists (requestFor Shape json_Marshal_Data json_render FormatFloat
            grafanaID grafanaEndpoint grafanaAPIKey environment ev).
  split; [reflexivity |].
  split; [apply deliver_unfold; assumption |].
  split; [reflexivity |]. split; [reflexivity |].
  split; [unfold requestFor; cbn [Header];
          rewrite lookup_insert_ne by discriminate; apply lookup_insert_eq |].
  split; [unfold requestFor; cbn [Header]; apply lookup_insert_eq |].
  apply requestFor_body.
Qed.

Lemma deliver_request_witness :
  Doubles.url_Parse_error "https://logs.example.net/loki/api/v1/push" = None
  /\ exists req,
      deliver Doubles.Shape Doubles.json_Marshal_Data Doubles.json_render Doubles.FormatFloat
        Doubles.url_Parse_error Doubles.client_Do false
        "12345" "https://logs.example.net/loki/api/v1/push" "secret-key" "dev"
        [] Examples.elbTimeout
      = Returned [ClientDo req]
      /\ Method req = "POST"
      /\ Header req !! "Authorization" = Some ["Basic MTIzNDU6c2VjcmV0LWtleQ=="].
Proof.
  assert (H : Doubles.url_Parse_error "https://logs.example.net/loki/api/v1/push" = None)
    by reflexivity.
  split; [exact H |].
  destruct (deliver_request Doubles.Shape Doubles.json_Marshal_Data Doubles.json_render
              Doubles.FormatFloat Doubles.url_Parse_error Doubles.client_Do false
              "12345" "https://logs.example.net/loki/api/v1/push" "secret-key" "dev"
              [] Examples.elbTimeout H)
    as (_ & _ & req & _ & Hdeliver & Hmethod & _ & _ & Hauth & _).
  exists req. split; [exact Hdeliver |]. split; [exact Hmethod | exact Hauth].
Defined.

(** C10. When the encoder fails on the data of an event, the error is
    logged and the request is issued all the same, and the second element
    of its value pair is the empty string. *)
Theorem deliver_marshal_failure
    (Shape : string -> Event -> Event)
    (json_Marshal_Data : gmap string Value -> result string)
    (json_render : JSON -> string)
    (FormatFloat : float64 -> string)
    (url_Parse_error : string -> option string)
    (client_Do : Request -> option string)
    (edgeMode : bool) (grafanaID grafanaEndpoint grafanaAPIKey environment : string)
    (log : list Effect) (ev : Event) (err : string) :
  json_Marshal_Data (Data (dropNegativeTimes (Shape "request" ev))) = Err err ->
  url_Parse_error grafanaEndpoint = None ->
  exists req,
    deliver Shape json_Marshal_Data json_render FormatFloat url_Parse_error client_Do
      edgeMode grafanaID grafanaEndpoint grafanaAPIKey environment log ev
    = Returned (log ++ [LogError err; ClientDo req] ++ clientLog client_Do req)%list
    /\ Method req = "POST"
    /\ Body req
       = json_render
           (JObject
              [ ("streams",
                  JArray
                    [ JObject
                        [ ("stream",
                            JObject
                              [ ("aws_elb",
                                  JString
                                    (Sprintf_v FormatFloat
                                       (Data (dropNegativeTimes (Shape "request" ev)) !! "elb")));
                                ("environment", JString environment);
                                ("service", JString "honeyaws") ]);
                          ("values",
                            JArray
                              [ JArray
                                  [ JString
                                      (FormatInt
                                         (GoTime.UnixNano
                                            (Timestamp (dropNegativeTimes (Shape "request" ev)))));
                                    JString EmptyString ] ]) ] ]) ]).
Proof.
  intros Herr Hurl.
  exists (requestFor Shape json_Marshal_Data json_render FormatFloat
            grafanaID grafanaEndpoint grafanaAPIKey environment ev).
  split; [| split; [reflexivity |]].
  - rewrite (deliver_unfold _ _ _ _ _ _ _ _ _ _ _ _ _ Hurl).
    unfold encoderLog, prepared. rewrite Herr. reflexivity.
  - rewrite requestFor_body. unfold encoded, prepared. rewrite Herr. reflexivity.
Qed.

Lemma deliver_marshal_failure_witness :
  Doubles.json_Marshal_Data (Data (dropNegativeTimes (Doubles.Shape "request" Doubles.notANumber)))
  = Err "json: unsupported value: NaN"
  /\ Doubles.url_Parse_error "https://logs.example.net/loki/api/v1/push" = None
  /\ exists req,
      deliver Doubles.Shape Doubles.json_Marshal_Data Doubles.json_render Doubles.FormatFloat
        Doubles.url_Parse_error Doubles.client_Do false
        "12345" "https://logs.example.net/loki/api/v1/push" "secret-key" "dev"
        [] Doubles.notANumber
      = Returned [LogError "json: unsupported value: NaN"; ClientDo req]
      /\ Method req = "POST".
Proof.
  assert (H1 : Doubles.json_Marshal_Data
                 (Data (dropNegativeTimes (Doubles.Shape "request" Doubles.notANumber)))
               = Err "json: unsupported value: NaN") by (vm_compute; reflexivity).
  assert (H2 : Doubles.url_Parse_error "https://logs.example.net/loki/api/v1/push" = None)
    by reflexivity.
  split; [exact H1 |]. split; [exact H2 |].
  destruct (deliver_marshal_failure Doubles.Shape Doubles.json_Marshal_Data Doubles.json_render
              Doubles.FormatFloat Doubles.url_Parse_error Doubles.client_Do false
              "12345" "https://logs.example.net/loki/api/v1/push" "secret-key" "dev"
              [] Doubles.notANumber _ H1 H2)
    as (req & Hdeliver & Hmethod & _).
  exists req. split; [exact Hdeliver | exact Hmethod].
Defined.

(** ** Publish *)

(** C7. [Publish] returns the error of the parser, without a call of
    [os.Remove], when the parser fails. When the parser succeeds it calls
    [os.Remove] on the file of the object once, and returns nil when that
    succeeds and an error that names the file when it fails. In every case
    the events the parser sent stay sent. *)
Theorem Publish_errors {FS : Type}
    (ParseEvents : DownloadedObject -> FS -> list Event * option string)
    (os_Remove : string -> FS -> FS * option string)
    (downloadedObj : DownloadedObject) (w : World FS) :
  match ParseEvents downloadedObj (fs w) with
  | (events, Some err) =>
      Publish ParseEvents os_Remove downloadedObj w
      = (mkWorld (fs w) (parsedCh w ++ events)%list (removeCalls w), Some err)
  | (events, None) =>
      match os_Remove (Filename downloadedObj) (fs w) with
      | (fs', None) =>
          Publish ParseEvents os_Remove downloadedObj w
          = (mkWorld fs' (parsedCh w ++ events)%list
               (removeCalls w ++ [Filename downloadedObj])%list,
             None)
      | (fs', Some err) =>
          Publish ParseEvents os_Remove downloadedObj w
          = (mkWorld fs' (parsedCh w ++ events)%list
               (removeCalls w ++ [Filename downloadedObj])%list,
             Some ("Error cleaning up downloaded object " ++ Filename downloadedObj
                     ++ ": " ++ err))
      end
  end.
Proof.
  unfold Publish.
  destruct (ParseEvents downloadedObj (fs w)) as [events [err |]]; [reflexivity |].
  cbn [fs parsedCh removeCalls].
  destruct (os_Remove (Filename downloadedObj) (fs w)) as [fs' [err |]]; reflexivity.
Qed.

Lemma Publish_errors_witness :
  Publish Doubles.ParseEvents Doubles.os_Remove
    (mkDownloadedObject "AWSLogs/elb/2017/07/31/lb.log" "/tmp/lb.log")
    (mkWorld ∅ [] [])
  = (mkWorld ∅ [mkEvent 0%Z ∅] ["/tmp/lb.log"],
     Some "Error cleaning up downloaded object /tmp/lb.log: remove /tmp/lb.log: no such file or directory").
Proof.
  exact (Publish_errors Doubles.ParseEvents Doubles.os_Remove
           (mkDownloadedObject "AWSLogs/elb/2017/07/31/lb.log" "/tmp/lb.log")
           (mkWorld ∅ [] [])).
Defined.

(** * The rest of the code *)

(** ** dropNegativeTimes: what it leaves alone *)

(** X1. The cleanup keeps the timestamp, and the value of every key other
    than the four latency fields and [error]. *)
Theorem dropNegativeTimes_frame (ev : Event) (k : string) :
  k ∉ timeFields -> k ≠ "error" ->
  Timestamp (dropNegativeTimes ev) = Timestamp ev
  /\ Data (dropNegativeTimes ev) !! k = Data ev !! k.
Proof.
  intros Hk He. split; [reflexivity |].
  apply dropNegativeTimes_other; assumption.
Qed.

Lemma dropNegativeTimes_frame_witness :
  ("elb" ∉ timeFields) /\ ("elb" ≠ "error")
  /\ Data (dropNegativeTimes Examples.elbTimeout) !! "elb"
     = Some (VString "spline_reticulation_lb").
Proof.
  assert (H1 : "elb" ∉ timeFields) by (apply (bool_decide_unpack _); vm_compute; exact I).
  assert (H2 : "elb" ≠ "error") by discriminate.
  split; [exact H1 |]. split; [exact H2 |].
  exact (proj2 (dropNegativeTimes_frame Examples.elbTimeout "elb" H1 H2)).
Defined.

Lemma negativeFields_nil (data : gmap string Value) :
  negativeFields data = [] <-> forall f, f ∈ timeFields -> negativeTime (data !! f) = false.
Proof.
  unfold negativeFields. split.
  - intros Hnil f Hf. apply not_true_is_false. intros Hneg.
    assert (Hin : f ∈ filter (fun f => negativeTime (data !! f) = true) timeFields)
      by (apply list_elem_of_filter; split; assumption).
    rewrite Hnil in Hin. inversion Hin.
  - intros Hclean.
    destruct (filter (fun f => negativeTime (data !! f) = true) timeFields) as [| g l] eqn:Hfl;
      [reflexivity |].
    assert (Hin : g ∈ filter (fun f => negativeTime (data !! f) = true) timeFields)
      by (rewrite Hfl; left).
    apply list_elem_of_filter in Hin as [Hneg Hg].
    rewrite (Hclean g Hg) in Hneg. discriminate.
Qed.

(** X2. The cleanup returns the event as it is exactly when none of the
    four latency fields holds a negative number. *)
Theorem dropNegativeTimes_noop_iff (ev : Event) :
  dropNegativeTimes ev = ev <-> negativeFields (Data ev) = [].
Proof.
  split.
  - intros Heq. apply negativeFields_nil. intros f Hf.
    apply not_true_is_false. intros Hneg.
    pose proof (dropNegativeTimes_lookup ev f Hf) as Hl.
    rewrite Heq, Hneg in Hl.
    destruct (Data ev !! f); [discriminate Hl | discriminate Hneg].
  - intros Hnil. unfold dropNegativeTimes.
    rewrite foldl_dropField_clean by (apply negativeFields_nil; assumption).
    destruct ev; reflexivity.
Qed.

(** X3. An [error] field that the event already carries is kept when no
    latency field is negative, and is replaced by the message of the last
    negative field otherwise. *)
Theorem dropNegativeTimes_error_overwrite (ev : Event) :
  Data (dropNegativeTimes ev) !! "error"
  = match last (negativeFields (Data ev)) with
    | Some g => Some (VString (errorMessage g))
    | None => Data ev !! "error"
    end.
Proof. apply dropNegativeTimes_error. Qed.

Lemma negativeFields_elem_of (data : gmap string Value) (k : string) :
  k ∈ negativeFields data <-> k ∈ timeFields /\ negativeTime (data !! k) = true.
Proof. unfold negativeFields. rewrite list_elem_of_filter. tauto. Qed.

(** X4. The keys of the cleaned event are the keys of the event without
    the negative latency fields, and with [error] when there was one. *)
Theorem dropNegativeTimes_dom (ev : Event) :
  dom (Data (dropNegativeTimes ev))
  = (dom (Data ev) ∖ list_to_set (negativeFields (Data ev)))
      ∪ (if negativeFields (Data ev) is [] then ∅ else {["error"]}).
Proof.
  apply set_eq. intros k.
  rewrite elem_of_union, elem_of_difference, !elem_of_dom, elem_of_list_to_set,
    negativeFields_elem_of.
  destruct (decide (k = "error")) as [-> | Hke].
  - rewrite dropNegativeTimes_error.
    destruct (negativeFields (Data ev)) as [| g l] eqn:Hn.
    + simpl. split.
      * intros Hs. left. split; [assumption |]. intros [He _].
        exact (timeFields_no_error He).
      * intros [[Hs _] | Hin]; [assumption | inversion Hin].
    + assert (Hlast : is_Some (last (g :: l))) by (apply last_is_Some; discriminate).
      destruct Hlast as [g' ->]. split; [intros _ | intros _; eauto].
      right. apply elem_of_singleton. reflexivity.
  - destruct (decide (k ∈ timeFields)) as [Hk | Hk].
    + rewrite dropNegativeTimes_lookup by assumption.
      destruct (negativeTime (Data ev !! k)) eqn:Hneg.
      * split; [intros [x Hx]; discriminate |].
        intros [[_ Hnot] | Hin]; [exfalso; apply Hnot; split; [assumption | reflexivity] |].
        destruct (negativeFields (Data ev)); [inversion Hin |].
        apply elem_of_singleton in Hin. contradiction.
      * split; [intros Hs; left; split; [assumption | intros [_ H]; discriminate] |].
        intros [[Hs _] | Hin]; [assumption |].
        destruct (negativeFields (Data ev)); [inversion Hin |].
        apply elem_of_singleton in Hin. contradiction.
    + rewrite dropNegativeTimes_other by assumption.
      split; [intros Hs; left; split; [assumption | intros [H _]; contradiction] |].
      intros [[Hs _] | Hin]; [assumption |].
      destruct (negativeFields (Data ev)); [inversion Hin |].
      apply elem_of_singleton in Hin. contradiction.
Qed.

(** X5. What the cleanup does with a latency field depends on the dynamic
    type: an int64 goes when it is below zero, whatever its size; a float64
    goes when it is a negative number or minus infinity, and stays when it
    is a NaN or a zero of either sign; a string or a boolean stays. *)
Theorem dropNegativeTimes_by_type (ev : Event) (f : string) :
  f ∈ timeFields ->
  Data (dropNegativeTimes ev) !! f
  = match Data ev !! f with
    | Some (VInt64 n) => if (n <? 0)%Z then None else Some (VInt64 n)
    | Some (VFloat64 (S754_finite true m e)) => None
    | Some (VFloat64 (S754_infinity true)) => None
    | o => o
    end.
Proof.
  intros Hf. rewrite dropNegativeTimes_lookup by assumption.
  destruct (Data ev !! f) as [[s | n | x | b] |]; try reflexivity.
  destruct x as [[] | [] | | [] m e]; reflexivity.
Qed.

Lemma dropNegativeTimes_by_type_witness :
  "time_taken" ∈ timeFields
  /\ Data (dropNegativeTimes Examples.cloudFrontTimeout) !! "time_taken" = None.
Proof.
  assert (H : "time_taken" ∈ timeFields) by (unfold timeFields; do 3 right; left).
  split; [exact H |].
  exact (dropNegativeTimes_by_type Examples.cloudFrontTimeout "time_taken" H).
Defined.

(** ** addTraceData: headers of every shape *)

Section HeaderShapes.

Implicit Types (s p r field header k key K V R : string) (c sep : ascii)
  (edgeMode : bool).

Lemma strings_Split_length s c : length (strings_Split s c) = S (countOf c s).
Proof.
  induction s as [| a s IH]; [reflexivity |]. simpl.
  destruct (Ascii.eqb a c); simpl; [rewrite IH; reflexivity |].
  destruct (strings_Split s c) as [| w ws]; [discriminate IH | exact IH].
Qed.

Lemma strings_Split_app p sep r :
  strings_Split (p ++ String sep r) sep = (strings_Split p sep ++ strings_Split r sep)%list.
Proof.
  induction p as [| a p IH]; simpl.
  - rewrite Ascii.eqb_refl. reflexivity.
  - rewrite IH. destruct (Ascii.eqb a sep); [reflexivity |].
    pose proof (strings_Split_nonempty p sep) as Hne.
    destruct (strings_Split p sep) as [| w ws]; [contradiction | reflexivity].
Qed.

Lemma countOf_occurs s c : occurs c s = false <-> countOf c s = 0.
Proof.
  induction s as [| a s IH]; simpl; [tauto |].
  destruct (Ascii.eqb a c); simpl; [split; discriminate | exact IH].
Qed.

Lemma headerWrites_app edgeMode p r :
  headerWrites edgeMode (p ++ String ";" r)
  = (headerWrites edgeMode p ++ headerWrites edgeMode r)%list.
Proof. unfold headerWrites. rewrite strings_Split_app. apply omap_app. Qed.

Lemma hasKey_app key p r :
  hasKey key (p ++ String ";" r) = hasKey key p || hasKey key r.
Proof. unfold hasKey. rewrite strings_Split_app. apply existsb_app. Qed.

Lemma headerKeepsRoot_app edgeMode p r :
  headerKeepsRoot edgeMode (p ++ String ";" r)
  = headerKeepsRoot edgeMode p && headerKeepsRoot edgeMode r.
Proof. unfold headerKeepsRoot. rewrite strings_Split_app. apply forallb_app. Qed.

Lemma headerWrites_pair edgeMode K V :
  occurs "=" K = false -> occurs ";" K = false ->
  occurs "=" V = false -> occurs ";" V = false ->
  headerWrites edgeMode (K ++ String "=" V)
  = match target edgeMode K with
    | Some k => [(k, V)]
    | None => []
    end.
Proof.
  intros HK1 HK2 HV1 HV2. unfold headerWrites.
  rewrite strings_Split_no_sep
    by (rewrite occurs_app; simpl; rewrite HK2, HV2; reflexivity).
  cbn [omap list_omap]. unfold fieldWrite.
  rewrite strings_Split_pair by assumption.
  destruct (target edgeMode K); reflexivity.
Qed.

Lemma lastWrite_app k ws ws' :
  lastWrite k (ws ++ ws')
  = match lastWrite k ws' with
    | Some v => Some v
    | None => lastWrite k ws
    end.
Proof.
  induction ws as [| [k0 v0] ws IH]; simpl.
  - destruct (lastWrite k ws'); reflexivity.
  - rewrite IH. destruct (lastWrite k ws'); reflexivity.
Qed.

(** A key of the map that no recognized key of the header is stored
    under is assigned only by a pair with that very key. *)
Lemma target_plain edgeMode key k :
  k ≠ "trace.trace_id" -> k ≠ "trace.span_id" -> k ≠ "trace.parent_id" -> k ≠ "sampled" ->
  target edgeMode key = Some k -> key = k.
Proof.
  intros H1 H2 H3 H4. unfold target.
  destruct (String.eqb key "Root"); [congruence |].
  destruct (String.eqb key "Self"); [congruence |].
  destruct (String.eqb key "Parent"); [destruct (negb edgeMode); congruence |].
  destruct (String.eqb key "Sampled"); congruence.
Qed.

Lemma lastWrite_plain_None edgeMode header k :
  k ≠ "trace.trace_id" -> k ≠ "trace.span_id" -> k ≠ "trace.parent_id" -> k ≠ "sampled" ->
  hasKey k header = false ->
  lastWrite k (headerWrites edgeMode header) = None.
Proof.
  intros H1 H2 H3 H4 Hk. apply lastWrite_headerWrites_None.
  intros key Ht. apply target_plain in Ht; try assumption. subst key. assumption.
Qed.

Lemma fieldWrite_no_Parent field :
  fieldHasKey "Parent" field = false -> fieldWrite true field = fieldWrite false field.
Proof.
  unfold fieldHasKey, fieldWrite, target.
  destruct (strings_Split field "=") as [| k [| v [| x l]]]; try reflexivity.
  intros ->. reflexivity.
Qed.

Lemma headerWrites_no_Parent header :
  hasKey "Parent" header = false -> headerWrites true header = headerWrites false header.
Proof.
  unfold hasKey, headerWrites.
  induction (strings_Split header ";") as [| field fields IH]; [reflexivity |].
  cbn [existsb omap list_omap]. intros H. apply orb_false_iff in H as [Hf Hfs].
  rewrite (fieldWrite_no_Parent _ Hf), (IH Hfs). reflexivity.
Qed.

End HeaderShapes.

(** ** addTraceData: the event it returns, key by key *)

Section TraceExtras.

Variable time_Parse : string -> string -> option Time.

Implicit Types (d : gmap string Value) (k header K V R : string) (ev : Event)
  (edgeMode : bool) (timestamp : Time).

Lemma finishTrace_service_name timestamp header d :
  finishTrace time_Parse timestamp header d !! "service_name"
  = match d !! "elb" with
    | Some (VString elb) => Some (VString elb)
    | _ => d !! "service_name"
    end.
Proof.
  unfold finishTrace, renameHeader.
  rewrite lookup_insert_ne by discriminate.
  rewrite lookup_delete_ne by discriminate.
  rewrite attachName_other by discriminate.
  unfold attachServiceName.
  rewrite (attachDuration_lookup _ _ _ "elb"). cbn [String.eqb Ascii.eqb Bool.eqb andb].
  destruct (d !! "elb") as [[elb | | |] |];
    rewrite ?lookup_insert_eq, ?attachDuration_lookup; reflexivity.
Qed.

Lemma finishTrace_name timestamp header d :
  finishTrace time_Parse timestamp header d !! "name"
  = match d !! "request_path" with
    | Some (VString requestPath) => Some (VString requestPath)
    | _ => d !! "name"
    end.
Proof.
  unfold finishTrace, renameHeader.
  rewrite lookup_insert_ne by discriminate.
  rewrite lookup_delete_ne by discriminate.
  unfold attachName.
  rewrite (attachServiceName_other _ "request_path") by discriminate.
  rewrite (attachDuration_lookup _ _ _ "request_path").
  cbn [String.eqb Ascii.eqb Bool.eqb andb].
  destruct (d !! "request_path") as [[requestPath | | |] |];
    rewrite ?lookup_insert_eq, ?attachServiceName_other, ?attachDuration_lookup
      by discriminate; reflexivity.
Qed.

(** The map the last part of the function starts from, when the function
    returns. *)
Lemma addTraceData_returns ev edgeMode header :
  traceHeader ev = Some header ->
  returned (addTraceData time_Parse ev edgeMode) = true ->
  exists d1,
    addTraceData time_Parse ev edgeMode
    = Returned (mkEvent (Timestamp ev) (finishTrace time_Parse (Timestamp ev) header d1))
    /\ forall k, k ≠ "trace.span_id" ->
         d1 !! k = match lastWrite k (headerWrites edgeMode header) with
                   | Some v => Some (VString v)
                   | None => Data ev !! k
                   end.
Proof.
  intros Hh. rewrite (addTraceData_header _ _ _ _ Hh).
  set (d := applyWrites (headerWrites edgeMode header) (Data ev)).
  pose proof (assignRootSpan_lookup d (headerKeepsRoot edgeMode header)) as Hl.
  destruct (assignRootSpan (d, headerKeepsRoot edgeMode header)) as [d1 | d1 msg];
    [intros _ | discriminate].
  exists d1. split; [reflexivity |].
  intros k Hk. simpl in Hl. rewrite (Hl k Hk). apply applyWrites_lookup.
Qed.

Lemma returns_with_Root ev edgeMode header :
  traceHeader ev = Some header -> hasKey "Root" header = true ->
  returned (addTraceData time_Parse ev edgeMode) = true.
Proof.
  intros Hh Hroot. rewrite addTraceData_returned, Hh, Hroot.
  rewrite orb_true_r. reflexivity.
Qed.

(** X6. [addTraceData] returns the event as it is exactly when the event
    has no string under [trace_id]: with a header it either panics or
    returns an event without that field. *)
Theorem addTraceData_unchanged_iff ev edgeMode :
  addTraceData time_Parse ev edgeMode = Returned ev <-> traceHeader ev = None.
Proof.
  split; [| apply addTraceData_no_header].
  destruct (traceHeader ev) as [header |] eqn:Hh; [| reflexivity].
  rewrite (addTraceData_header _ _ _ _ Hh).
  destruct (assignRootSpan _) as [d1 | d1 msg]; [| discriminate].
  intros [= Heq]. exfalso.
  assert (Hnone : Data ev !! "trace_id" = None).
  { rewrite <- Heq at 1. cbn [Data]. apply finishTrace_trace_id. }
  unfold traceHeader in Hh. rewrite Hnone in Hh. discriminate.
Qed.

(** X7. On a header with a [Root] pair the function returns. The event it
    returns has the timestamp of the event, no field [trace_id], the
    header under its new name, and a string as trace id; when the header
    has no [Self] pair and, outside edge mode, no [Parent] pair, the span
    id is the trace id. *)
Theorem addTraceData_with_Root ev edgeMode header :
  traceHeader ev = Some header ->
  hasKey "Root" header = true ->
  exists ev' traceID,
    addTraceData time_Parse ev edgeMode = Returned ev'
    /\ Timestamp ev' = Timestamp ev
    /\ Data ev' !! "trace_id" = None
    /\ Data ev' !! "request.headers.x-amzn-trace-id" = Some (VString header)
    /\ Data ev' !! "trace.trace_id" = Some (VString traceID)
    /\ (hasKey "Self" header = false ->
        edgeMode = true \/ hasKey "Parent" header = false ->
        Data ev' !! "trace.span_id" = Some (VString traceID)).
Proof.
  intros Hh Hroot.
  pose proof (returns_with_Root _ edgeMode _ Hh Hroot) as Hret.
  destruct (addTraceData_result time_Parse ev edgeMode header Hh Hret)
    as (ev' & Heq & Hts & Hid & Hhdr & Hspan & Hkeys).
  assert (Htid : exists traceID, Data ev' !! "trace.trace_id" = Some (VString traceID)).
  { rewrite Hkeys by (discriminate || (left; discriminate)).
    destruct (lastWrite "trace.trace_id" (headerWrites edgeMode header)) as [v |] eqn:Hl;
      [eauto |].
    apply lastWrite_trace_id in Hl as [Hl _]. congruence. }
  destruct Htid as [traceID Htid].
  exists ev', traceID. repeat (split; [assumption |]).
  intros Hself Hparent. rewrite Hspan; [assumption |].
  rewrite headerKeepsRoot_hasKey, Hself.
  destruct Hparent as [-> | ->]; [reflexivity | apply orb_true_r].
Qed.

End TraceExtras.

Lemma addTraceData_with_Root_witness :
  traceHeader Examples.albParent
  = Some "Root=1-5a88eced-40876ce050d010360bfb23bd;Parent=53995c3f42cd8ad8"
  /\ hasKey "Root" "Root=1-5a88eced-40876ce050d010360bfb23bd;Parent=53995c3f42cd8ad8" = true
  /\ exists ev' traceID,
      addTraceData RFC3339.Parse Examples.albParent true = Returned ev'
      /\ Data ev' !! "trace.trace_id" = Some (VString traceID).
Proof.
  assert (H1 : traceHeader Examples.albParent
               = Some "Root=1-5a88eced-40876ce050d010360bfb23bd;Parent=53995c3f42cd8ad8")
    by reflexivity.
  assert (H2 : hasKey "Root" "Root=1-5a88eced-40876ce050d010360bfb23bd;Parent=53995c3f42cd8ad8"
               = true) by reflexivity.
  split; [exact H1 |]. split; [exact H2 |].
  destruct (addTraceData_with_Root RFC3339.Parse Examples.albParent true _ H1 H2)
    as (ev' & traceID & Heq & _ & _ & _ & Htid & _).
  exists ev', traceID. split; assumption.
Defined.

Section TracePairsExtras.

Variable time_Parse : string -> string -> option Time.

Implicit Types (d : gmap string Value) (k header p field K V R : string) (ev : Event)
  (edgeMode : bool) (st : traceState).

(** X10. A field of the header that does not have exactly one [=] sign,
    such as a value with an [=] in it, is skipped: the map and the root
    span flag stay as they are. *)
Theorem traceField_malformed edgeMode st field :
  countOf "=" field ≠ 1 -> traceField edgeMode st field = st.
Proof.
  intros Hcount. unfold traceField. destruct st as [d r].
  pose proof (strings_Split_length field "=") as Hlen.
  destruct (strings_Split field "=") as [| key [| val [| x l]]]; try reflexivity.
  simpl in Hlen. exfalso. apply Hcount. congruence.
Qed.

(** X11. Edge mode makes no difference on a header without a [Parent]
    pair. *)
Theorem addTraceData_edgeMode_without_Parent ev header :
  traceHeader ev = Some header ->
  hasKey "Parent" header = false ->
  addTraceData time_Parse ev true = addTraceData time_Parse ev false.
Proof.
  intros Hh Hparent.
  rewrite !(addTraceData_header _ _ _ _ Hh).
  rewrite (headerWrites_no_Parent _ Hparent), !headerKeepsRoot_hasKey, Hparent.
  reflexivity.
Qed.

(** The value of the last pair of a header, under the key the pair is
    stored under. *)
Lemma addTraceData_last_pair ev edgeMode p K V k :
  traceHeader ev = Some (p ++ String ";" (K ++ String "=" V)) ->
  occurs "=" K = false -> occurs ";" K = false ->
  occurs "=" V = false -> occurs ";" V = false ->
  target edgeMode K = Some k ->
  returned (addTraceData time_Parse ev edgeMode) = true ->
  k ≠ "duration_ms" -> k ≠ "service_name" -> k ≠ "name" -> k ≠ "trace_id" ->
  k ≠ "request.headers.x-amzn-trace-id" -> k ≠ "trace.span_id" ->
  exists ev',
    addTraceData time_Parse ev edgeMode = Returned ev'
    /\ Data ev' !! k = Some (VString V).
Proof.
  intros Hh HK1 HK2 HV1 HV2 Ht Hret H1 H2 H3 H4 H5 H6.
  destruct (addTraceData_result time_Parse ev edgeMode _ Hh Hret)
    as (ev' & Heq & _ & _ & _ & _ & Hkeys).
  exists ev'. split; [exact Heq |].
  rewrite Hkeys by (assumption || (left; assumption)).
  rewrite headerWrites_app, headerWrites_pair, Ht, lastWrite_app by assumption.
  simpl. rewrite String.eqb_refl. reflexivity.
Qed.

(** X12. A pair with a key the function does not know, sent by a client
    as the last field of a header with a [Root] pair, replaces whatever the
    event held under that key by the value of the pair, as a string. *)
Theorem addTraceData_custom_field ev edgeMode p K V :
  traceHeader ev = Some (p ++ String ";" (K ++ String "=" V)) ->
  hasKey "Root" p = true ->
  occurs "=" K = false -> occurs ";" K = false ->
  occurs "=" V = false -> occurs ";" V = false ->
  K ∉ ["Root"; "Self"; "Parent"; "Sampled"] ->
  K ∉ ["duration_ms"; "service_name"; "name"; "trace_id";
       "request.headers.x-amzn-trace-id"; "trace.span_id"] ->
  exists ev',
    addTraceData time_Parse ev edgeMode = Returned ev'
    /\ Data ev' !! K = Some (VString V).
Proof.
  intros Hh Hroot HK1 HK2 HV1 HV2 Hknown Hlate.
  apply not_elem_of_cons in Hknown as [N1 Hknown].
  apply not_elem_of_cons in Hknown as [N2 Hknown].
  apply not_elem_of_cons in Hknown as [N3 Hknown].
  apply not_elem_of_cons in Hknown as [N4 _].
  apply not_elem_of_cons in Hlate as [L1 Hlate].
  apply not_elem_of_cons in Hlate as [L2 Hlate].
  apply not_elem_of_cons in Hlate as [L3 Hlate].
  apply not_elem_of_cons in Hlate as [L4 Hlate].
  apply not_elem_of_cons in Hlate as [L5 Hlate].
  apply not_elem_of_cons in Hlate as [L6 _].
  assert (Ht : target edgeMode K = Some K).
  { unfold target. apply String.eqb_neq in N1, N2, N3, N4.
    rewrite N1, N2, N3, N4. reflexivity. }
  assert (Hret : returned (addTraceData time_Parse ev edgeMode) = true).
  { apply (returns_with_Root _ _ _ _ Hh). rewrite hasKey_app, Hroot. reflexivity. }
  apply (addTraceData_last_pair ev edgeMode p K V K); assumption.
Qed.

(** X13. When a header has several [Root] pairs the last one gives the
    trace id. *)
Theorem addTraceData_last_Root ev edgeMode p R :
  traceHeader ev = Some (p ++ String ";" ("Root=" ++ R)) ->
  occurs "=" R = false -> occurs ";" R = false ->
  exists ev',
    addTraceData time_Parse ev edgeMode = Returned ev'
    /\ Data ev' !! "trace.trace_id" = Some (VString R).
Proof.
  intros Hh HR1 HR2.
  change ("Root=" ++ R) with ("Root" ++ String "=" R) in Hh.
  assert (Hroot : hasKey "Root" (p ++ String ";" ("Root" ++ String "=" R)) = true).
  { rewrite hasKey_app. apply orb_true_iff. right. unfold hasKey.
    rewrite strings_Split_no_sep by (simpl; exact HR2).
    cbn [existsb]. unfold fieldHasKey.
    rewrite strings_Split_pair by (assumption || reflexivity). reflexivity. }
  apply (addTraceData_last_pair ev edgeMode p "Root" R "trace.trace_id");
    try assumption; try reflexivity; try discriminate.
  apply (returns_with_Root _ _ _ _ Hh). exact Hroot.
Qed.

(** X14. On a header with a [Root] pair that does not name them, the load
    balancer name of the event becomes its [service_name] and the request
    path its [name], when they are strings. *)
Theorem addTraceData_service_and_name ev edgeMode header :
  traceHeader ev = Some header ->
  hasKey "Root" header = true ->
  exists ev',
    addTraceData time_Parse ev edgeMode = Returned ev'
    /\ (forall elb, hasKey "elb" header = false -> Data ev !! "elb" = Some (VString elb) ->
          Data ev' !! "service_name" = Some (VString elb))
    /\ (forall requestPath, hasKey "request_path" header = false ->
          Data ev !! "request_path" = Some (VString requestPath) ->
          Data ev' !! "name" = Some (VString requestPath)).
Proof.
  intros Hh Hroot.
  pose proof (returns_with_Root time_Parse _ edgeMode _ Hh Hroot) as Hret.
  destruct (addTraceData_returns time_Parse ev edgeMode header Hh Hret) as (d1 & Heq & Hd1).
  eexists. split; [exact Heq |]. cbn [Data]. split.
  - intros elb Hk Helb. rewrite finishTrace_service_name.
    rewrite Hd1 by discriminate.
    rewrite lastWrite_plain_None by (assumption || discriminate).
    rewrite Helb. reflexivity.
  - intros requestPath Hk Hpath. rewrite finishTrace_name.
    rewrite Hd1 by discriminate.
    rewrite lastWrite_plain_None by (assumption || discriminate).
    rewrite Hpath. reflexivity.
Qed.

(** X15. A [duration_ms] that the function writes is a float64 strictly
    above zero: on an event without that field, and a header with a [Root]
    pair that does not name it, the event returned has no [duration_ms] or
    a positive one. *)
Theorem addTraceData_duration_positive ev edgeMode header :
  traceHeader ev = Some header ->
  hasKey "Root" header = true ->
  hasKey "duration_ms" header = false ->
  Data ev !! "duration_ms" = None ->
  exists ev',
    addTraceData time_Parse ev edgeMode = Returned ev'
    /\ match Data ev' !! "duration_ms" with
       | Some v => exists x, v = VFloat64 x /\ GoFloat.gt x GoFloat.zero = true
       | None => True
       end.
Proof.
  intros Hh Hroot Hk Hnone.
  pose proof (returns_with_Root time_Parse _ edgeMode _ Hh Hroot) as Hret.
  destruct (addTraceData_returns time_Parse ev edgeMode header Hh Hret) as (d1 & Heq & Hd1).
  eexists. split; [exact Heq |]. cbn [Data].
  rewrite finishTrace_duration, attachDuration_lookup. simpl String.eqb. cbn [andb].
  destruct (GoFloat.gt (durationMs time_Parse (Timestamp ev) d1) GoFloat.zero) eqn:Hgt.
  - eauto.
  - rewrite Hd1 by discriminate.
    rewrite lastWrite_plain_None by (assumption || discriminate).
    rewrite Hnone. exact I.
Qed.

End TracePairsExtras.

Lemma addTraceData_Root_Self_witness :
  occurs "=" "1-5a88eced-40876ce050d010360bfb23bd" = false
  /\ occurs ";" "1-5a88eced-40876ce050d010360bfb23bd" = false
  /\ occurs "=" "1-67891234-12456789abcdef012345678" = false
  /\ occurs ";" "1-67891234-12456789abcdef012345678" = false
  /\ traceHeader Cases.albSelf
     = Some ("Root=" ++ "1-5a88eced-40876ce050d010360bfb23bd"
               ++ ";Self=" ++ "1-67891234-12456789abcdef012345678")
  /\ exists ev',
      addTraceData RFC3339.Parse Cases.albSelf false = Returned ev'
      /\ Data ev' !! "trace.trace_id" = Some (VString "1-5a88eced-40876ce050d010360bfb23bd")
      /\ Data ev' !! "trace.span_id" = Some (VString "1-67891234-12456789abcdef012345678").
Proof.
  assert (H1 : occurs "=" "1-5a88eced-40876ce050d010360bfb23bd" = false) by reflexivity.
  assert (H2 : occurs ";" "1-5a88eced-40876ce050d010360bfb23bd" = false) by reflexivity.
  assert (H3 : occurs "=" "1-67891234-12456789abcdef012345678" = false) by reflexivity.
  assert (H4 : occurs ";" "1-67891234-12456789abcdef012345678" = false) by reflexivity.
  assert (H5 : traceHeader Cases.albSelf
               = Some ("Root=" ++ "1-5a88eced-40876ce050d010360bfb23bd"
                         ++ ";Self=" ++ "1-67891234-12456789abcdef012345678"))
    by reflexivity.
  repeat (split; [assumption |]).
  destruct (addTraceData_Root_Self RFC3339.Parse Cases.albSelf false _ _ H1 H2 H3 H4 H5)
    as (ev' & Heq & Htid & Hsid & _).
  exists ev'. repeat split; assumption.
Defined.

Lemma addTraceData_Root_only_witness :
  occurs "=" "1-5a88eced-40876ce050d010360bfb23bd" = false
  /\ occurs ";" "1-5a88eced-40876ce050d010360bfb23bd" = false
  /\ traceHeader Examples.albRootOnly = Some ("Root=" ++ "1-5a88eced-40876ce050d010360bfb23bd")
  /\ exists ev',
      addTraceData RFC3339.Parse Examples.albRootOnly false = Returned ev'
      /\ Data ev' !! "trace.span_id" = Some (VString "1-5a88eced-40876ce050d010360bfb23bd").
Proof.
  assert (H1 : occurs "=" "1-5a88eced-40876ce050d010360bfb23bd" = false) by reflexivity.
  assert (H2 : occurs ";" "1-5a88eced-40876ce050d010360bfb23bd" = false) by reflexivity.
  assert (H3 : traceHeader Examples.albRootOnly
               = Some ("Root=" ++ "1-5a88eced-40876ce050d010360bfb23bd")) by reflexivity.
  repeat (split; [assumption |]).
  destruct (addTraceData_Root_only RFC3339.Parse Examples.albRootOnly false _ H1 H2 H3)
    as (ev' & Heq & _ & Hsid & _).
  exists ev'. split; assumption.
Defined.

Lemma traceField_malformed_witness :
  (countOf "=" "token=YWJj==" ≠ 1)
  /\ traceField false (∅, true) "token=YWJj==" = (∅, true).
Proof.
  assert (H : countOf "=" "token=YWJj==" ≠ 1) by (vm_compute; discriminate).
  split; [exact H |].
  exact (traceField_malformed false (∅, true) "token=YWJj==" H).
Defined.

Lemma addTraceData_edgeMode_without_Parent_witness :
  traceHeader Examples.albRootOnly = Some "Root=1-5a88eced-40876ce050d010360bfb23bd"
  /\ hasKey "Parent" "Root=1-5a88eced-40876ce050d010360bfb23bd" = false
  /\ addTraceData RFC3339.Parse Examples.albRootOnly true
     = addTraceData RFC3339.Parse Examples.albRootOnly false.
Proof.
  assert (H1 : traceHeader Examples.albRootOnly
               = Some "Root=1-5a88eced-40876ce050d010360bfb23bd") by reflexivity.
  assert (H2 : hasKey "Parent" "Root=1-5a88eced-40876ce050d010360bfb23bd" = false)
    by reflexivity.
  repeat (split; [assumption |]).
  exact (addTraceData_edgeMode_without_Parent RFC3339.Parse Examples.albRootOnly _ H1 H2).
Defined.

Lemma addTraceData_custom_field_witness :
  traceHeader Cases.albStatusField
  = Some ("Root=1-5a88eced-40876ce050d010360bfb23bd"
            ++ String ";" ("elb_status_code" ++ String "=" "500"))
  /\ hasKey "Root" "Root=1-5a88eced-40876ce050d010360bfb23bd" = true
  /\ occurs "=" "elb_status_code" = false /\ occurs ";" "elb_status_code" = false
  /\ occurs "=" "500" = false /\ occurs ";" "500" = false
  /\ ("elb_status_code" ∉ ["Root"; "Self"; "Parent"; "Sampled"])
  /\ ("elb_status_code" ∉ ["duration_ms"; "service_name"; "name"; "trace_id";
                           "request.headers.x-amzn-trace-id"; "trace.span_id"])
  /\ Data Cases.albStatusField !! "elb_status_code" = Some (VInt64 200)
  /\ exists ev',
      addTraceData RFC3339.Parse Cases.albStatusField false = Returned ev'
      /\ Data ev' !! "elb_status_code" = Some (VString "500").
Proof.
  assert (H1 : traceHeader Cases.albStatusField
               = Some ("Root=1-5a88eced-40876ce050d010360bfb23bd"
                         ++ String ";" ("elb_status_code" ++ String "=" "500")))
    by reflexivity.
  assert (H2 : hasKey "Root" "Root=1-5a88eced-40876ce050d010360bfb23bd" = true)
    by reflexivity.
  assert (H3 : occurs "=" "elb_status_code" = false) by reflexivity.
  assert (H4 : occurs ";" "elb_status_code" = false) by reflexivity.
  assert (H5 : occurs "=" "500" = false) by reflexivity.
  assert (H6 : occurs ";" "500" = false) by reflexivity.
  assert (H7 : "elb_status_code" ∉ ["Root"; "Self"; "Parent"; "Sampled"])
    by (apply (bool_decide_unpack _); vm_compute; exact I).
  assert (H8 : "elb_status_code" ∉ ["duration_ms"; "service_name"; "name"; "trace_id";
                                    "request.headers.x-amzn-trace-id"; "trace.span_id"])
    by (apply (bool_decide_unpack _); vm_compute; exact I).
  repeat (split; [assumption |]).
  split; [reflexivity |].
  exact (addTraceData_custom_field RFC3339.Parse Cases.albStatusField false
           _ _ _ H1 H2 H3 H4 H5 H6 H7 H8).
Defined.

Lemma addTraceData_last_Root_witness :
  traceHeader Cases.albTwoRoots
  = Some ("Root=1-00000000-000000000000000000000000"
            ++ String ";" ("Root=" ++ "1-5a88eced-40876ce050d010360bfb23bd"))
  /\ occurs "=" "1-5a88eced-40876ce050d010360bfb23bd" = false
  /\ occurs ";" "1-5a88eced-40876ce050d010360bfb23bd" = false
  /\ exists ev',
      addTraceData RFC3339.Parse Cases.albTwoRoots false = Returned ev'
      /\ Data ev' !! "trace.trace_id" = Some (VString "1-5a88eced-40876ce050d010360bfb23bd").
Proof.
  assert (H1 : traceHeader Cases.albTwoRoots
               = Some ("Root=1-00000000-000000000000000000000000"
                         ++ String ";" ("Root=" ++ "1-5a88eced-40876ce050d010360bfb23bd")))
    by reflexivity.
  assert (H2 : occurs "=" "1-5a88eced-40876ce050d010360bfb23bd" = false) by reflexivity.
  assert (H3 : occurs ";" "1-5a88eced-40876ce050d010360bfb23bd" = false) by reflexivity.
  repeat (split; [assumption |]).
  exact (addTraceData_last_Root RFC3339.Parse Cases.albTwoRoots false _ _ H1 H2 H3).
Defined.

Lemma addTraceData_service_and_name_witness :
  traceHeader Cases.albShaped = Some "Root=1-5a88eced-40876ce050d010360bfb23bd"
  /\ hasKey "Root" "Root=1-5a88eced-40876ce050d010360bfb23bd" = true
  /\ exists ev',
      addTraceData RFC3339.Parse Cases.albShaped false = Returned ev'
      /\ Data ev' !! "service_name" = Some (VString "app/alb-test-2/ebd66bfd69677bfa")
      /\ Data ev' !! "name" = Some (VString "/reticulate/spline/1").
Proof.
  assert (H1 : traceHeader Cases.albShaped = Some "Root=1-5a88eced-40876ce050d010360bfb23bd")
    by reflexivity.
  assert (H2 : hasKey "Root" "Root=1-5a88eced-40876ce050d010360bfb23bd" = true)
    by reflexivity.
  repeat (split; [assumption |]).
  destruct (addTraceData_service_and_name RFC3339.Parse Cases.albShaped false _ H1 H2)
    as (ev' & Heq & Hsvc & Hname).
  exists ev'. split; [exact Heq |]. split.
  - apply Hsvc; reflexivity.
  - apply Hname; reflexivity.
Defined.

Lemma addTraceData_duration_positive_witness :
  traceHeader Examples.albThreeMilliseconds = Some "Root=1-5a88eced-40876ce050d010360bfb23bd"
  /\ hasKey "Root" "Root=1-5a88eced-40876ce050d010360bfb23bd" = true
  /\ hasKey "duration_ms" "Root=1-5a88eced-40876ce050d010360bfb23bd" = false
  /\ Data Examples.albThreeMilliseconds !! "duration_ms" = None
  /\ exists ev',
      addTraceData RFC3339.Parse Examples.albThreeMilliseconds false = Returned ev'
      /\ match Data ev' !! "duration_ms" with
         | Some v => exists x, v = VFloat64 x /\ GoFloat.gt x GoFloat.zero = true
         | None => True
         end.
Proof.
  assert (H1 : traceHeader Examples.albThreeMilliseconds
               = Some "Root=1-5a88eced-40876ce050d010360bfb23bd") by reflexivity.
  assert (H2 : hasKey "Root" "Root=1-5a88eced-40876ce050d010360bfb23bd" = true)
    by reflexivity.
  assert (H3 : hasKey "duration_ms" "Root=1-5a88eced-40876ce050d010360bfb23bd" = false)
    by reflexivity.
  assert (H4 : Data Examples.albThreeMilliseconds !! "duration_ms" = None) by reflexivity.
  repeat (split; [assumption |]).
  exact (addTraceData_duration_positive RFC3339.Parse Examples.albThreeMilliseconds false
           _ H1 H2 H3 H4).
Defined.

(** ** basicAuth: the encoding *)

Section Base64Facts.

Implicit Types (s u p : string) (a b c : ascii).

Lemma string_ind3 (P : string -> Prop) :
  P EmptyString ->
  (forall a, P (String a EmptyString)) ->
  (forall a b, P (String a (String b EmptyString))) ->
  (forall a b c s, P s -> P (String a (String b (String c s)))) ->
  forall s, P s.
Proof.
  intros H0 H1 H2 H3 s.
  enough (H : P s /\ (forall a, P (String a s)) /\ (forall a b, P (String a (String b s))))
    by apply H.
  induction s as [| c s (IH0 & IH1 & IH2)]; [auto |].
  split; [apply IH1 |]. split; [intros a; apply IH2 |].
  intros a b. apply H3. assumption.
Qed.

Lemma EncodeToString_length s :
  String.length (base64.EncodeToString s) = 4 * ((String.length s + 2) / 3).
Proof.
  induction s as [| a | a b | a b c s IH] using string_ind3; try reflexivity.
  cbn [base64.EncodeToString String.length]. rewrite IH.
  replace (S (S (S (String.length s))) + 2) with ((String.length s + 2) + 1 * 3) by lia.
  rewrite Nat.div_add by lia. lia.
Qed.

Lemma get_occurs (i : nat) s c : String.get i s = Some c -> occurs c s = true.
Proof.
  revert i. induction s as [| a s IH]; intros i; simpl; [discriminate |].
  destruct i as [| i].
  - intros [= ->]. rewrite Ascii.eqb_refl. reflexivity.
  - intros H. rewrite (IH _ H). apply orb_true_r.
Qed.

Lemma sextet_base64Byte (n : N) : base64Byte (base64.sextet n) = true.
Proof.
  unfold base64Byte, base64.sextet.
  destruct (String.get (N.to_nat n) base64.encodeStd) as [c |] eqn:Hget.
  - rewrite (get_occurs _ _ _ Hget). reflexivity.
  - rewrite Ascii.eqb_refl. apply orb_true_r.
Qed.

Lemma padding_base64Byte : base64Byte base64.padding = true.
Proof. reflexivity. Qed.

Lemma EncodeToString_alphabet s : allBytes base64Byte (base64.EncodeToString s) = true.
Proof.
  induction s as [| a | a b | a b c s IH] using string_ind3;
    cbn [base64.EncodeToString allBytes]; cbv zeta;
    rewrite ?sextet_base64Byte, ?padding_base64Byte, ?IH; reflexivity.
Qed.

Lemma allBytes_occurs (P : ascii -> bool) s c :
  allBytes P s = true -> P c = false -> occurs c s = false.
Proof.
  intros Hall Hc. induction s as [| a s IH]; [reflexivity |].
  simpl in Hall |- *. apply andb_true_iff in Hall as [Ha Hs].
  rewrite (IH Hs), orb_false_r.
  destruct (Ascii.eqb_spec a c) as [-> | Hne]; [congruence | reflexivity].
Qed.

End Base64Facts.

(** X16. The value [basicAuth] returns has four characters for every
    three bytes, begun or complete, of [username:password]; it is never
    empty. *)
Theorem basicAuth_length (username password : string) :
  String.length (basicAuth username password)
  = 4 * ((String.length username + String.length password + 3) / 3)
  /\ 4 <= String.length (basicAuth username password).
Proof.
  unfold basicAuth. rewrite EncodeToString_length.
  assert (Hlen : forall a b : string, String.length (a ++ b) = String.length a + String.length b).
  { intros a b. induction a as [| x a IH]; simpl; [reflexivity | rewrite IH; reflexivity]. }
  rewrite Hlen. change (":" ++ password) with (String ":" password).
  change (String.length (String ":" password)) with (S (String.length password)).
  replace (String.length username + S (String.length password) + 2)
    with (String.length username + String.length password + 3) by lia.
  split; [reflexivity |].
  assert (1 <= (String.length username + String.length password + 3) / 3)
    by (apply Nat.div_le_lower_bound; lia).
  lia.
Qed.

(** X17. Whatever the credentials are, the value [basicAuth] returns is
    made of letters, digits, [+], [/] and [=] only: it holds no space, no
    carriage return and no line feed. *)
Theorem basicAuth_alphabet (username password : string) :
  allBytes base64Byte (basicAuth username password) = true
  /\ occurs " " (basicAuth username password) = false
  /\ occurs "013" (basicAuth username password) = false
  /\ occurs "010" (basicAuth username password) = false.
Proof.
  pose proof (EncodeToString_alphabet (username ++ ":" ++ password)) as H.
  unfold basicAuth. split; [exact H |].
  repeat split; apply (allBytes_occurs base64Byte); (exact H || reflexivity).
Qed.

Section Base64RoundTrip.

Import base64 base64_inverse.

Implicit Types (s : string) (a b c : ascii).

Lemma allAscii_complete a : In a allAscii.
Proof.
  unfold allAscii. rewrite <- (ascii_nat_embedding a).
  apply in_map. apply in_seq. pose proof (nat_ascii_bounded a). lia.
Qed.

Lemma forall_ascii (P : ascii -> bool) :
  forallb P allAscii = true -> forall a, P a = true.
Proof. intros H a. exact (proj1 (forallb_forall P allAscii) H a (allAscii_complete a)). Qed.

Lemma forall_ascii2 (P : ascii -> ascii -> bool) :
  forallb (fun a => forallb (P a) allAscii) allAscii = true -> forall a b, P a b = true.
Proof.
  intros H a b.
  apply (forall_ascii (P a)). apply (forall_ascii (fun a => forallb (P a) allAscii) H).
Qed.

(** The four characters of a group of three bytes, and the characters that
    end a group of one or two. *)
Local Abbreviation e1 a := (sextet (N.shiftr (N_of_ascii a) 2)).
Local Abbreviation e2 a b :=
  (sextet (N.lor (N.shiftl (N.land (N_of_ascii a) 3) 4) (N.shiftr (N_of_ascii b) 4))).
Local Abbreviation e3 b c :=
  (sextet (N.lor (N.shiftl (N.land (N_of_ascii b) 15) 2) (N.shiftr (N_of_ascii c) 6))).
Local Abbreviation e4 c := (sextet (N.land (N_of_ascii c) 63)).
Local Abbreviation e2' a := (sextet (N.shiftl (N.land (N_of_ascii a) 3) 4)).
Local Abbreviation e3' b := (sextet (N.shiftl (N.land (N_of_ascii b) 15) 2)).

Lemma first_byte a b : ascii_of_N (unsextet (e1 a) * 4 + unsextet (e2 a b) / 16) = a.
Proof.
  apply Ascii.eqb_eq. revert a b.
  apply (forall_ascii2
           (fun a b => Ascii.eqb (ascii_of_N (unsextet (e1 a) * 4 + unsextet (e2 a b) / 16)) a)).
  vm_compute. reflexivity.
Qed.

Lemma second_byte_high a b : (unsextet (e2 a b) mod 16 = N_of_ascii b / 16)%N.
Proof.
  apply N.eqb_eq. revert a b.
  apply (forall_ascii2 (fun a b => (unsextet (e2 a b) mod 16 =? N_of_ascii b / 16)%N)).
  vm_compute. reflexivity.
Qed.

Lemma second_byte_low b c : (unsextet (e3 b c) / 4 = N_of_ascii b mod 16)%N.
Proof.
  apply N.eqb_eq. revert b c.
  apply (forall_ascii2 (fun b c => (unsextet (e3 b c) / 4 =? N_of_ascii b mod 16)%N)).
  vm_compute. reflexivity.
Qed.

Lemma byte_halves b : ascii_of_N (N_of_ascii b / 16 * 16 + N_of_ascii b mod 16) = b.
Proof.
  apply Ascii.eqb_eq. revert b.
  apply (forall_ascii
           (fun b => Ascii.eqb (ascii_of_N (N_of_ascii b / 16 * 16 + N_of_ascii b mod 16)) b)).
  vm_compute. reflexivity.
Qed.

Lemma third_byte b c : ascii_of_N (unsextet (e3 b c) mod 4 * 64 + unsextet (e4 c)) = c.
Proof.
  apply Ascii.eqb_eq. revert b c.
  apply (forall_ascii2
           (fun b c => Ascii.eqb (ascii_of_N (unsextet (e3 b c) mod 4 * 64 + unsextet (e4 c))) c)).
  vm_compute. reflexivity.
Qed.

Lemma third_char_not_padding b c : Ascii.eqb (e3 b c) padding = false.
Proof.
  apply negb_true_iff. revert b c.
  apply (forall_ascii2 (fun b c => negb (Ascii.eqb (e3 b c) padding))).
  vm_compute. reflexivity.
Qed.

Lemma fourth_char_not_padding c : Ascii.eqb (e4 c) padding = false.
Proof.
  apply negb_true_iff. revert c.
  apply (forall_ascii (fun c => negb (Ascii.eqb (e4 c) padding))).
  vm_compute. reflexivity.
Qed.

Lemma only_byte a : ascii_of_N (unsextet (e1 a) * 4 + unsextet (e2' a) / 16) = a.
Proof.
  apply Ascii.eqb_eq. revert a.
  apply (forall_ascii
           (fun a => Ascii.eqb (ascii_of_N (unsextet (e1 a) * 4 + unsextet (e2' a) / 16)) a)).
  vm_compute. reflexivity.
Qed.

Lemma last_byte_low b : (unsextet (e3' b) / 4 = N_of_ascii b mod 16)%N.
Proof.
  apply N.eqb_eq. revert b.
  apply (forall_ascii (fun b => (unsextet (e3' b) / 4 =? N_of_ascii b mod 16)%N)).
  vm_compute. reflexivity.
Qed.

Lemma last_char_not_padding b : Ascii.eqb (e3' b) padding = false.
Proof.
  apply negb_true_iff. revert b.
  apply (forall_ascii (fun b => negb (Ascii.eqb (e3' b) padding))).
  vm_compute. reflexivity.
Qed.

(** Decoding what was encoded gives the bytes back. *)
Lemma decode_EncodeToString s : decode (EncodeToString s) = Some s.
Proof.
  induction s as [| a | a b | a b c s IH] using string_ind3.
  - reflexivity.
  - cbn [EncodeToString decode]. cbv zeta.
    rewrite Ascii.eqb_refl. cbn [andb String.eqb]. rewrite only_byte. reflexivity.
  - cbn [EncodeToString decode]. cbv zeta.
    rewrite last_char_not_padding, Ascii.eqb_refl. cbn [String.eqb].
    rewrite first_byte, second_byte_high, last_byte_low, byte_halves. reflexivity.
  - cbn [EncodeToString decode]. cbv zeta.
    rewrite third_char_not_padding, fourth_char_not_padding, IH.
    rewrite first_byte, second_byte_high, second_byte_low, byte_halves, third_byte.
    reflexivity.
Qed.

Lemma EncodeToString_injective s s' :
  EncodeToString s = EncodeToString s' -> s = s'.
Proof.
  intros H. apply (f_equal decode) in H.
  rewrite !decode_EncodeToString in H. congruence.
Qed.

End Base64RoundTrip.

Lemma split_at_colon (u u' p p' : string) :
  occurs ":" u = false -> occurs ":" u' = false ->
  u ++ String ":" p = u' ++ String ":" p' -> u = u' /\ p = p'.
Proof.
  revert u'. induction u as [| a u IH]; intros [| a' u'] Hu Hu'; simpl in *.
  - intros [= ->]. auto.
  - intros [= <- _]. discriminate Hu'.
  - intros [= -> _]. discriminate Hu.
  - apply orb_false_iff in Hu as [_ Hu]. apply orb_false_iff in Hu' as [_ Hu'].
    intros [= -> H]. destruct (IH u' Hu Hu' H) as [-> ->]. auto.
Qed.

(** X18. Credentials whose user names hold no colon can be read back from
    the value [basicAuth] returns: two such pairs with the same value are
    the same pair. *)
Theorem basicAuth_recoverable (username password username' password' : string) :
  occurs ":" username = false -> occurs ":" username' = false ->
  basicAuth username password = basicAuth username' password' ->
  username = username' /\ password = password'.
Proof.
  intros Hu Hu' Heq. unfold basicAuth in Heq.
  apply EncodeToString_injective in Heq.
  apply (split_at_colon _ _ _ _ Hu Hu' Heq).
Qed.

Lemma basicAuth_recoverable_witness :
  occurs ":" "12345" = false /\ occurs ":" "12345" = false
  /\ basicAuth "12345" "secret-key" = basicAuth "12345" "secret-key"
  /\ "12345" = "12345" /\ "secret-key" = "secret-key".
Proof.
  assert (H1 : occurs ":" "12345" = false) by reflexivity.
  assert (H2 : basicAuth "12345" "secret-key" = basicAuth "12345" "secret-key")
    by reflexivity.
  split; [exact H1 |]. split; [exact H1 |]. split; [exact H2 |].
  exact (basicAuth_recoverable "12345" "secret-key" "12345" "secret-key" H1 H1 H2).
Defined.

(** X19. Two pairs of credentials give the same header value exactly when
    their joined forms [username:password] are the same string; so a user
    name with a colon in it gives the value of another pair. *)
Theorem basicAuth_same_value_iff (username password username' password' : string) :
  (basicAuth username password = basicAuth username' password'
   <-> username ++ ":" ++ password = username' ++ ":" ++ password')
  /\ basicAuth (username ++ ":" ++ username') password
     = basicAuth username (username' ++ ":" ++ password).
Proof.
  split.
  - unfold basicAuth. split; [apply EncodeToString_injective | congruence].
  - unfold basicAuth. f_equal.
    assert (Hassoc : forall a b c : string, (a ++ b) ++ c = a ++ (b ++ c)).
    { intros a b c. induction a as [| x a IH]; [reflexivity |].
      change (String x ((a ++ b) ++ c) = String x (a ++ (b ++ c))). f_equal. exact IH. }
    rewrite Hassoc. reflexivity.
Qed.

(** ** The delivery loop: what reaches the endpoint *)

Section LoopFacts.

Variable Shape : string -> Event -> Event.
Variable json_Marshal_Data : gmap string Value -> result string.
Variable json_render : JSON -> string.
Variable FormatFloat : float64 -> string.
Variable url_Parse_error : string -> option string.
Variable client_Do : Request -> option string.

Variables (edgeMode : bool) (grafanaID grafanaEndpoint grafanaAPIKey environment : string).

Lemma requestsOf_app (l l' : list Effect) :
  requestsOf (l ++ l') = (requestsOf l ++ requestsOf l')%list.
Proof. apply omap_app. Qed.

Lemma requestsOf_encoderLog (ev : Event) :
  requestsOf (encoderLog Shape json_Marshal_Data ev) = [].
Proof. unfold encoderLog. destruct (json_Marshal_Data _); reflexivity. Qed.

Lemma requestsOf_clientLog (req : Request) : requestsOf (clientLog client_Do req) = [].
Proof. unfold clientLog. destruct (client_Do req); reflexivity. Qed.

Lemma foldl_after_panic (events : list Event) (log : list Effect) (msg : string) :
  foldl (fun o ev =>
           andThen o (fun log' =>
             deliver Shape json_Marshal_Data json_render FormatFloat url_Parse_error client_Do
               edgeMode grafanaID grafanaEndpoint grafanaAPIKey environment log' ev))
        (Panicked log msg) events
  = Panicked log msg.
Proof. induction events as [| ev events IH]; [reflexivity | exact IH]. Qed.

(** X20. With an endpoint that does not parse the loop sends nothing: on
    an empty channel it returns, and on the first event it logs the error
    and panics, whatever follows on the channel. *)
Theorem sendEventsToHoneycomb_bad_endpoint (events : list Event) (err : string) :
  url_Parse_error grafanaEndpoint = Some err ->
  requestsOf
    (stateOf
       (sendEventsToHoneycomb Shape json_Marshal_Data json_render FormatFloat url_Parse_error
          client_Do events edgeMode grafanaID grafanaEndpoint grafanaAPIKey environment))
  = []
  /\ sendEventsToHoneycomb Shape json_Marshal_Data json_render FormatFloat url_Parse_error
       client_Do events edgeMode grafanaID grafanaEndpoint grafanaAPIKey environment
     = match events with
       | [] => Returned []
       | ev :: _ =>
           Panicked (encoderLog Shape json_Marshal_Data ev ++ [LogError err])%list
             "runtime error: invalid memory address or nil pointer dereference"
       end.
Proof.
  intros Hurl.
  assert (Heq : sendEventsToHoneycomb Shape json_Marshal_Data json_render FormatFloat
                  url_Parse_error client_Do events edgeMode grafanaID grafanaEndpoint
                  grafanaAPIKey environment
                = match events with
                  | [] => Returned []
                  | ev :: _ =>
                      Panicked (encoderLog Shape json_Marshal_Data ev ++ [LogError err])%list
                        "runtime error: invalid memory address or nil pointer dereference"
                  end).
  { unfold sendEventsToHoneycomb. destruct events as [| ev events]; [reflexivity |].
    cbn [foldl andThen].
    rewrite (deliver_bad_endpoint _ _ _ _ _ _ _ _ _ _ _ _ _ _ Hurl).
    apply foldl_after_panic. }
  split; [| exact Heq].
  rewrite Heq. destruct events as [| ev events]; [reflexivity |].
  cbn [stateOf]. rewrite requestsOf_app, requestsOf_encoderLog. reflexivity.
Qed.

(** X21. With an endpoint that parses the loop returns, and the requests
    it has sent are the requests of the events received, one each and in
    order, whether the encoder or the client failed on some of them or
    not. *)
Theorem sendEventsToHoneycomb_requests (events : list Event) :
  url_Parse_error grafanaEndpoint = None ->
  returned
    (sendEventsToHoneycomb Shape json_Marshal_Data json_render FormatFloat url_Parse_error
       client_Do events edgeMode grafanaID grafanaEndpoint grafanaAPIKey environment)
  = true
  /\ requestsOf
       (stateOf
          (sendEventsToHoneycomb Shape json_Marshal_Data json_render FormatFloat
             url_Parse_error client_Do events edgeMode grafanaID grafanaEndpoint
             grafanaAPIKey environment))
     = map (requestFor Shape json_Marshal_Data json_render FormatFloat
              grafanaID grafanaEndpoint grafanaAPIKey environment) events.
Proof.
  intros Hurl. rewrite (sendEventsToHoneycomb_effects _ _ _ _ _ _ _ _ _ _ _ _ Hurl).
  split; [reflexivity |]. cbn [stateOf].
  induction events as [| ev events IH]; [reflexivity |].
  cbn [map concat]. rewrite requestsOf_app, IH. unfold effectsFor.
  rewrite !requestsOf_app, requestsOf_encoderLog, requestsOf_clientLog. reflexivity.
Qed.

End LoopFacts.

Lemma sendEventsToHoneycomb_bad_endpoint_witness :
  Doubles.url_Parse_error "https://logs example.net/push"
  = Some "parse https://logs example.net/push: invalid character in host name"
  /\ requestsOf
       (stateOf
          (sendEventsToHoneycomb Doubles.Shape Doubles.json_Marshal_Data Doubles.json_render
             Doubles.FormatFloat Doubles.url_Parse_error Doubles.client_Do
             [Examples.elbTimeout; Examples.cloudFrontTimeout] false
             "12345" "https://logs example.net/push" "secret-key" "dev"))
     = [].
Proof.
  assert (H : Doubles.url_Parse_error "https://logs example.net/push"
              = Some "parse https://logs example.net/push: invalid character in host name")
    by reflexivity.
  split; [exact H |].
  exact (proj1 (sendEventsToHoneycomb_bad_endpoint Doubles.Shape Doubles.json_Marshal_Data
                  Doubles.json_render Doubles.FormatFloat Doubles.url_Parse_error
                  Doubles.client_Do false "12345" "https://logs example.net/push" "secret-key"
                  "dev" [Examples.elbTimeout; Examples.cloudFrontTimeout] _ H)).
Defined.

Lemma sendEventsToHoneycomb_requests_witness :
  Doubles.url_Parse_error "https://logs.example.net/loki/api/v1/push" = None
  /\ length
       (requestsOf
          (stateOf
             (sendEventsToHoneycomb Doubles.Shape Doubles.json_Marshal_Data
                Doubles.json_render Doubles.FormatFloat Doubles.url_Parse_error
                Doubles.client_Do
                [Examples.elbTimeout; Doubles.notANumber; Examples.cloudFrontTimeout] false
                "12345" "https://logs.example.net/loki/api/v1/push" "secret-key" "dev")))
     = 3.
Proof.
  assert (H : Doubles.url_Parse_error "https://logs.example.net/loki/api/v1/push" = None)
    by reflexivity.
  split; [exact H |].
  rewrite (proj2 (sendEventsToHoneycomb_requests Doubles.Shape Doubles.json_Marshal_Data
                    Doubles.json_render Doubles.FormatFloat Doubles.url_Parse_error
                    Doubles.client_Do false "12345"
                    "https://logs.example.net/loki/api/v1/push" "secret-key" "dev"
                    [Examples.elbTimeout; Doubles.notANumber; Examples.cloudFrontTimeout] H)).
  reflexivity.
Defined.

(** ** Publish, call after call *)

Section PublishFacts.

Context {FS : Type}.
Variable ParseEvents : DownloadedObject -> FS -> list Event * option string.
Variable os_Remove : string -> FS -> FS * option string.

Lemma Publish_step (obj : DownloadedObject) (w : World FS) :
  parsedCh w `prefix_of` parsedCh (fst (Publish ParseEvents os_Remove obj w))
  /\ (removeCalls (fst (Publish ParseEvents os_Remove obj w)) = removeCalls w
      \/ removeCalls (fst (Publish ParseEvents os_Remove obj w))
         = (removeCalls w ++ [Filename obj])%list)
  /\ (snd (Publish ParseEvents os_Remove obj w) = None ->
      removeCalls (fst (Publish ParseEvents os_Remove obj w))
      = (removeCalls w ++ [Filename obj])%list).
Proof.
  unfold Publish.
  destruct (ParseEvents obj (fs w)) as [events [err |]]; cbn [fst snd fs parsedCh removeCalls].
  - split; [apply prefix_app_r; reflexivity |]. split; [left; reflexivity | discriminate].
  - destruct (os_Remove (Filename obj) (fs w)) as [fs' [err |]];
      cbn [fst snd fs parsedCh removeCalls];
      (split; [apply prefix_app_r; reflexivity |]); split; auto; discriminate.
Qed.

(** X22. Over any sequence of calls, [Publish] gives one result for each
    object, never takes back an event the parser has sent, and calls
    [os.Remove] only with the file names of the objects published, in
    their order, and at least once for every call that returned nil. *)
Theorem PublishAll_invariants (objs : list DownloadedObject) (w : World FS) :
  length (snd (PublishAll ParseEvents os_Remove objs w)) = length objs
  /\ parsedCh w `prefix_of` parsedCh (fst (PublishAll ParseEvents os_Remove objs w))
  /\ exists removed,
      removeCalls (fst (PublishAll ParseEvents os_Remove objs w))
      = (removeCalls w ++ removed)%list
      /\ removed `sublist_of` map Filename objs
      /\ length (filter (fun err => err = None) (snd (PublishAll ParseEvents os_Remove objs w)))
         <= length removed.
Proof.
  revert w. induction objs as [| obj objs IH]; intros w.
  - cbn. split; [reflexivity |]. split; [reflexivity |].
    exists []. rewrite app_nil_r. repeat split; [reflexivity | lia].
  - cbn [PublishAll].
    pose proof (Publish_step obj w) as (Hpre & Hrem & Hnil).
    destruct (Publish ParseEvents os_Remove obj w) as [w1 err]. cbn [fst snd] in *.
    specialize (IH w1). destruct (PublishAll ParseEvents os_Remove objs w1) as [w2 errs].
    cbn [fst snd] in *. destruct IH as (Hlen & Hpre' & removed & Hcalls & Hsub & Hcount).
    split; [cbn; lia |]. split; [etransitivity; eassumption |].
    destruct Hrem as [Hrem | Hrem].
    + exists removed. rewrite Hcalls, Hrem. split; [reflexivity |].
      split; [cbn [map]; apply sublist_cons; assumption |].
      rewrite filter_cons. destruct (decide (err = None)) as [Hn | Hn]; [| assumption].
      specialize (Hnil Hn). rewrite Hrem in Hnil.
      apply (f_equal length) in Hnil. rewrite length_app in Hnil. simpl in Hnil. lia.
    + exists (Filename obj :: removed). rewrite Hcalls, Hrem, <- app_assoc.
      split; [reflexivity |].
      split; [cbn [map]; apply sublist_skip; assumption |].
      rewrite filter_cons. destruct (decide (err = None)); cbn [length]; lia.
Qed.

End PublishFacts.

(** ** addTraceData: incomplete headers and the order of the pairs *)

Section TraceOrder.

Variable time_Parse : string -> string -> option Time.

Implicit Types (d : gmap string Value) (k header : string) (ev : Event)
  (edgeMode : bool) (ws : list (string * string)).

(** X23. A header with a [Self] pair and nothing to name a trace id does
    not make the function panic: the event returned has a span id and no
    trace id. *)
Theorem addTraceData_Self_without_Root ev edgeMode header :
  traceHeader ev = Some header ->
  hasKey "Self" header = true ->
  hasKey "Root" header = false ->
  hasKey "trace.trace_id" header = false ->
  Data ev !! "trace.trace_id" = None ->
  exists ev' spanID,
    addTraceData time_Parse ev edgeMode = Returned ev'
    /\ Data ev' !! "trace.span_id" = Some (VString spanID)
    /\ Data ev' !! "trace.trace_id" = None.
Proof.
  intros Hh Hself Hroot Hlit Hnone.
  assert (Hret : returned (addTraceData time_Parse ev edgeMode) = true)
    by (rewrite addTraceData_returned, Hh, Hself; reflexivity).
  assert (Hnr : headerKeepsRoot edgeMode header = false)
    by (rewrite headerKeepsRoot_hasKey, Hself; reflexivity).
  destruct (addTraceData_result time_Parse ev edgeMode header Hh Hret)
    as (ev' & Heq & _ & _ & _ & _ & Hkeys).
  destruct (lastWrite "trace.span_id" (headerWrites edgeMode header)) as [spanID |] eqn:Hl.
  - exists ev', spanID. split; [exact Heq |]. split.
    + rewrite Hkeys by (discriminate || (right; assumption)). rewrite Hl. reflexivity.
    + rewrite Hkeys by (discriminate || (left; discriminate)).
      rewrite (proj2 (lastWrite_trace_id edgeMode header) (conj Hroot Hlit)). assumption.
  - exfalso.
    assert (Hn : hasKey "Self" header = false).
    { apply (proj1 (lastWrite_headerWrites_None edgeMode header "trace.span_id") Hl).
      reflexivity. }
    congruence.
Qed.

Lemma NoDup_keys_unique ws k (v v' : string) :
  NoDup ws.*1 -> (k, v) ∈ ws -> (k, v') ∈ ws -> v = v'.
Proof.
  induction ws as [| [k0 v0] ws IH]; intros Hnd H1 H2; [inversion H1 |].
  cbn [fmap list_fmap fst] in Hnd. apply NoDup_cons in Hnd as [Hnotin Hnd].
  assert (Hkey : forall x : string, (k0, x) ∈ ws -> False).
  { intros x Hx. apply Hnotin. apply list_elem_of_fmap. exists (k0, x). auto. }
  apply elem_of_cons in H1 as [E1 | H1]; apply elem_of_cons in H2 as [E2 | H2].
  - congruence.
  - injection E1 as -> ->. exfalso. eauto.
  - injection E2 as -> ->. exfalso. eauto.
  - eauto.
Qed.

Lemma lastWrite_NoDup ws k v :
  NoDup ws.*1 -> (k, v) ∈ ws -> lastWrite k ws = Some v.
Proof.
  intros Hnd Hin.
  destruct (lastWrite k ws) as [v' |] eqn:Hl.
  - apply lastWrite_elem_of in Hl. f_equal.
    exact (NoDup_keys_unique ws k v' v Hnd Hl Hin).
  - exfalso. exact (proj1 (lastWrite_None ws k) Hl v Hin).
Qed.

Lemma lastWrite_Permutation ws ws' k :
  ws ≡ₚ ws' -> NoDup ws.*1 -> lastWrite k ws = lastWrite k ws'.
Proof.
  intros Hp Hnd.
  assert (Hnd' : NoDup ws'.*1) by (rewrite <- Hp; assumption).
  destruct (lastWrite k ws) as [v |] eqn:Hl.
  - symmetry. apply lastWrite_NoDup; [assumption |].
    rewrite <- Hp. apply lastWrite_elem_of. assumption.
  - symmetry. apply lastWrite_None. intros v Hin.
    rewrite <- Hp in Hin. exact (proj1 (lastWrite_None ws k) Hl v Hin).
Qed.

Lemma forallb_Permutation {A : Type} (f : A -> bool) (l l' : list A) :
  l ≡ₚ l' -> forallb f l = forallb f l'.
Proof.
  induction 1 as [| x l l' _ IH | x y l | l l' l'' _ IH1 _ IH2]; simpl.
  - reflexivity.
  - rewrite IH. reflexivity.
  - destruct (f x), (f y); reflexivity.
  - congruence.
Qed.

(** X24. The order of the fields of a header does not matter as long as
    no two of its pairs are stored under the same key: the loop leaves the
    same map and the same root span flag. *)
Theorem traceFields_order edgeMode d header header' :
  strings_Split header ";" ≡ₚ strings_Split header' ";" ->
  NoDup (headerWrites edgeMode header).*1 ->
  traceFields edgeMode d header = traceFields edgeMode d header'.
Proof.
  intros Hp Hnd. rewrite !traceFields_writes.
  assert (Hw : headerWrites edgeMode header ≡ₚ headerWrites edgeMode header')
    by (unfold headerWrites; rewrite Hp; reflexivity).
  f_equal.
  - apply map_eq. intros k. rewrite !applyWrites_lookup.
    rewrite (lastWrite_Permutation _ _ k Hw Hnd). reflexivity.
  - unfold headerKeepsRoot. apply forallb_Permutation. assumption.
Qed.

End TraceOrder.

Lemma addTraceData_Self_without_Root_witness :
  traceHeader (Examples.albRecord "Self=1-67891234-12456789abcdef012345678")
  = Some "Self=1-67891234-12456789abcdef012345678"
  /\ hasKey "Self" "Self=1-67891234-12456789abcdef012345678" = true
  /\ hasKey "Root" "Self=1-67891234-12456789abcdef012345678" = false
  /\ hasKey "trace.trace_id" "Self=1-67891234-12456789abcdef012345678" = false
  /\ Data (Examples.albRecord "Self=1-67891234-12456789abcdef012345678") !! "trace.trace_id"
     = None
  /\ exists ev' spanID,
      addTraceData RFC3339.Parse
        (Examples.albRecord "Self=1-67891234-12456789abcdef012345678") false
      = Returned ev'
      /\ Data ev' !! "trace.span_id" = Some (VString spanID)
      /\ Data ev' !! "trace.trace_id" = None.
Proof.
  assert (H1 : traceHeader (Examples.albRecord "Self=1-67891234-12456789abcdef012345678")
               = Some "Self=1-67891234-12456789abcdef012345678") by reflexivity.
  assert (H2 : hasKey "Self" "Self=1-67891234-12456789abcdef012345678" = true)
    by reflexivity.
  assert (H3 : hasKey "Root" "Self=1-67891234-12456789abcdef012345678" = false)
    by reflexivity.
  assert (H4 : hasKey "trace.trace_id" "Self=1-67891234-12456789abcdef012345678" = false)
    by reflexivity.
  assert (H5 : Data (Examples.albRecord "Self=1-67891234-12456789abcdef012345678")
                 !! "trace.trace_id" = None) by reflexivity.
  repeat (split; [assumption |]).
  exact (addTraceData_Self_without_Root RFC3339.Parse _ false _ H1 H2 H3 H4 H5).
Defined.

Lemma traceFields_order_witness :
  strings_Split
    "Self=1-67891234-12456789abcdef012345678;Root=1-5a88eced-40876ce050d010360bfb23bd" ";"
  ≡ₚ strings_Split
       "Root=1-5a88eced-40876ce050d010360bfb23bd;Self=1-67891234-12456789abcdef012345678" ";"
  /\ NoDup
       (headerWrites false
          "Self=1-67891234-12456789abcdef012345678;Root=1-5a88eced-40876ce050d010360bfb23bd").*1
  /\ traceFields false ∅
       "Self=1-67891234-12456789abcdef012345678;Root=1-5a88eced-40876ce050d010360bfb23bd"
     = traceFields false ∅
         "Root=1-5a88eced-40876ce050d010360bfb23bd;Self=1-67891234-12456789abcdef012345678".
Proof.
  assert (H1 : strings_Split
                 "Self=1-67891234-12456789abcdef012345678;Root=1-5a88eced-40876ce050d010360bfb23bd"
                 ";"
               ≡ₚ strings_Split
                    "Root=1-5a88eced-40876ce050d010360bfb23bd;Self=1-67891234-12456789abcdef012345678"
                    ";")
    by (vm_compute; apply perm_swap).
  assert (H2 : NoDup
                 (headerWrites false
                    "Self=1-67891234-12456789abcdef012345678;Root=1-5a88eced-40876ce050d010360bfb23bd").*1)
    by (apply (bool_decide_unpack _); vm_compute; exact I).
  split; [exact H1 |]. split; [exact H2 |].
  exact (traceFields_order false ∅ _ _ H1 H2).
Defined.
